(** * Algo-Trading: a shallow embedding of the signal / indicator / ML pipeline

    The Python sources embedded here are
      - [src/data/data_loader.py]          (module [DataLoader]),
      - [src/analysis/technical_analysis.py] (module [TechnicalAnalysis]),
      - [src/analysis/strategy.py]         (module [Strategy]),
      - [src/models/ml_models.py]          (module [MLModels]),
      - [app.py]                           (module [App]),
      - [src/visualization/charts.py]      (module [Charts]),
      - [src/utils/logger.py]              (module [Logger]).

    Numbers.  A Python / NumPy float is modelled by [float]: a finite value is
    the rational it denotes and arithmetic on finite values is exact (no
    rounding, no overflow); NaN and the two infinities are kept because the
    code's row filters ([dropna]) and comparisons treat them specially.
    Signed zeros are not distinguished.

    Frames.  A pandas DataFrame is a row index together with a dictionary from
    column names to columns, which is what column assignment
    [df[name] = values] and the test [name in df.columns] act on. *)

From Stdlib Require Import QArith Qround Qabs ZArith Lia Lqa.
From stdpp Require Import gmap strings list fin_maps pretty sorting.

Local Open Scope Z_scope.

(* ===================================================================== *)
(** ** Floats *)
(* ===================================================================== *)

Module Float.

Inductive float : Type :=
  | NaN
  | PInf
  | NInf
  | Fin (q : Q).

Definition of_Z (z : Z) : float := Fin (inject_Z z).

Definition is_nan (x : float) : bool :=
  match x with NaN => true | _ => false end.

Definition is_finite (x : float) : bool :=
  match x with Fin _ => true | _ => false end.

Definition qsign (q : Q) : Z := Z.sgn (Qnum q).

Definition neg (x : float) : float :=
  match x with
  | NaN => NaN
  | PInf => NInf
  | NInf => PInf
  | Fin q => Fin (Qred (- q))
  end.

Definition add (x y : float) : float :=
  match x, y with
  | NaN, _ | _, NaN => NaN
  | PInf, NInf | NInf, PInf => NaN
  | PInf, _ | _, PInf => PInf
  | NInf, _ | _, NInf => NInf
  | Fin a, Fin b => Fin (Qred (a + b))
  end.

Definition sub (x y : float) : float := add x (neg y).

Definition inf_of_sign (s : Z) : float :=
  match s with
  | Z0 => NaN
  | Zpos _ => PInf
  | Zneg _ => NInf
  end.

Definition sign (x : float) : Z :=
  match x with
  | NaN => 0
  | PInf => 1
  | NInf => -1
  | Fin q => qsign q
  end.

Definition mul (x y : float) : float :=
  match x, y with
  | NaN, _ | _, NaN => NaN
  | Fin a, Fin b => Fin (Qred (a * b))
  | _, _ => inf_of_sign (sign x * sign y)
  end.

(** IEEE division: [x / 0] is an infinity of the sign of [x] and [0 / 0] is
    NaN; pandas and NumPy do not raise on it. *)
Definition div (x y : float) : float :=
  match x, y with
  | NaN, _ | _, NaN => NaN
  | Fin a, Fin b =>
      if Qeq_bool b 0 then inf_of_sign (qsign a) else Fin (Qred (a / b))
  | Fin _, _ => Fin 0
  | _, Fin b => inf_of_sign (sign x * (if Qeq_bool b 0 then 1 else qsign b))
  | _, _ => NaN
  end.

(** Comparisons: every comparison with NaN is false. *)
Definition ltb (x y : float) : bool :=
  match x, y with
  | NaN, _ | _, NaN => false
  | Fin a, Fin b => negb (Qle_bool b a)
  | NInf, NInf => false
  | NInf, _ => true
  | Fin _, PInf => true
  | _, _ => false
  end.

Definition gtb (x y : float) : bool := ltb y x.

Definition leb (x y : float) : bool :=
  match x, y with
  | NaN, _ | _, NaN => false
  | Fin a, Fin b => Qle_bool a b
  | NInf, _ => true
  | _, PInf => true
  | _, _ => false
  end.

Definition abs (x : float) : float :=
  match x with
  | NaN => NaN
  | PInf | NInf => PInf
  | Fin q => Fin (Qred (Qabs q))
  end.

(** Rounding to the nearest integer, ties to even. *)
Definition round_half_even (q : Q) : Z :=
  let f := Qfloor q in
  match ((q - inject_Z f) ?= (1 # 2))%Q with
  | Lt => f
  | Gt => f + 1
  | Eq => if Z.even f then f else f + 1
  end.

(** Rounding to two decimals: Python's [round(x, 2)] and [DataFrame.round(2)]. *)
Definition round2_Q (q : Q) : Q :=
  (inject_Z (round_half_even (q * 100)) / 100)%Q.

Definition round2 (x : float) : float :=
  match x with
  | Fin q => Fin (Qred (round2_Q q))
  | _ => x
  end.


End Float.

Export Float.

(* ===================================================================== *)
(** ** The pandas operations the sources use *)
(* ===================================================================== *)

Module Pandas.

(** One cell of a column.  A missing value is the float NaN, as in pandas. *)
Inductive cell : Type :=
  | CFloat (x : float)
  | CInt (z : Z)
  | CStr (s : string)
  | CTime (day : Z) (time_of_day : Z).

Definition isna (c : cell) : bool :=
  match c with CFloat NaN => true | _ => false end.

(** Numeric view of a cell; a string or a timestamp makes arithmetic and
    ordered comparison with a number raise [TypeError]. *)
Definition as_float (c : cell) : option float :=
  match c with
  | CFloat x => Some x
  | CInt z => Some (of_Z z)
  | _ => None
  end.

Definition to_numeric (col : list cell) : option (list float) :=
  mapM as_float col.

Definition of_floats (xs : list float) : list cell := CFloat <$> xs.

Definition of_bools (bs : list bool) : list cell :=
  (fun b : bool => CInt (if b then 1 else 0)) <$> bs.

(** [Series.shift(1)] and [Series.shift(-1)]. *)
Definition shift1 (xs : list float) : list float :=
  match xs with
  | [] => []
  | _ :: _ => NaN :: take (length xs - 1) xs
  end.

Definition shift_back1 (xs : list float) : list float :=
  match xs with
  | [] => []
  | _ :: rest => rest ++ [NaN]
  end.

(** [Series.ffill()]: the last valid observation is carried forward. *)
Fixpoint ffill_from (last : float) (xs : list float) : list float :=
  match xs with
  | [] => []
  | x :: rest =>
      let y := if is_nan x then last else x in
      y :: ffill_from y rest
  end.

Definition ffill (xs : list float) : list float := ffill_from NaN xs.

(** [Series.pct_change()] with its default [fill_method='pad']:
    [data / data.shift(1) - 1] on the forward-filled data. *)
Definition pct_change (xs : list float) : list float :=
  let data := ffill xs in
  zip_with (fun a b => sub (div a b) (of_Z 1)) data (shift1 data).

(** The window of [w] observations ending at position [i]. *)
Definition window (w i : nat) (xs : list float) : list float :=
  take w (drop (i + 1 - w) xs).

(** [Series.rolling(w).agg()]: [min_periods] defaults to the window size, so
    the result is NaN until [w] observations are there and whenever one of
    them is NaN. *)
Definition rolling (w : nat) (agg : list float -> float) (xs : list float)
  : list float :=
  (fun i : nat =>
     if (i + 1 <? w)%nat then NaN
     else let win := window w i xs in
          if existsb is_nan win then NaN else agg win)
  <$> seq 0 (length xs).

Definition fmin (x y : float) : float := if ltb y x then y else x.
Definition fmax (x y : float) : float := if ltb x y then y else x.

Definition min_of (xs : list float) : float :=
  match xs with [] => NaN | x :: rest => foldl fmin x rest end.
Definition max_of (xs : list float) : float :=
  match xs with [] => NaN | x :: rest => foldl fmax x rest end.
Definition sum_of (xs : list float) : float := foldl add (of_Z 0) xs.
Definition mean_of (xs : list float) : float :=
  div (sum_of xs) (of_Z (Z.of_nat (length xs))).

Definition rolling_min (w : nat) := rolling w min_of.
Definition rolling_max (w : nat) := rolling w max_of.
Definition rolling_mean (w : nat) := rolling w mean_of.

(** Rows picked by a boolean mask, [df[mask]]. *)
Fixpoint select_rows {A : Type} (mask : list bool) (xs : list A) : list A :=
  match mask, xs with
  | b :: mask', x :: xs' =>
      if b then x :: select_rows mask' xs' else select_rows mask' xs'
  | _, _ => []
  end.

(** A DataFrame: the row labels and the columns by name. *)
Record DataFrame : Type := mkDataFrame {
  index : list nat;
  columns : gmap string (list cell)
}.

Definition empty_frame : DataFrame := mkDataFrame [] ∅.

Definition nrows (df : DataFrame) : nat := length (index df).

(** [df.empty]: no row or no column. *)
Definition is_empty (df : DataFrame) : bool :=
  (nrows df =? 0)%nat || bool_decide (columns df = ∅).

Definition has_column (name : string) (df : DataFrame) : bool :=
  bool_decide (is_Some (columns df !! name)).

(** [df[name]]; [None] is the [KeyError]. *)
Definition get_column (name : string) (df : DataFrame) : option (list cell) :=
  columns df !! name.

(** [df[name]] read as numbers: [None] when the column is missing or holds a
    cell that is not a number. *)
Definition get_numeric (name : string) (df : DataFrame) : option (list float) :=
  col ← columns df !! name; to_numeric col.

(** Assigned values are aligned with the frame's rows: positions the values do
    not cover hold NaN. *)
Definition align (n : nat) (col : list cell) : list cell :=
  take n (col ++ replicate n (CFloat NaN)).

(** [df[name] = col]: the column is replaced when it exists, added otherwise. *)
Definition set_column (name : string) (col : list cell) (df : DataFrame)
  : DataFrame :=
  mkDataFrame (index df) (<[name := align (nrows df) col]> (columns df)).

Definition cell_present (col : list cell) (i : nat) : bool :=
  match col !! i with
  | Some c => negb (isna c)
  | None => true
  end.

(** Row [i] holds no missing value in any column. *)
Definition row_complete (cols : gmap string (list cell)) (i : nat) : bool :=
  bool_decide (map_Forall (fun _ col => cell_present col i = true) cols).

Definition filter_rows (mask : list bool) (df : DataFrame) : DataFrame :=
  mkDataFrame (select_rows mask (index df)) (select_rows mask <$> columns df).

(** [df.dropna()]: every row with a missing value in any column is removed;
    the labels of the remaining rows are kept. *)
Definition dropna_mask (df : DataFrame) : list bool :=
  row_complete (columns df) <$> seq 0 (nrows df).

Definition dropna (df : DataFrame) : DataFrame :=
  filter_rows (dropna_mask df) df.

(** The positions of the rows that [dropna] removes. *)
Definition incomplete_rows (df : DataFrame) : list nat :=
  filter (fun i => row_complete (columns df) i = false) (seq 0 (nrows df)).

(** [df[names]]: the listed columns only. *)
Definition select_columns (names : list string) (df : DataFrame) : DataFrame :=
  mkDataFrame (index df)
    (filter (fun kv : string * list cell => kv.1 ∈ names) (columns df)).

(** The cell of column [name] in the row at position [i], [df[name].iloc[i]]. *)
Definition iloc (df : DataFrame) (name : string) (i : nat) : option cell :=
  col ← columns df !! name; col !! i.

(** The cell of column [name] in the row labelled [label]. *)
Definition cell_at (df : DataFrame) (label : nat) (name : string) : option cell :=
  col ← columns df !! name;
  found ← list_find (fun p : nat * cell => p.1 = label) (zip (index df) col);
  Some found.2.2.

End Pandas.

Export Pandas.

Local Open Scope string_scope.

(* ===================================================================== *)
(** ** Configuration constants *)
(* ===================================================================== *)

Module Config.

(** Modelled from the spec: [src/config.py] is not part of the sources; the
    indicator periods are the ones section 4.2 lists (RSI(14), SMA(20),
    SMA(50), MACD(12,26,9), Bollinger Bands(20, 2 sigma)) and the column names
    the strategy and the trainer read. *)
Definition RSI_PERIOD : nat := 14.
Definition SMA_SHORT_PERIOD : nat := 20.
Definition SMA_LONG_PERIOD : nat := 50.
Definition MACD_FAST : nat := 12.
Definition MACD_SLOW : nat := 26.
Definition MACD_SIGNAL : nat := 9.
Definition BBANDS_PERIOD : nat := 20.
Definition BBANDS_STD : float := of_Z 2.

(** The strategy thresholds are configuration constants whose values the
    sources do not give; they are parameters of the strategy. *)
Record thresholds : Type := mkThresholds {
  RSI_OVERSOLD : float;
  STOCH_OVERSOLD : float;
  MIN_SUPPORT_DISTANCE : float
}.

End Config.

(* ===================================================================== *)
(** ** src/analysis/technical_analysis.py *)
(* ===================================================================== *)

Module TechnicalAnalysis.

Import Config.

(** What a call [df.ta.<indicator>(..., append=True)] of the pandas_ta
    library does: it raises, or computes nothing (too little data), or yields
    named columns that are assigned to the frame. *)
Inductive ta_result : Type :=
  | TaRaise
  | TaNothing
  | TaColumns (cols : list (string * list float)).

(** The indicator functions of pandas_ta that the engine calls.  The library
    is not part of the repository: the engine is embedded over any
    implementation of this interface. *)
Record pandas_ta : Type := mkPandasTa {
  ta_rsi : nat -> DataFrame -> ta_result;
  ta_sma : nat -> DataFrame -> ta_result;
  ta_ema : nat -> DataFrame -> ta_result;
  ta_macd : DataFrame -> ta_result;
  ta_bbands : nat -> float -> DataFrame -> ta_result;
  ta_stoch : DataFrame -> ta_result;
  ta_willr : DataFrame -> ta_result;
  ta_atr : nat -> DataFrame -> ta_result;
  ta_ad : DataFrame -> ta_result;
  ta_obv : DataFrame -> ta_result
}.

Definition assign_columns (cols : list (string * list float)) (df : DataFrame)
  : DataFrame :=
  foldl (fun d nc => set_column nc.1 (of_floats nc.2) d) df cols.

(** [df.ta.f(append=True)] inside the [try] block: [None] is an exception. *)
Definition append (f : DataFrame -> ta_result) (df : DataFrame)
  : option DataFrame :=
  match f df with
  | TaRaise => None
  | TaNothing => Some df
  | TaColumns cols => Some (assign_columns cols df)
  end.

Definition zip_with3 {A B C D : Type} (f : A -> B -> C -> D)
    (xs : list A) (ys : list B) (zs : list C) : list D :=
  zip_with (fun g z => g z) (zip_with f xs ys) zs.

(** The custom features, lines 36-43. *)
Definition custom_features (df : DataFrame) : option DataFrame :=
  close ← get_numeric "Close" df;
  let df := set_column "Price_Change" (of_floats (pct_change close)) df in
  volume ← get_numeric "Volume" df;
  let df := set_column "Volume_Change" (of_floats (pct_change volume)) df in
  high ← get_numeric "High" df;
  low ← get_numeric "Low" df;
  close ← get_numeric "Close" df;
  let df := set_column "High_Low_Pct"
    (of_floats (zip_with3 (fun h l c => div (sub h l) c) high low close)) df in
  close ← get_numeric "Close" df;
  open ← get_numeric "Open" df;
  let df := set_column "Open_Close_Pct"
    (of_floats (zip_with (fun c o => div (sub c o) o) close open)) df in
  low ← get_numeric "Low" df;
  let df := set_column "Support" (of_floats (rolling_min 20 low)) df in
  high ← get_numeric "High" df;
  let df := set_column "Resistance" (of_floats (rolling_max 20 high)) df in
  close ← get_numeric "Close" df;
  support ← get_numeric "Support" df;
  let df := set_column "Distance_to_Support"
    (of_floats (zip_with (fun c s => div (sub c s) c) close support)) df in
  resistance ← get_numeric "Resistance" df;
  close ← get_numeric "Close" df;
  let df := set_column "Distance_to_Resistance"
    (of_floats (zip_with (fun r c => div (sub r c) c) resistance close)) df in
  Some df.

(** Lines 20-33: the twelve library calls, in the order of the source. *)
Definition indicator_calls (ta : pandas_ta) : list (DataFrame -> ta_result) :=
  [ ta_rsi ta RSI_PERIOD;
    ta_sma ta SMA_SHORT_PERIOD;
    ta_sma ta SMA_LONG_PERIOD;
    ta_ema ta MACD_FAST;
    ta_ema ta MACD_SLOW;
    ta_macd ta;
    ta_bbands ta BBANDS_PERIOD BBANDS_STD;
    ta_stoch ta;
    ta_willr ta;
    ta_atr ta RSI_PERIOD;
    ta_ad ta;
    ta_obv ta ].

Definition append_all (calls : list (DataFrame -> ta_result)) (df : DataFrame)
  : option DataFrame :=
  foldl (fun acc f => acc ≫= append f) (Some df) calls.

(** The frame just before [df.dropna(inplace=True)]. *)
Definition with_indicators (ta : pandas_ta) (df : DataFrame) : option DataFrame :=
  df ← append_all (indicator_calls ta) df;
  custom_features df.

(** [calculate_advanced_indicators(df)]; [None] is the function's [None]
    (empty input, or an exception caught by its [except]). *)
Definition calculate_advanced_indicators (ta : pandas_ta) (df : DataFrame)
  : option DataFrame :=
  if is_empty df then None
  else
    df ← with_indicators ta df;
    Some (dropna df).

Definition bar_names : list string := ["Open"; "High"; "Low"; "Close"; "Volume"].

(** The five bar columns are there and hold numbers. *)
Definition bars_numeric (df : DataFrame) : Prop :=
  Forall (fun name => is_Some (get_numeric name df)) bar_names.

(** No indicator call of the engine raises on a frame of bars. *)
Definition never_raises (ta : pandas_ta) : Prop :=
  Forall (fun f => forall df, bars_numeric df -> f df ≠ TaRaise)
         (indicator_calls ta).

(** The library names its columns after the indicators: it never assigns a
    bar column. *)
Definition keeps_bars (ta : pandas_ta) : Prop :=
  Forall (fun f => forall df cols, f df = TaColumns cols ->
            Forall (fun nc : string * list float => nc.1 ∉ bar_names) cols)
         (indicator_calls ta).

(** Every column has one cell per row. *)
Definition well_formed (df : DataFrame) : Prop :=
  map_Forall (fun _ col => length col = nrows df) (columns df).

End TechnicalAnalysis.

(* ===================================================================== *)
(** ** A reference implementation of the indicator library *)
(* ===================================================================== *)

(** The formulas of the indicators as pandas_ta computes them by default,
    over the exact floats of this development.  It instantiates the interface
    [pandas_ta] for the closed examples; the theorems about the engine hold
    for every implementation of the interface.  The square root of the
    Bollinger bands is computed to 52 binary digits. *)
Module PandasTaReference.

Import Config TechnicalAnalysis.

Definition col2 (f : float -> float -> float) (xs ys : list float) : list float :=
  zip_with f xs ys.

Definition scale (k : float) (xs : list float) : list float := mul k <$> xs.

(** [non_zero_range(a, b)]: the difference, moved off zero by the machine
    epsilon. *)
Definition non_zero_range (a b : float) : float :=
  let d := sub a b in
  match d with
  | Fin q => if Qeq_bool q 0 then Fin (1 # 2 ^ 52) else d
  | _ => d
  end.

Definition fsqrt (x : float) : float :=
  match x with
  | Fin q =>
      if Qle_bool 0 q
      then Fin (Qred (Z.sqrt (Qnum q * 4 ^ 52 / Zpos (Qden q)) # 2 ^ 52))
      else NaN
  | NInf => NaN
  | _ => x
  end.

Fixpoint leading_nans (xs : list float) : nat :=
  match xs with
  | x :: rest => if is_nan x then S (leading_nans rest) else 0
  | [] => 0
  end.

Fixpoint ema_run (alpha prev : float) (xs : list float) : list float :=
  match xs with
  | [] => []
  | x :: rest =>
      let y := add (mul alpha x) (mul (sub (of_Z 1) alpha) prev) in
      y :: ema_run alpha y rest
  end.

(** Exponential moving average seeded with the mean of the first [n] valid
    observations, [alpha = 2 / (n + 1)]. *)
Definition ema_of (n : nat) (xs : list float) : list float :=
  let k := leading_nans xs in
  let valid := drop k xs in
  if (length valid <? n)%nat then replicate (length xs) NaN
  else
    let alpha := div (of_Z 2) (of_Z (Z.of_nat n + 1)) in
    let seed := mean_of (take n valid) in
    replicate (k + (n - 1)) NaN ++ seed :: ema_run alpha seed (drop n valid).

(** Wilder's moving average, [ewm(alpha=1/n, min_periods=n).mean()]. *)
Fixpoint rma_run (n : nat) (decay num den : float) (count : nat)
    (xs : list float) : list float :=
  match xs with
  | [] => []
  | x :: rest =>
      if is_nan x then NaN :: rma_run n decay num den count rest
      else
        let num' := add x (mul decay num) in
        let den' := add (of_Z 1) (mul decay den) in
        (if (S count <? n)%nat then NaN else div num' den')
        :: rma_run n decay num' den' (S count) rest
  end.

Definition rma_of (n : nat) (xs : list float) : list float :=
  let decay := sub (of_Z 1) (div (of_Z 1) (of_Z (Z.of_nat n))) in
  rma_run n decay (of_Z 0) (of_Z 0) 0 xs.

Definition diff1 (xs : list float) : list float := col2 sub xs (shift1 xs).

Fixpoint cumsum_run (acc : float) (xs : list float) : list float :=
  match xs with
  | [] => []
  | x :: rest =>
      if is_nan x then NaN :: cumsum_run acc rest
      else let s := add acc x in s :: cumsum_run s rest
  end.

Definition cumsum_of (xs : list float) : list float := cumsum_run (of_Z 0) xs.

(** A column of the frame for an indicator: a missing column or a series
    shorter than [need] makes the call compute nothing, a column that is not
    numeric makes it raise. *)
Definition with_series (name : string) (need : nat) (df : DataFrame)
    (k : list float -> ta_result) : ta_result :=
  match columns df !! name with
  | None => TaNothing
  | Some col =>
      match to_numeric col with
      | None => TaRaise
      | Some xs => if (length xs <? need)%nat then TaNothing else k xs
      end
  end.

Definition rsi_of (n : nat) (close : list float) : list float :=
  let d := diff1 close in
  let positive := (fun x => if is_nan x then NaN else fmax x (of_Z 0)) <$> d in
  let negative := (fun x => if is_nan x then NaN else fmin x (of_Z 0)) <$> d in
  let pa := rma_of n positive in
  let na := rma_of n negative in
  col2 (fun p q => div (mul (of_Z 100) p) (add p (abs q))) pa na.

Definition rsi (n : nat) (df : DataFrame) : ta_result :=
  with_series "Close" n df (fun close =>
    TaColumns [("RSI_" +:+ pretty n, rsi_of n close)]).

Definition sma (n : nat) (df : DataFrame) : ta_result :=
  with_series "Close" n df (fun close =>
    TaColumns [("SMA_" +:+ pretty n, rolling_mean n close)]).

Definition ema (n : nat) (df : DataFrame) : ta_result :=
  with_series "Close" n df (fun close =>
    TaColumns [("EMA_" +:+ pretty n, ema_of n close)]).

Definition macd (df : DataFrame) : ta_result :=
  with_series "Close" 26 df (fun close =>
    let line := col2 sub (ema_of 12 close) (ema_of 26 close) in
    let signal := ema_of 9 line in
    TaColumns [("MACD_12_26_9", line);
               ("MACDh_12_26_9", col2 sub line signal);
               ("MACDs_12_26_9", signal)]).

(** The label of the band width in the column names, for a whole number of
    deviations: [2.0]. *)
Definition deviations_label (k : float) : string :=
  match k with
  | Fin q => pretty (Qnum q / Zpos (Qden q)) +:+ ".0"
  | _ => "nan"
  end.

Definition variance_of (xs : list float) : float :=
  let m := mean_of xs in
  mean_of ((fun x => mul (sub x m) (sub x m)) <$> xs).

Definition bbands (n : nat) (k : float) (df : DataFrame) : ta_result :=
  with_series "Close" n df (fun close =>
    let mid := rolling_mean n close in
    let dev := scale k (fsqrt <$> rolling n variance_of close) in
    let lower := col2 sub mid dev in
    let upper := col2 add mid dev in
    let ulr := col2 non_zero_range upper lower in
    let suffix := pretty n +:+ "_" +:+ deviations_label k in
    TaColumns [("BBL_" +:+ suffix, lower);
               ("BBM_" +:+ suffix, mid);
               ("BBU_" +:+ suffix, upper);
               ("BBB_" +:+ suffix, col2 div (scale (of_Z 100) ulr) mid);
               ("BBP_" +:+ suffix, col2 div (col2 non_zero_range close lower) ulr)]).

Definition with_hlc (need : nat) (df : DataFrame)
    (k : list float -> list float -> list float -> ta_result) : ta_result :=
  with_series "High" need df (fun high =>
  with_series "Low" need df (fun low =>
  with_series "Close" need df (fun close => k high low close))).

Definition stoch (df : DataFrame) : ta_result :=
  with_hlc 14 df (fun high low close =>
    let lowest := rolling_min 14 low in
    let highest := rolling_max 14 high in
    let raw := col2 div (scale (of_Z 100) (col2 sub close lowest))
                        (col2 non_zero_range highest lowest) in
    let k := rolling_mean 3 raw in
    let d := rolling_mean 3 k in
    TaColumns [("STOCHk_14_3_3", k); ("STOCHd_14_3_3", d)]).

Definition willr (df : DataFrame) : ta_result :=
  with_hlc 14 df (fun high low close =>
    let lowest := rolling_min 14 low in
    let highest := rolling_max 14 high in
    TaColumns
      [("WILLR_14",
        (fun r => mul (of_Z 100) (sub r (of_Z 1)))
        <$> col2 div (col2 sub close lowest) (col2 non_zero_range highest lowest))]).

Definition true_range (high low close : list float) : list float :=
  let prev := shift1 close in
  TechnicalAnalysis.zip_with3
    (fun h l pc =>
       if is_nan pc then NaN
       else fmax (abs (sub h l)) (fmax (abs (sub h pc)) (abs (sub l pc))))
    high low prev.

Definition atr (n : nat) (df : DataFrame) : ta_result :=
  with_hlc n df (fun high low close =>
    TaColumns [("ATRr_" +:+ pretty n, rma_of n (true_range high low close))]).

Definition ad (df : DataFrame) : ta_result :=
  with_hlc 1 df (fun high low close =>
  with_series "Volume" 1 df (fun volume =>
    let flow :=
      TechnicalAnalysis.zip_with3
        (fun h l c => div (sub (mul (of_Z 2) c) (add h l)) (non_zero_range h l))
        high low close in
    TaColumns [("AD", cumsum_of (col2 mul flow volume))])).

(** On-balance volume: the running sum of the volume signed by the
    direction of the close, the first bar counting positive. *)
Definition signed_series (close : list float) : list float :=
  match diff1 close with
  | [] => []
  | _ :: rest =>
      of_Z 1 :: ((fun d => if is_nan d then NaN else of_Z (Float.sign d)) <$> rest)
  end.

Definition obv (df : DataFrame) : ta_result :=
  with_series "Close" 1 df (fun close =>
  with_series "Volume" 1 df (fun volume =>
    TaColumns [("OBV", cumsum_of (col2 mul (signed_series close) volume))])).

Definition library : pandas_ta :=
  mkPandasTa rsi sma ema macd bbands stoch willr atr ad obv.

End PandasTaReference.

(* ===================================================================== *)
(** ** src/analysis/strategy.py *)
(* ===================================================================== *)

Module Strategy.

Import Config.

(** A vectorised comparison of two columns, and boolean [&]. *)
Definition col_gt (xs ys : list float) : list bool := zip_with gtb xs ys.
Definition col_le (xs ys : list float) : list bool := zip_with leb xs ys.
Definition col_lt_const (xs : list float) (k : float) : list bool :=
  (fun x => ltb x k) <$> xs.
Definition col_gt_const (xs : list float) (k : float) : list bool :=
  (fun x => gtb x k) <$> xs.
Definition col_and (xs ys : list bool) : list bool := zip_with andb xs ys.

(** The six rule conditions, lines 19-26. *)
Record conditions : Type := mkConditions {
  rsi_oversold : list bool;
  sma_crossover : list bool;
  volume_confirm : list bool;
  macd_bullish : list bool;
  stoch_oversold : list bool;
  price_above_support : list bool
}.

(** Reading the rule columns; [None] is the exception ([KeyError] for a
    missing column, [TypeError] for one that is not numeric) that the
    function's [except] turns into an empty result. *)
Definition rule_conditions (th : thresholds) (df : DataFrame) : option conditions :=
  rsi ← get_numeric "RSI_14" df;
  sma20 ← get_numeric "SMA_20" df;
  sma50 ← get_numeric "SMA_50" df;
  volume ← get_numeric "Volume" df;
  macd ← get_numeric "MACD_12_26_9" df;
  macds ← get_numeric "MACDs_12_26_9" df;
  stochk ← get_numeric "STOCHk_14_3_3" df;
  dist ← get_numeric "Distance_to_Support" df;
  Some {|
    rsi_oversold := col_lt_const rsi (RSI_OVERSOLD th);
    sma_crossover :=
      col_and (col_gt sma20 sma50) (col_le (shift1 sma20) (shift1 sma50));
    volume_confirm := col_gt volume (rolling_mean 20 volume);
    macd_bullish := col_gt macd macds;
    stoch_oversold := col_lt_const stochk (STOCH_OVERSOLD th);
    price_above_support := col_gt_const dist (MIN_SUPPORT_DISTANCE th)
  |}.

(** Lines 29-30; the names are the source's: [strong_buy] is the standard
    buy and [confirmed_buy] the strong buy. *)
Definition strong_buy (c : conditions) : list bool :=
  col_and (col_and (col_and (rsi_oversold c) (sma_crossover c))
                   (volume_confirm c)) (macd_bullish c).

Definition confirmed_buy (c : conditions) : list bool :=
  col_and (col_and (strong_buy c) (stoch_oversold c)) (price_above_support c).

(** [df.loc[mask, name] = v] on one column: the rows where the mask is true. *)
Definition loc_set (mask : list bool) (v : Z) (col : list Z) : list Z :=
  imap (fun i s => if default false (mask !! i) then v else s) col.

(** Lines 33-35. *)
Definition signal_column (n : nat) (c : conditions) : list Z :=
  loc_set (confirmed_buy c) 2 (loc_set (strong_buy c) 1 (replicate n 0)).

Definition signal_type (s : Z) : cell :=
  if (s =? 1)%Z then CStr "BUY"
  else if (s =? 2)%Z then CStr "STRONG_BUY"
  else CFloat NaN.

(** [apply_enhanced_trading_strategy(df)]: the returned frame of buy signals
    and the caller's frame after the call (the function assigns to [df]). *)
Definition apply_enhanced_trading_strategy (th : thresholds) (df : DataFrame)
  : DataFrame * DataFrame :=
  if is_empty df || negb (has_column "RSI_14" df) then (empty_frame, df)
  else
    match rule_conditions th df with
    | None => (empty_frame, df)
    | Some c =>
        let signal := signal_column (nrows df) c in
        let df' := set_column "Signal" (CInt <$> signal) df in
        let mask := (fun s => (0 <? s)%Z) <$> signal in
        let buy_signals := filter_rows mask df' in
        let kept := select_rows mask signal in
        let buy_signals :=
          set_column "Signal_Type" (signal_type <$> kept) buy_signals in
        (buy_signals, df')
    end.

End Strategy.

(* ===================================================================== *)
(** ** src/models/ml_models.py *)
(* ===================================================================== *)

Module MLModels.

Import Strategy.

(** *** sklearn.metrics on label lists *)

Definition count_where {A : Type} (p : A -> bool) (xs : list A) : Z :=
  Z.of_nat (length (filter (fun x => p x = true) xs)).

(** [accuracy_score(y_true, y_pred)]: the fraction of positions that agree. *)
Definition accuracy_score (y_true y_pred : list Z) : float :=
  div (of_Z (count_where (fun p : Z * Z => p.1 =? p.2)%Z (zip y_true y_pred)))
      (of_Z (Z.of_nat (length y_true))).

Definition ratio (a b : Z) : Q :=
  if (b =? 0)%Z then 0%Q else Qred (inject_Z a / inject_Z b).

(** Per label: true positives, predicted count, support. *)
Definition tp (l : Z) (y_true y_pred : list Z) : Z :=
  count_where (fun p : Z * Z => (p.1 =? l) && (p.2 =? l))%Z (zip y_true y_pred).
Definition predicted (l : Z) (y_pred : list Z) : Z :=
  count_where (fun y => y =? l)%Z y_pred.
Definition support (l : Z) (y_true : list Z) : Z :=
  count_where (fun y => y =? l)%Z y_true.

(** Precision, recall and F1 of one label; a zero denominator gives 0
    ([zero_division='warn']). *)
Definition label_precision (y_true y_pred : list Z) (l : Z) : Q :=
  ratio (tp l y_true y_pred) (predicted l y_pred).
Definition label_recall (y_true y_pred : list Z) (l : Z) : Q :=
  ratio (tp l y_true y_pred) (support l y_true).
Definition label_f1 (y_true y_pred : list Z) (l : Z) : Q :=
  ratio (2 * tp l y_true y_pred) (predicted l y_pred + support l y_true).

(** The labels of the report: those occurring in [y_true] or [y_pred]. *)
Definition report_labels (y_true y_pred : list Z) : list Z :=
  remove_dups (y_true ++ y_pred).

(** The 'weighted avg' row of [classification_report]: the per-label metric
    averaged with the label supports as weights. *)
Definition weighted_avg (metric : Z -> Q) (y_true y_pred : list Z) : float :=
  let labels := report_labels y_true y_pred in
  let total := foldr (fun l acc => (support l y_true + acc)%Z) 0%Z labels in
  let weighted :=
    foldr (fun l acc => (inject_Z (support l y_true) * metric l + acc)%Q) 0%Q labels in
  if (total =? 0)%Z then Fin 0 else Fin (Qred (weighted / inject_Z total)).

(** *** The classifiers *)

(** A fitted model, as far as the trainer looks at it: a decision tree has
    [feature_importances_], a logistic regression does not. *)
Inductive estimator : Type :=
  | DecisionTreeClassifier (feature_importances_ : list float)
  | LogisticRegression.

Record split : Type := mkSplit {
  X_train : DataFrame;
  X_test : DataFrame;
  y_train : list Z;
  y_test : list Z
}.

(** The sklearn functions the trainer calls, with the arguments the source
    fixes (test_size=0.3, random_state=42, stratify=y; the tree's and the
    regression's hyper-parameters).  [None] is a raised exception.  A
    classifier's [fit] followed by [predict] yields the fitted model and the
    predicted labels of the test rows.  The library is not part of the
    repository; what is used of [train_test_split] is that every row it is
    given goes to the training or to the test part. *)
Record sklearn : Type := mkSklearn {
  train_test_split : DataFrame -> list Z -> option split;
  scaler_fit_transform : DataFrame -> DataFrame -> option (list (list float) * list (list float));
  tree_fit_predict : DataFrame -> list Z -> DataFrame -> option (estimator * list Z);
  logreg_fit_predict :
    list (list float) -> list Z -> list (list float) -> option (estimator * list Z)
}.

Definition split_partition (sk : sklearn) : Prop :=
  forall X y sp,
    train_test_split sk X y = Some sp ->
    index (X_train sp) ++ index (X_test sp) ≡ₚ index X.

(** *** train_ensemble_models *)

Definition ml_features : list string :=
  [ "RSI_14"; "MACD_12_26_9"; "MACDs_12_26_9"; "MACDh_12_26_9";
    "STOCHk_14_3_3"; "STOCHd_14_3_3"; "WILLR_14";
    "BBL_20_2.0"; "BBM_20_2.0"; "BBU_20_2.0"; "BBB_20_2.0"; "BBP_20_2.0";
    "ATRr_14"; "AD"; "OBV";
    "Price_Change"; "Volume_Change"; "High_Low_Pct"; "Open_Close_Pct";
    "Distance_to_Support"; "Distance_to_Resistance" ].

(** Line 21: [(df['Close'].shift(-1) > df['Close']).astype(int)]. *)
Definition target_column (close : list float) : list cell :=
  of_bools (col_gt (shift_back1 close) close).

Definition available_features (df : DataFrame) : list string :=
  filter (fun f => has_column f df = true) ml_features.

(** Line 41: [df[available_features + ['Target']].dropna()]. *)
Definition ml_frame (df : DataFrame) : DataFrame :=
  dropna (select_columns (available_features df ++ ["Target"]) df).

Definition as_label (c : cell) : Z :=
  match c with CInt z => z | _ => 0 end.

(** One entry of the [results] dictionary. *)
Record model_report : Type := mkReport {
  accuracy : float;
  precision : float;
  recall : float;
  f1_score : float;
  model : estimator;
  scaler : bool
}.

Record details : Type := mkDetails {
  model_results : gmap string model_report;
  feature_importance : list (string * float);
  features_used : list string
}.

(** The returned triple; [None] for the details is the empty dictionary. *)
Definition training_result : Type := option estimator * float * option details.

Definition empty_result : training_result := (None, of_Z 0, None).

(** The loop variables of lines 64-66. *)
Record loop_state : Type := mkLoop {
  results : gmap string model_report;
  best_model : option estimator;
  best_accuracy : float
}.

Definition loop_init : loop_state := mkLoop ∅ None (of_Z 0).

(** One iteration of the loop of lines 68-97 for the model [name]; [attempt]
    is what [fit] and [predict] gave, [None] when one of them raised (the
    iteration is then skipped by [continue]). *)
Definition loop_step (y_test : list Z) (st : loop_state)
    (it : string * option (estimator * list Z)) : loop_state :=
  match it.2 with
  | None => st
  | Some (m, y_pred) =>
      let acc := accuracy_score y_test y_pred in
      let rep := {|
        accuracy := acc;
        precision := weighted_avg (label_precision y_test y_pred) y_test y_pred;
        recall := weighted_avg (label_recall y_test y_pred) y_test y_pred;
        f1_score := weighted_avg (label_f1 y_test y_pred) y_test y_pred;
        model := m;
        scaler := bool_decide (it.1 = "Logistic Regression")
      |} in
      let res := <[it.1 := rep]> (results st) in
      if gtb acc (best_accuracy st)
      then mkLoop res (Some m) acc
      else mkLoop res (best_model st) (best_accuracy st)
  end.

Definition train_loop (y_test : list Z)
    (attempts : list (string * option (estimator * list Z))) : loop_state :=
  foldl (loop_step y_test) loop_init attempts.

(** [sorted(items, key=value, reverse=True)]: a stable descending sort. *)
Fixpoint insert_desc (x : string * float) (l : list (string * float))
  : list (string * float) :=
  match l with
  | [] => [x]
  | y :: rest => if gtb y.2 x.2 then y :: insert_desc x rest else x :: l
  end.

Definition sort_desc (l : list (string * float)) : list (string * float) :=
  foldr insert_desc [] l.

(** Lines 104-107. *)
Definition importance_of (m : estimator) (features : list string)
  : list (string * float) :=
  match m with
  | DecisionTreeClassifier imp => take 10 (sort_desc (zip features imp))
  | LogisticRegression => []
  end.

(** Lines 99-115 after the loop. *)
Definition finish (features : list string) (st : loop_state) : training_result :=
  match best_model st with
  | None => empty_result
  | Some m =>
      (Some m, round2 (mul (best_accuracy st) (of_Z 100)),
       Some {| model_results := results st;
               feature_importance := importance_of m features;
               features_used := features |})
  end.

(** Lines 45-97: split, scale, fit both models in the fixed order. *)
Definition fit_models (sk : sklearn) (X : DataFrame) (y : list Z)
  : option loop_state :=
  sp ← train_test_split sk X y;
  scaled ← scaler_fit_transform sk (X_train sp) (X_test sp);
  let attempts :=
    [ ("Decision Tree", tree_fit_predict sk (X_train sp) (y_train sp) (X_test sp));
      ("Logistic Regression",
       logreg_fit_predict sk scaled.1 (y_train sp) scaled.2) ] in
  Some (train_loop (y_test sp) attempts).

(** [train_ensemble_models(df)]: the returned triple and the caller's frame
    after the call (line 21 assigns the 'Target' column to [df]). *)
Definition train_ensemble_models (sk : sklearn) (df : DataFrame)
  : training_result * DataFrame :=
  if is_empty df then (empty_result, df)
  else
    match get_numeric "Close" df with
    | None => (empty_result, df)
    | Some close =>
        let df := set_column "Target" (target_column close) df in
        let features := available_features df in
        if (length features <? 5)%nat then (empty_result, df)
        else
          let ml_df := ml_frame df in
          let X := select_columns features ml_df in
          let y := as_label <$> default [] (get_column "Target" ml_df) in
          match fit_models sk X y with
          | None => (empty_result, df)
          | Some st => (finish features st, df)
          end
    end.



End MLModels.

(* ===================================================================== *)
(** ** src/data/data_loader.py *)
(* ===================================================================== *)

Module DataLoader.

Local Open Scope Q_scope.

(** [datetime.now()]: a calendar day (days since 1970-01-01) and the time
    within the day (microseconds).  [timedelta(days=k)] changes the day only. *)
Record datetime : Type := mkDatetime {
  dt_day : Z;
  dt_time : Z
}.

(** NumPy's global random generator, threaded as a state: [seed] resets it,
    each draw of [n] samples advances it.  The generator's algorithm is not
    part of the repository; what is used of it is that a draw has the
    requested size and that log-normal samples are non-negative and fit a
    64-bit integer. *)
Record np_random : Type := mkNpRandom {
  rng_state : Type;
  seed : Z -> rng_state;
  normal : Q -> Q -> nat -> rng_state -> list Q * rng_state;
  lognormal : Q -> Q -> nat -> rng_state -> list Q * rng_state
}.

Record np_random_laws (r : np_random) : Prop := mkNpLaws {
  normal_size : forall loc scale n st, length (normal r loc scale n st).1 = n;
  lognormal_size : forall mean sigma n st,
    length (lognormal r mean sigma n st).1 = n;
  lognormal_range : forall mean sigma n st,
    Forall (fun x => 0 <= x /\ x < inject_Z (2 ^ 63))
           (lognormal r mean sigma n st).1
}.

(** What the generator takes from its process: Python's string [hash] (fixed
    within a process), NumPy's [exp] on floats and the random generator. *)
Record process : Type := mkProcess {
  py_hash : string -> Z;
  np_exp : Q -> Q;
  np : np_random
}.

Record params : Type := mkParams {
  base_price : Q;
  volatility : Q;
  trend : Q
}.

(** Lines 46-54: the per-ticker table and its default. *)
Definition ticker_params : gmap string params :=
  <["RELIANCE.NS" := mkParams 2400 (25 # 1000) (2 # 10000)]>
  (<["TCS.NS" := mkParams 3500 (20 # 1000) (3 # 10000)]>
  (<["HDFCBANK.NS" := mkParams 1600 (30 # 1000) (1 # 10000)]>
  (<["INFY.NS" := mkParams 1400 (25 # 1000) (2 # 10000)]>
  (<["HINDUNILVR.NS" := mkParams 2600 (18 # 1000) (1 # 10000)]> ∅)))).

Definition params_of (ticker : string) : params :=
  default (mkParams 1000 (25 # 1000) (1 # 10000)) (ticker_params !! ticker).

(** Line 39. *)
Definition days_of (period : string) : nat :=
  if String.eqb period "6mo" then 130%nat
  else if String.eqb period "3mo" then 65%nat
  else 260%nat.

(** [int(days * 1.4)]. *)
Definition lookback (days : nat) : Z := (Z.of_nat days * 14 / 10)%Z.

(** Monday is 0; 1970-01-01 was a Thursday. *)
Definition weekday (day : Z) : Z := ((day + 3) mod 7)%Z.

Definition is_business_day (day : Z) : bool := (weekday day <? 5)%Z.

(** [pd.date_range(start, end, freq='B')]: the business days from [start] to
    [end], each at the time of day of [start]. *)
Definition bdate_range (start_day end_day : Z) : list Z :=
  filter (fun d => is_business_day d = true)
         (seqZ start_day (end_day - start_day + 1)).

(** Lines 41-44. *)
Definition date_rng (now : datetime) (period : string) : list Z :=
  let days := days_of period in
  let end_day := dt_day now in
  let start_day := (end_day - lookback days)%Z in
  take days (bdate_range start_day end_day).

(** Lines 59-60: the loop updates [returns] in place, left to right. *)
Fixpoint autocorrelate_from (prev : Q) (returns : list Q) : list Q :=
  match returns with
  | [] => []
  | r :: rest =>
      let r' := r + (1 # 10) * prev in
      r' :: autocorrelate_from r' rest
  end.

Definition autocorrelate (returns : list Q) : list Q :=
  match returns with
  | [] => []
  | r :: rest => r :: autocorrelate_from r rest
  end.

Fixpoint cumsum_from (acc : Q) (xs : list Q) : list Q :=
  match xs with
  | [] => []
  | x :: rest => let s := acc + x in s :: cumsum_from s rest
  end.

Definition cumsum (xs : list Q) : list Q := cumsum_from 0 xs.

Definition Qmax (a b : Q) : Q := if Qle_bool a b then b else a.
Definition Qmin (a b : Q) : Q := if Qle_bool a b then a else b.

(** [astype(int)] on a float: truncation towards zero; a value outside the
    64-bit range gives the smallest 64-bit integer. *)
Definition astype_int (q : Q) : Z :=
  let z := (Qnum q ÷ Zpos (Qden q))%Z in
  if ((- 2 ^ 63 <=? z) && (z <? 2 ^ 63))%Z then z else (- 2 ^ 63)%Z.

(** The numeric columns before the final rounding. *)
Record mock_columns : Type := mkMock {
  mock_close : list Q;
  mock_open : list Q;
  mock_high : list Q;
  mock_low : list Q;
  mock_volume : list Z
}.

(** Lines 56-72 for [n] rows; [None] is the [IndexError] of
    [df['Close'].iloc[0]] on a frame without rows. *)
Definition mock_numbers (pr : process) (ticker : string) (n : nat)
  : option mock_columns :=
  let p := params_of ticker in
  let st := seed (np pr) (py_hash pr ticker mod 2 ^ 32)%Z in
  let '(returns, st) := normal (np pr) (trend p) (volatility p) n st in
  let returns := autocorrelate returns in
  let close := (fun r => base_price p * np_exp pr r) <$> cumsum returns in
  let daily_volatility := volatility p * (1 # 2) in
  match close with
  | [] => None
  | first :: _ =>
      let '(noise, st) := normal (np pr) 0 (daily_volatility / 2) n st in
      let open := zip_with (fun c e => c * (1 + e))
                    (first :: take (length close - 1) close) noise in
      let '(noise, st) := normal (np pr) 0 (daily_volatility / 3) n st in
      let high := zip_with (fun m e => m * (1 + Qabs e))
                    (zip_with Qmax open close) noise in
      let '(noise, st) := normal (np pr) 0 (daily_volatility / 3) n st in
      let low := zip_with (fun m e => m * (1 - Qabs e))
                   (zip_with Qmin open close) noise in
      let '(draws, st) := lognormal (np pr) 15 (1 # 2) n st in
      let volume := astype_int <$> draws in
      let high := zip_with Qmax high (zip_with Qmax open close) in
      let low := zip_with Qmin low (zip_with Qmin open close) in
      Some (mkMock close open high low volume)
  end.

Definition float_column (xs : list Q) : list cell :=
  (fun q => CFloat (Fin (Qred q))) <$> xs.

(** What lines 56-72 establish before the rounding. *)
Record mock_invariant (n : nat) (m : mock_columns) : Prop := mkMockInv {
  inv_close : length (mock_close m) = n;
  inv_open : length (mock_open m) = n;
  inv_high : length (mock_high m) = n;
  inv_low : length (mock_low m) = n;
  inv_volume : length (mock_volume m) = n;
  inv_bars : forall i o c h l,
    mock_open m !! i = Some o -> mock_close m !! i = Some c ->
    mock_high m !! i = Some h -> mock_low m !! i = Some l ->
    o <= h /\ c <= h /\ l <= o /\ l <= c;
  inv_nonneg : Forall (fun v => (0 <= v)%Z) (mock_volume m)
}.

(** [df.round(2)] rounds the float columns; the integer 'Volume' and the
    'Date' column are left as they are. *)
Definition rounded_column (xs : list Q) : list cell :=
  float_column (round2_Q <$> xs).

(** [generate_enhanced_mock_data(ticker, period)], given the reading [now] of
    the clock at line 41. *)
Definition generate_enhanced_mock_data (pr : process) (now : datetime)
    (ticker period : string) : option DataFrame :=
  let dates := date_rng now period in
  m ← mock_numbers pr ticker (length dates);
  let df := mkDataFrame (seq 0 (length dates)) ∅ in
  let df := set_column "Date" ((fun d => CTime d (dt_time now)) <$> dates) df in
  let df := set_column "Close" (rounded_column (mock_close m)) df in
  let df := set_column "Open" (rounded_column (mock_open m)) df in
  let df := set_column "High" (rounded_column (mock_high m)) df in
  let df := set_column "Low" (rounded_column (mock_low m)) df in
  let df := set_column "Volume" (CInt <$> mock_volume m) df in
  Some df.

(** [fetch_stock_data(ticker, use_mock=...)]; [download] stands for lines
    18-25 ([yf.download] and the renaming of the columns), [None] when they
    raise. *)
Definition fetch_stock_data (pr : process) (download : string -> option DataFrame)
    (now : datetime) (ticker : string) (use_mock : bool) : option DataFrame :=
  if use_mock then generate_enhanced_mock_data pr now ticker "6mo"
  else
    match download ticker with
    | None => generate_enhanced_mock_data pr now ticker "6mo"
    | Some stock_data =>
        if is_empty stock_data
        then generate_enhanced_mock_data pr now ticker "6mo"
        else Some stock_data
    end.

End DataLoader.

(* ===================================================================== *)
(** ** app.py *)
(* ===================================================================== *)

Module App.

Import MLModels.

Local Open Scope list_scope.

Inductive figure : Type := Figure (ticker : string).

(** The Python objects that [process_stock] puts in its result tuple. *)
Inductive pyobj : Type :=
  | PyNone
  | PyFrame (df : DataFrame)
  | PyTraining (r : training_result)
  | PyFigure (f : figure).

(** The five pipeline stages [process_stock] calls, as it sees them: [None]
    is a raised exception; a stage's own null result is part of its value.
    The strategy and the trainer also give back the frame they were handed,
    which they modify in place. *)
Record pipeline : Type := mkPipeline {
  fetch_stock_data : string -> bool -> option (option DataFrame);
  calculate_advanced_indicators : DataFrame -> option (option DataFrame);
  apply_enhanced_trading_strategy : DataFrame -> option (DataFrame * DataFrame);
  train_ensemble_models : DataFrame -> option (training_result * DataFrame);
  create_advanced_charts : DataFrame -> DataFrame -> string -> option (option figure)
}.

Inductive log_event : Type :=
  | InfoProcessing (ticker : string)
  | ErrorNoData (ticker : string)
  | ErrorIndicators (ticker : string)
  | ErrorProcessing (ticker : string)
  | InfoCompleted (successful total : nat).

Definition of_figure (f : option figure) : pyobj :=
  match f with Some f => PyFigure f | None => PyNone end.

(** Lines 51-60 of [process_stock], inside the [try]; [None] is an exception. *)
Definition analyse (p : pipeline) (ticker : string) (data : DataFrame)
  : option (list pyobj) :=
  sd ← apply_enhanced_trading_strategy p data;
  let '(signals, data) := sd in
  md ← train_ensemble_models p data;
  let '(ml_results, data) := md in
  chart ← create_advanced_charts p data signals ticker;
  Some [PyFrame data; PyFrame signals; PyTraining ml_results; of_figure chart].

(** [process_stock(ticker, use_mock_data, logger)]: the returned tuple, as the
    list of its components, and the lines logged. *)
Definition process_stock (p : pipeline) (ticker : string) (use_mock_data : bool)
  : list pyobj * list log_event :=
  let failed := ([PyNone; PyNone; PyNone; PyNone], [InfoProcessing ticker; ErrorProcessing ticker]) in
  match fetch_stock_data p ticker use_mock_data with
  | None => failed
  | Some None => ([PyNone; PyNone; PyNone], [InfoProcessing ticker; ErrorNoData ticker])
  | Some (Some stock_data) =>
      if is_empty stock_data
      then ([PyNone; PyNone; PyNone], [InfoProcessing ticker; ErrorNoData ticker])
      else
        match calculate_advanced_indicators p stock_data with
        | None => failed
        | Some None =>
            ([PyNone; PyNone; PyNone], [InfoProcessing ticker; ErrorIndicators ticker])
        | Some (Some data_with_indicators) =>
            match analyse p ticker data_with_indicators with
            | None => failed
            | Some results => (results, [InfoProcessing ticker])
            end
        end
  end.

(** One entry of [st.session_state.ml_results]. *)
Record ml_entry : Type := mkEntry {
  entry_accuracy : float;
  entry_model_type : string;
  entry_details : option details
}.

Definition type_name (m : option estimator) : string :=
  match m with
  | None => "NoneType"
  | Some (DecisionTreeClassifier _) => "DecisionTreeClassifier"
  | Some LogisticRegression => "LogisticRegression"
  end.

(** What a run acts on: the progress bar, the session state, the charts
    displayed and the log. *)
Record ui_state : Type := mkUi {
  progress : Q;
  results_generated : bool;
  ml_results : gmap string ml_entry;
  plotted : list figure;
  successful_stocks : nat;
  logs : list log_event
}.

Definition ui_init : ui_state := mkUi 0 false ∅ [] 0 [].

Inductive exception : Type :=
  | ValueError_unpack (expected got : nat).

Inductive outcome : Type :=
  | Completed (u : ui_state)
  | Raised (e : exception) (u : ui_state).

Definition state_of (o : outcome) : ui_state :=
  match o with Completed u | Raised _ u => u end.

(** Lines 90-105: the body of [if results is not None]; a tuple is never
    [None].  The unpacking of line 90 needs exactly four components. *)
Definition store_results (ticker : string) (results : list pyobj) (u : ui_state)
  : option ui_state :=
  match results with
  | [data; signals; ml; chart] =>
      let stored :=
        match ml with
        | PyTraining (m, acc, det) =>
            <[ticker := mkEntry acc (type_name m) det]> (ml_results u)
        | _ => ml_results u
        end in
      let shown :=
        match chart with
        | PyFigure f => plotted u ++ [f]
        | _ => plotted u
        end in
      Some (mkUi (progress u) (results_generated u) stored shown
                 (S (successful_stocks u)) (logs u))
  | _ => None
  end.

(** The loop of lines 81-105, from the ticker at position [i] of [total]. *)
Fixpoint process_all (p : pipeline) (use_mock_data : bool) (total i : nat)
    (tickers : list string) (u : ui_state) : outcome :=
  match tickers with
  | [] => Completed u
  | ticker :: rest =>
      let u := mkUi (inject_Z (Z.of_nat (i + 1)) / inject_Z (Z.of_nat total))
                    (results_generated u) (ml_results u) (plotted u)
                    (successful_stocks u) (logs u) in
      let '(results, lines) := process_stock p ticker use_mock_data in
      let u := mkUi (progress u) (results_generated u) (ml_results u) (plotted u)
                    (successful_stocks u) (logs u ++ lines) in
      match store_results ticker results u with
      | None => Raised (ValueError_unpack 4 (length results)) u
      | Some u => process_all p use_mock_data total (i + 1) rest u
      end
  end.

(** [run_trading_algorithm(selected_tickers, use_mock_data, initial_capital)]. *)
Definition run_trading_algorithm (p : pipeline) (selected_tickers : list string)
    (use_mock_data : bool) : outcome :=
  match process_all p use_mock_data (length selected_tickers) 0
          selected_tickers ui_init with
  | Raised e u => Raised e u
  | Completed u =>
      Completed (mkUi 1 true (ml_results u) (plotted u) (successful_stocks u)
                   (logs u ++ [InfoCompleted (successful_stocks u)
                                             (length selected_tickers)]))
  end.

(** A stage gave its null result for this ticker: [process_stock] takes one
    of its two [return None, None, None] exits. *)
Definition stage_sentinel (p : pipeline) (ticker : string) (use_mock_data : bool)
  : Prop :=
  fetch_stock_data p ticker use_mock_data = Some None
  \/ (exists stock_data,
        fetch_stock_data p ticker use_mock_data = Some (Some stock_data)
        /\ (is_empty stock_data = true
            \/ calculate_advanced_indicators p stock_data = Some None)).

End App.

(* ===================================================================== *)
(** ** The pipeline assembled from the modules above *)
(* ===================================================================== *)

Module Charts.

Import App.

(** [create_advanced_charts(df, signals, ticker)] of
    [src/visualization/charts.py], as far as the orchestrator sees it: no
    figure for an empty frame, a [KeyError] when a column it plots
    unconditionally is missing, a figure otherwise. *)
Definition create_advanced_charts (df signals : DataFrame) (ticker : string)
  : option (option figure) :=
  if is_empty df then Some None
  else if forallb (fun c => has_column c df)
            ["Date"; "Open"; "High"; "Low"; "Close"; "Volume"]
          && (is_empty signals
              || (has_column "Date" signals && has_column "Close" signals))
  then Some (Some (Figure ticker))
  else None.

End Charts.

Module Pipeline.

Import App.

(** What a run depends on besides its arguments. *)
Record environment : Type := mkEnvironment {
  env_process : DataLoader.process;
  env_download : string -> option DataFrame;
  env_clock : string -> DataLoader.datetime;
  env_ta : TechnicalAnalysis.pandas_ta;
  env_thresholds : Config.thresholds;
  env_sklearn : MLModels.sklearn
}.

(** The stages as [app.py] imports them.  The stage functions catch their
    own exceptions, so only the chart renderer can raise into
    [process_stock]. *)
Definition stages (env : environment) : pipeline := {|
  fetch_stock_data ticker use_mock :=
    Some (DataLoader.fetch_stock_data (env_process env) (env_download env)
            (env_clock env ticker) ticker use_mock);
  calculate_advanced_indicators df :=
    Some (TechnicalAnalysis.calculate_advanced_indicators (env_ta env) df);
  apply_enhanced_trading_strategy df :=
    Some (Strategy.apply_enhanced_trading_strategy (env_thresholds env) df);
  train_ensemble_models df :=
    Some (MLModels.train_ensemble_models (env_sklearn env) df);
  create_advanced_charts := Charts.create_advanced_charts
|}.

End Pipeline.

(* ===================================================================== *)
(** ** Concrete inputs for the examples *)
(* ===================================================================== *)

Module Samples.

Local Open Scope list_scope.

Definition int_column (f : Z -> Z) (n : nat) : list cell :=
  (fun i => CInt (f (Z.of_nat i))) <$> seq 0 n.

Definition float_of_Z_column (f : Z -> Z) (n : nat) : list cell :=
  (fun i => CFloat (of_Z (f (Z.of_nat i)))) <$> seq 0 n.

(** *** The strategy *)

Definition thresholds : Config.thresholds :=
  Config.mkThresholds (of_Z 30) (of_Z 20) (Fin (2 # 100)).

(** Twenty-one rows; on the last one SMA_20 crosses above SMA_50 while the
    RSI and the stochastic are low, the volume jumps and the MACD is above
    its signal line. *)
Definition signal_frame : DataFrame :=
  mkDataFrame (seq 0 21)
    (<["RSI_14" := float_of_Z_column (fun _ => 25) 21]>
    (<["SMA_20" := float_of_Z_column (fun i => if (i <? 20)%Z then 1 else 3) 21]>
    (<["SMA_50" := float_of_Z_column (fun _ => 2) 21]>
    (<["Volume" := int_column (fun i => if (i <? 20)%Z then 100 else 1000) 21]>
    (<["MACD_12_26_9" := float_of_Z_column (fun _ => 1) 21]>
    (<["MACDs_12_26_9" := float_of_Z_column (fun _ => 0) 21]>
    (<["STOCHk_14_3_3" := float_of_Z_column (fun _ => 10) 21]>
    (<["Distance_to_Support" := replicate 21 (CFloat (Fin (5 # 100)))]>
     ∅)))))))).

Definition signal_conditions : Strategy.conditions :=
  default (Strategy.mkConditions [] [] [] [] [] [])
          (Strategy.rule_conditions thresholds signal_frame).


(** *** The trainer *)

(** Six bars whose close alternates, with five of the candidate features. *)
Definition training_frame : DataFrame :=
  mkDataFrame (seq 0 6)
    (<["Close" := float_of_Z_column (fun i => 1 + i mod 2) 6]>
    (<["RSI_14" := float_of_Z_column (fun i => 40 + i) 6]>
    (<["MACD_12_26_9" := float_of_Z_column (fun i => i) 6]>
    (<["MACDs_12_26_9" := float_of_Z_column (fun i => 1) 6]>
    (<["MACDh_12_26_9" := float_of_Z_column (fun i => i - 1) 6]>
    (<["WILLR_14" := float_of_Z_column (fun i => - 50 - i) 6]>
     ∅)))))).

Definition training_close : list float :=
  default [] (get_numeric "Close" training_frame).

Definition head_rows (k : nat) (df : DataFrame) : DataFrame :=
  mkDataFrame (take k (index df)) (take k <$> columns df).

Definition tail_rows (k : nat) (df : DataFrame) : DataFrame :=
  mkDataFrame (drop k (index df)) (drop k <$> columns df).

Definition matrix_of (df : DataFrame) : list (list float) :=
  (fun i => omap (fun kv : string * list cell => kv.2 !! i ≫= as_float)
                 (map_to_list (columns df)))
  <$> seq 0 (nrows df).

Definition majority (y : list Z) : Z :=
  if (2 * MLModels.count_where (fun l => (l =? 1)%Z) y <? Z.of_nat (length y))%Z
  then 0 else 1.

(** A stand-in for sklearn: the split keeps the order of the rows (the last
    thirty percent, rounded up, are the test rows), the scaler leaves the
    values alone, the tree predicts the majority label of the training rows
    and the regression always predicts 1. *)
Definition sklearn : MLModels.sklearn := {|
  MLModels.train_test_split X y :=
    let n := nrows X in
    let n_test := Z.to_nat ((3 * Z.of_nat n + 9) / 10) in
    let n_train := (n - n_test)%nat in
    if ((n_train =? 0) || (n_test =? 0))%nat then None
    else Some (MLModels.mkSplit (head_rows n_train X) (tail_rows n_train X)
                                (take n_train y) (drop n_train y));
  MLModels.scaler_fit_transform X_train X_test :=
    Some (matrix_of X_train, matrix_of X_test);
  MLModels.tree_fit_predict X_train y_train X_test :=
    Some (MLModels.DecisionTreeClassifier
            (replicate (size (columns X_train)) (Fin (1 # 5))),
          replicate (nrows X_test) (majority y_train));
  MLModels.logreg_fit_predict X_train y_train X_test :=
    Some (MLModels.LogisticRegression, replicate (length X_test) 1)
|}.

(** *** The generator *)

(** A stand-in for NumPy's generator: the state is a counter and the draws
    are simple functions of it. *)
Definition np_random : DataLoader.np_random := {|
  DataLoader.rng_state := Z;
  DataLoader.seed s := s;
  DataLoader.normal loc scale n st :=
    ((fun i => Qred (loc + scale * (inject_Z ((st + i) mod 5 - 2) / 2)))
     <$> seqZ 0 (Z.of_nat n), st + Z.of_nat n);
  DataLoader.lognormal mean sigma n st :=
    ((fun i => inject_Z (3000000 + (st + i) mod 1000))
     <$> seqZ 0 (Z.of_nat n), st + Z.of_nat n)
|}.

Definition process : DataLoader.process := {|
  DataLoader.py_hash s := Z.of_nat (String.length s) * 2654435761;
  DataLoader.np_exp x := Qred (1 + x + x * x / 2);
  DataLoader.np := np_random
|}.

(** Two readings of the clock on the same day, one microsecond apart. *)
Definition morning : DataLoader.datetime :=
  DataLoader.mkDatetime 20000 34200000000.

(** *** The indicator engine *)

(** One hundred bars. *)
Definition close_of (i : Z) : Z := 100 + (i * 7) mod 11.

Definition bars : DataFrame :=
  mkDataFrame (seq 0 100)
    (<["Open" := float_of_Z_column (fun i => close_of i - 1) 100]>
    (<["High" := float_of_Z_column (fun i => close_of i + 2) 100]>
    (<["Low" := float_of_Z_column (fun i => close_of i - 2) 100]>
    (<["Close" := float_of_Z_column close_of 100]>
    (<["Volume" := int_column (fun i => 1000 + 10 * (i mod 5)) 100]> ∅))))).

Definition enriched_once : option DataFrame :=
  TechnicalAnalysis.calculate_advanced_indicators PandasTaReference.library bars.

Definition enriched_twice : option DataFrame :=
  enriched_once
  ≫= TechnicalAnalysis.calculate_advanced_indicators PandasTaReference.library.

(** Forty bars and a library that computes nothing (as pandas_ta does for a
    series shorter than the look-back of an indicator): the engine then adds
    the custom features only. *)
Definition forty_bars : DataFrame :=
  mkDataFrame (seq 0 40)
    (<["Open" := float_of_Z_column (fun i => close_of i - 1) 40]>
    (<["High" := float_of_Z_column (fun i => close_of i + 2) 40]>
    (<["Low" := float_of_Z_column (fun i => close_of i - 2) 40]>
    (<["Close" := float_of_Z_column close_of 40]>
    (<["Volume" := int_column (fun i => 1000 + 10 * (i mod 5)) 40]> ∅))))).

Definition idle_library : TechnicalAnalysis.pandas_ta :=
  TechnicalAnalysis.mkPandasTa
    (fun _ _ => TechnicalAnalysis.TaNothing)
    (fun _ _ => TechnicalAnalysis.TaNothing)
    (fun _ _ => TechnicalAnalysis.TaNothing)
    (fun _ => TechnicalAnalysis.TaNothing)
    (fun _ _ _ => TechnicalAnalysis.TaNothing)
    (fun _ => TechnicalAnalysis.TaNothing)
    (fun _ => TechnicalAnalysis.TaNothing)
    (fun _ _ => TechnicalAnalysis.TaNothing)
    (fun _ => TechnicalAnalysis.TaNothing)
    (fun _ => TechnicalAnalysis.TaNothing).

Definition features_once : option DataFrame :=
  TechnicalAnalysis.calculate_advanced_indicators idle_library forty_bars.

Definition features_twice : option DataFrame :=
  features_once ≫= TechnicalAnalysis.calculate_advanced_indicators idle_library.

(** *** The orchestrator *)

(** An indicator library whose RSI call raises. *)
Definition failing_library : TechnicalAnalysis.pandas_ta :=
  TechnicalAnalysis.mkPandasTa
    (fun _ _ => TechnicalAnalysis.TaRaise)
    PandasTaReference.sma PandasTaReference.ema PandasTaReference.macd
    PandasTaReference.bbands PandasTaReference.stoch PandasTaReference.willr
    PandasTaReference.atr PandasTaReference.ad PandasTaReference.obv.

Definition environment (ta : TechnicalAnalysis.pandas_ta) : Pipeline.environment := {|
  Pipeline.env_process := process;
  Pipeline.env_download := fun _ => None;
  Pipeline.env_clock := fun _ => morning;
  Pipeline.env_ta := ta;
  Pipeline.env_thresholds := thresholds;
  Pipeline.env_sklearn := sklearn
|}.

End Samples.

(* ===================================================================== *)
(** ** src/utils/logger.py *)
(* ===================================================================== *)

Module Logger.

Local Open Scope list_scope.

Inductive level : Type := DEBUG | INFO | WARNING | ERROR | CRITICAL.

Definition levelno (l : level) : Z :=
  match l with
  | DEBUG => 10 | INFO => 20 | WARNING => 30 | ERROR => 40 | CRITICAL => 50
  end.

Definition levelname (l : level) : string :=
  match l with
  | DEBUG => "DEBUG" | INFO => "INFO" | WARNING => "WARNING"
  | ERROR => "ERROR" | CRITICAL => "CRITICAL"
  end.

(** A [logging.LogRecord], as far as the handler reads it. *)
Record log_record : Type := mkRecord {
  created : Z;
  record_level : level;
  record_msg : string
}.

(** One dictionary of [log_records]. *)
Record log_entry : Type := mkLogEntry {
  timestamp : string;
  entry_level : string;
  message : string
}.

(** A [StreamlitLogHandler]: its list of records.  The only handler the
    sources create carries the formatter ['%(levelname)s - %(message)s']. *)
Record handler : Type := mkHandler {
  log_records : list log_entry
}.

(** The logger named 'algo_trading': one object per process, so a state that
    the calls thread.  [None] is the level [NOTSET] of a fresh logger. *)
Record logger : Type := mkLogger {
  logger_level : option level;
  handlers : list handler
}.

Definition fresh_logger : logger := mkLogger None [].

Section Formatting.

(** [datetime.fromtimestamp(t).strftime('%Y-%m-%d %H:%M:%S')]. *)
Variable strftime : Z -> string.

Definition format (r : log_record) : string :=
  levelname (record_level r) +:+ " - " +:+ record_msg r.

(** [StreamlitLogHandler.emit]. *)
Definition emit (r : log_record) (h : handler) : handler :=
  mkHandler (log_records h
             ++ [mkLogEntry (strftime (created r))
                            (levelname (record_level r)) (format r)]).

Definition get_logs (h : handler) : list log_entry := log_records h.

Definition clear_logs (h : handler) : handler := mkHandler [].

(** [setup_logger()]: the logger after the call and the handler returned,
    [logger.handlers[0]]. *)
Definition setup_logger (lg : logger) : logger * option handler :=
  let lg := mkLogger (Some INFO) (handlers lg) in
  let lg :=
    match handlers lg with
    | [] => mkLogger (logger_level lg) (handlers lg ++ [mkHandler []])
    | _ :: _ => lg
    end in
  (lg, head (handlers lg)).

(** A logger whose level was never set takes the level of the root logger,
    WARNING unless the application configures it ([app.py] does not). *)
Definition effective_level (lg : logger) : level :=
  default WARNING (logger_level lg).

(** [logger.info(msg)], [logger.warning(msg)], [logger.error(msg)]: a record
    below the logger's level is dropped; otherwise every handler of the
    logger emits it. *)
Definition log (lg : logger) (r : log_record) : logger :=
  if (levelno (record_level r) <? levelno (effective_level lg))%Z then lg
  else mkLogger (logger_level lg) (emit r <$> handlers lg).

End Formatting.

End Logger.

(* ===================================================================== *)
(** ** More concrete inputs *)
(* ===================================================================== *)

Module MoreSamples.

Local Open Scope list_scope.

(** Two bars without a 'Volume' column. *)
Definition no_volume_frame : DataFrame :=
  mkDataFrame (seq 0 2)
    (<["Open" := Samples.float_of_Z_column (fun i => 10 + i) 2]>
    (<["High" := Samples.float_of_Z_column (fun i => 12 + i) 2]>
    (<["Low" := Samples.float_of_Z_column (fun i => 9 + i) 2]>
    (<["Close" := Samples.float_of_Z_column (fun i => 11 + i) 2]> ∅)))).

(** The frame of [Samples.signal_frame] with an RSI of 50 on every row. *)
Definition calm_frame : DataFrame :=
  set_column "RSI_14" (Samples.float_of_Z_column (fun _ => 50) 21)
             Samples.signal_frame.

Definition calm_conditions : Strategy.conditions :=
  default (Strategy.mkConditions [] [] [] [] [] [])
          (Strategy.rule_conditions Samples.thresholds calm_frame).

(** Six bars with four of the candidate features. *)
Definition four_feature_frame : DataFrame :=
  mkDataFrame (seq 0 6)
    (<["Close" := Samples.float_of_Z_column (fun i => 1 + i mod 2) 6]>
    (<["RSI_14" := Samples.float_of_Z_column (fun i => 40 + i) 6]>
    (<["MACD_12_26_9" := Samples.float_of_Z_column (fun i => i) 6]>
    (<["MACDs_12_26_9" := Samples.float_of_Z_column (fun i => 1) 6]>
    (<["WILLR_14" := Samples.float_of_Z_column (fun i => - 50 - i) 6]> ∅))))).

Definition four_feature_close : list float :=
  default [] (get_numeric "Close" four_feature_frame).

(** The forty bars of [Samples.forty_bars] with their dates. *)
Definition dated_bars : DataFrame :=
  set_column "Date" ((fun d => CTime d 0) <$> seqZ 19000 40) Samples.forty_bars.

(** A pipeline whose data fetch raises for every ticker. *)
Definition offline_pipeline : App.pipeline :=
  App.mkPipeline
    (fun _ _ => None)
    (App.calculate_advanced_indicators
       (Pipeline.stages (Samples.environment PandasTaReference.library)))
    (App.apply_enhanced_trading_strategy
       (Pipeline.stages (Samples.environment PandasTaReference.library)))
    (App.train_ensemble_models
       (Pipeline.stages (Samples.environment PandasTaReference.library)))
    Charts.create_advanced_charts.

(** The time stamp of a log entry, as seconds since the epoch in decimal. *)
Definition strftime (t : Z) : string := pretty t.

End MoreSamples.

(* ===================================================================== *)
(** * Properties *)
(* ===================================================================== *)

Local Open Scope list_scope.

(** ** Lists, masks and frames *)

Section ListFacts.

Context {A B C : Type}.

Lemma select_rows_nil_r (mask : list bool) : select_rows mask (@nil A) = [].
Proof. by destruct mask as [|[] ?]. Qed.

Lemma select_rows_length_le (mask : list bool) (xs : list A) :
  (length (select_rows mask xs) <= length xs)%nat.
Proof.
  revert xs. induction mask as [|b mask IH]; intros [|x xs]; simpl; try lia.
  destruct b; simpl; specialize (IH xs); lia.
Qed.

(** Every selected element sits at a position where the mask is true. *)
Lemma elem_of_select_rows (mask : list bool) (xs : list A) (x : A) :
  x ∈ select_rows mask xs ->
  exists i, mask !! i = Some true /\ xs !! i = Some x.
Proof.
  revert xs. induction mask as [|b mask IH]; intros [|y xs]; simpl;
    try (intros H; by apply elem_of_nil in H).
  destruct b.
  - intros [->|H]%elem_of_cons.
    + by exists 0%nat.
    + destruct (IH _ H) as (i & ? & ?). by exists (S i).
  - intros H. destruct (IH _ H) as (i & ? & ?). by exists (S i).
Qed.

Lemma select_rows_elem_of (mask : list bool) (xs : list A) (i : nat) (x : A) :
  mask !! i = Some true -> xs !! i = Some x -> x ∈ select_rows mask xs.
Proof.
  revert xs i. induction mask as [|b mask IH]; intros [|y xs] [|i]; simpl; try done.
  - intros [= ->] [= ->]. by left.
  - intros Hm Hx. destruct b; [right|]; eauto.
Qed.

(** The number of selected rows and of rejected rows add up. *)
Lemma select_rows_count (mask : list bool) (xs : list A) :
  length mask = length xs ->
  (length (select_rows mask xs)
   + length (filter (fun b => b = false) mask) = length xs)%nat.
Proof.
  revert xs. induction mask as [|b mask IH]; intros [|x xs]; simpl; try done.
  intros [= Hlen]. specialize (IH _ Hlen).
  destruct b.
  - rewrite filter_cons_False by done. simpl. lia.
  - rewrite filter_cons_True by done. simpl. lia.
Qed.

Lemma select_rows_fmap (f : A -> B) (mask : list bool) (xs : list A) :
  select_rows mask (f <$> xs) = f <$> select_rows mask xs.
Proof.
  revert xs. induction mask as [|b mask IH]; intros [|x xs]; simpl; try done.
  destruct b; simpl; by rewrite IH.
Qed.

Lemma select_rows_zip_with (f : A -> B -> C) (mask : list bool)
    (xs : list A) (ys : list B) :
  select_rows mask (zip_with f xs ys)
  = zip_with f (select_rows mask xs) (select_rows mask ys).
Proof.
  revert xs ys. induction mask as [|b mask IH]; intros [|x xs] [|y ys]; simpl;
    try done.
  - destruct b; simpl; by rewrite ?zip_with_nil_r.
  - destruct b; simpl; by rewrite IH.
Qed.

End ListFacts.

(** ** The strategy evaluator *)

Section StrategyFacts.

Import Config Strategy.

Lemma col_and_lookup (xs ys : list bool) (i : nat) :
  col_and xs ys !! i = Some true ->
  xs !! i = Some true /\ ys !! i = Some true.
Proof.
  unfold col_and. rewrite lookup_zip_with.
  destruct (xs !! i) as [[]|], (ys !! i) as [[]|]; simpl; by intros [=].
Qed.

Lemma loc_set_lookup (mask : list bool) (v : Z) (col : list Z) (i : nat) :
  loc_set mask v col !! i
  = (fun s => if default false (mask !! i) then v else s) <$> col !! i.
Proof. unfold loc_set. by rewrite list_lookup_imap. Qed.

Lemma loc_set_length (mask : list bool) (v : Z) (col : list Z) :
  length (loc_set mask v col) = length col.
Proof. unfold loc_set. by rewrite length_imap. Qed.

Lemma signal_column_length (n : nat) (c : conditions) :
  length (signal_column n c) = n.
Proof. unfold signal_column. by rewrite !loc_set_length, length_replicate. Qed.

(** The signal of a row is 2 where the strong-buy mask holds, else 1 where
    the standard-buy mask holds, else 0. *)
Lemma signal_column_lookup (n : nat) (c : conditions) (i : nat) :
  (i < n)%nat ->
  signal_column n c !! i
  = Some (if default false (confirmed_buy c !! i) then 2
          else if default false (strong_buy c !! i) then 1 else 0).
Proof.
  intros Hi. unfold signal_column. rewrite !loc_set_lookup.
  by rewrite lookup_replicate_2.
Qed.

Lemma signal_column_range (n : nat) (c : conditions) (i : nat) (s : Z) :
  signal_column n c !! i = Some s -> s = 0 \/ s = 1 \/ s = 2.
Proof.
  intros H. assert (i < n)%nat as Hi.
  { rewrite <- (signal_column_length n c). by eapply lookup_lt_Some. }
  rewrite signal_column_lookup in H by done. injection H as <-.
  destruct (default false _); [auto|]. destruct (default false _); auto.
Qed.

Lemma align_id (n : nat) (col : list cell) :
  length col = n -> align n col = col.
Proof. intros <-. unfold align. by rewrite take_app_length. Qed.

Lemma align_length (n : nat) (col : list cell) : length (align n col) = n.
Proof.
  unfold align. rewrite length_take, length_app, length_replicate. lia.
Qed.

(** The evaluation went through: the frame is not empty and the eight rule
    columns were read as numbers. *)
Lemma strategy_evaluated (th : thresholds) (df : DataFrame) (c : conditions) :
  is_empty df = false ->
  rule_conditions th df = Some c ->
  (apply_enhanced_trading_strategy th df).2
  = set_column "Signal" (CInt <$> signal_column (nrows df) c) df.
Proof.
  intros He Hc. unfold apply_enhanced_trading_strategy.
  assert (has_column "RSI_14" df = true) as ->.
  { unfold rule_conditions, get_numeric in Hc. unfold has_column.
    apply bool_decide_eq_true. destruct (columns df !! "RSI_14"); [eauto|done]. }
  by rewrite He, Hc.
Qed.

Lemma signal_column_written (th : thresholds) (df : DataFrame) (c : conditions) :
  is_empty df = false ->
  rule_conditions th df = Some c ->
  get_column "Signal" (apply_enhanced_trading_strategy th df).2
  = Some (CInt <$> signal_column (nrows df) c).
Proof.
  intros He Hc. rewrite (strategy_evaluated th df c He Hc).
  unfold get_column, set_column. simpl. rewrite lookup_insert_eq.
  by rewrite align_id by (by rewrite length_fmap, signal_column_length).
Qed.

End StrategyFacts.

(** C5.  In every frame the strategy evaluated, a row whose signal is 2
    satisfies, on that same row, the four standard-buy conditions
    rsi_oversold, sma_crossover, volume_confirm and macd_bullish. *)
Theorem strong_buy_implies_standard_buy
    (th : Config.thresholds) (df : DataFrame) (c : Strategy.conditions)
    (signal : list cell) (i : nat) :
  is_empty df = false ->
  Strategy.rule_conditions th df = Some c ->
  get_column "Signal" (Strategy.apply_enhanced_trading_strategy th df).2
    = Some signal ->
  signal !! i = Some (CInt 2) ->
  Strategy.rsi_oversold c !! i = Some true
  /\ Strategy.sma_crossover c !! i = Some true
  /\ Strategy.volume_confirm c !! i = Some true
  /\ Strategy.macd_bullish c !! i = Some true.
Proof.
  intros He Hc Hsig Hi.
  rewrite (signal_column_written th df c He Hc) in Hsig.
  injection Hsig as <-. rewrite list_lookup_fmap in Hi.
  destruct (Strategy.signal_column (nrows df) c !! i) as [s|] eqn:Hs; [|done].
  injection Hi as ->.
  assert (i < nrows df)%nat as Hlt.
  { rewrite <- (signal_column_length (nrows df) c). by eapply lookup_lt_Some. }
  rewrite signal_column_lookup in Hs by done.
  destruct (Strategy.confirmed_buy c !! i) as [[]|] eqn:Hcb; simpl in Hs;
    try (destruct (default false _); done).
  unfold Strategy.confirmed_buy in Hcb.
  apply col_and_lookup in Hcb as [[Hsb _]%col_and_lookup _].
  unfold Strategy.strong_buy in Hsb.
  apply col_and_lookup in Hsb as [[[? ?]%col_and_lookup ?]%col_and_lookup ?].
  done.
Qed.


(** ** Rounding and the order of floats *)

Section FloatFacts.

Local Open Scope Q_scope.

Lemma round_half_even_bounds (q : Q) :
  (Qfloor q <= round_half_even q <= Qfloor q + 1)%Z.
Proof.
  unfold round_half_even.
  destruct (q - inject_Z (Qfloor q) ?= 1 # 2); [destruct (Z.even _)| |]; lia.
Qed.

(** Rounding half to even is monotone. *)
Lemma round_half_even_mono (x y : Q) :
  x <= y -> (round_half_even x <= round_half_even y)%Z.
Proof.
  intros Hxy.
  pose proof (Qfloor_resp_le _ _ Hxy) as Hf.
  destruct (Z.eq_dec (Qfloor x) (Qfloor y)) as [Heq|Hne].
  - unfold round_half_even. rewrite Heq.
    destruct (Qcompare_spec (x - inject_Z (Qfloor y)) (1 # 2)) as [Hx|Hx|Hx];
      destruct (Qcompare_spec (y - inject_Z (Qfloor y)) (1 # 2)) as [Hy|Hy|Hy];
      try (destruct (Z.even (Qfloor y))); try lia; exfalso; lra.
  - pose proof (round_half_even_bounds x). pose proof (round_half_even_bounds y).
    lia.
Qed.

Lemma round_half_even_Z (z : Z) : round_half_even (inject_Z z) = z.
Proof.
  unfold round_half_even. rewrite Qfloor_Z.
  destruct (Qcompare_spec (inject_Z z - inject_Z z) (1 # 2)) as [H|H|H];
    [exfalso; lra | done | exfalso; lra].
Qed.

Lemma round2_Q_mono (x y : Q) : x <= y -> round2_Q x <= round2_Q y.
Proof.
  intros Hxy. unfold round2_Q.
  assert (inject_Z (round_half_even (x * 100))
          <= inject_Z (round_half_even (y * 100))) as H.
  { rewrite <- Zle_Qle. apply round_half_even_mono. lra. }
  unfold Qdiv. apply Qmult_le_compat_r; [done|]. by vm_compute.
Qed.

Lemma Qmax_ge_l (a b : Q) : a <= DataLoader.Qmax a b.
Proof.
  unfold DataLoader.Qmax. destruct (Qle_bool a b) eqn:H.
  - by apply Qle_bool_iff.
  - apply Qle_refl.
Qed.

Lemma Qmax_ge_r (a b : Q) : b <= DataLoader.Qmax a b.
Proof.
  unfold DataLoader.Qmax. destruct (Qle_bool a b) eqn:H.
  - apply Qle_refl.
  - destruct (Qlt_le_dec b a) as [Hlt|Hle]; [by apply Qlt_le_weak|].
    apply Qle_bool_iff in Hle. congruence.
Qed.

Lemma Qmin_le_l (a b : Q) : DataLoader.Qmin a b <= a.
Proof.
  unfold DataLoader.Qmin. destruct (Qle_bool a b) eqn:H.
  - apply Qle_refl.
  - destruct (Qlt_le_dec b a) as [Hlt|Hle]; [by apply Qlt_le_weak|].
    apply Qle_bool_iff in Hle. congruence.
Qed.

Lemma Qmin_le_r (a b : Q) : DataLoader.Qmin a b <= b.
Proof.
  unfold DataLoader.Qmin. destruct (Qle_bool a b) eqn:H.
  - by apply Qle_bool_iff.
  - apply Qle_refl.
Qed.

Lemma leb_Fin (a b : Q) : leb (Fin a) (Fin b) = true <-> a <= b.
Proof. simpl. apply Qle_bool_iff. Qed.

Lemma ltb_Fin (a b : Q) : ltb (Fin a) (Fin b) = true <-> a < b.
Proof.
  simpl. rewrite negb_true_iff. split.
  - intros H. apply Qnot_le_lt. intros Hle. apply Qle_bool_iff in Hle. congruence.
  - intros H. destruct (Qle_bool b a) eqn:E; [|done].
    apply Qle_bool_iff in E. exfalso. lra.
Qed.

End FloatFacts.

(** ** The metrics of the model trainer *)

Section MetricFacts.

Import MLModels.

Lemma count_where_nonneg {A : Type} (p : A -> bool) (xs : list A) :
  0 <= count_where p xs.
Proof. unfold count_where. lia. Qed.

Lemma count_where_cons {A : Type} (p : A -> bool) (x : A) (xs : list A) :
  count_where p (x :: xs) = (if p x then 1 else 0) + count_where p xs.
Proof.
  unfold count_where. destruct (p x) eqn:Hp.
  - rewrite filter_cons_True by done. simpl length. lia.
  - rewrite filter_cons_False by congruence. lia.
Qed.

Lemma count_where_le_length {A : Type} (p : A -> bool) (xs : list A) :
  count_where p xs <= Z.of_nat (length xs).
Proof.
  induction xs as [|x xs IH]; [done|].
  rewrite count_where_cons. simpl length. destruct (p x); lia.
Qed.


Lemma count_where_zip_length {A B : Type} (f : A * B -> bool)
    (xs : list A) (ys : list B) :
  count_where f (zip xs ys) <= Z.of_nat (length xs).
Proof.
  etransitivity; [apply count_where_le_length|].
  rewrite length_zip_with. lia.
Qed.








(** The accuracy is NaN on an empty test set and a fraction otherwise. *)
Lemma accuracy_score_cases (y_true y_pred : list Z) :
  accuracy_score y_true y_pred = NaN
  \/ exists q, accuracy_score y_true y_pred = Fin q /\ (0 <= q <= 1)%Q.
Proof.
  unfold accuracy_score.
  set (k := count_where _ _).
  assert (0 <= k <= Z.of_nat (length y_true)) as [Hk0 Hk1].
  { split; [apply count_where_nonneg|apply count_where_zip_length]. }
  unfold div, of_Z.
  destruct (Qeq_bool (inject_Z (Z.of_nat (length y_true))) 0) eqn:Hz.
  - apply Qeq_bool_iff in Hz.
    assert (Z.of_nat (length y_true) = 0) as Hn.
    { apply (inject_Z_injective _ 0). by rewrite Hz. }
    assert (k = 0) as -> by lia. by left.
  - right. eexists. split; [done|].
    assert (Z.of_nat (length y_true) ≠ 0) as Hn.
    { intros Hn. rewrite Hn in Hz. by vm_compute in Hz. }
    assert (0 < inject_Z (Z.of_nat (length y_true)))%Q as Hpos
      by (rewrite <- (Zlt_Qlt 0); lia).
    assert (0 <= inject_Z k)%Q by (rewrite <- (Zle_Qle 0); lia).
    assert (inject_Z k <= inject_Z (Z.of_nat (length y_true)))%Q
      by (rewrite <- Zle_Qle; lia).
    rewrite Qred_correct. split.
    + apply Qle_shift_div_l; [done|]. lra.
    + apply Qle_shift_div_r; [done|]. lra.
Qed.

End MetricFacts.

(** ** Model selection *)

Section SelectionFacts.

Import MLModels.

(** The loop on the two models, iteration by iteration. *)
Lemma train_loop_two (y_test : list Z) (dt lr : option (estimator * list Z)) :
  train_loop y_test [("Decision Tree", dt); ("Logistic Regression", lr)]
  = loop_step y_test
      (loop_step y_test loop_init ("Decision Tree", dt))
      ("Logistic Regression", lr).
Proof. reflexivity. Qed.

Lemma loop_step_skip (y_test : list Z) (st : loop_state) (name : string) :
  loop_step y_test st (name, None) = st.
Proof. reflexivity. Qed.

(** What an iteration that trained its model does to the best model. *)
Lemma loop_step_best (y_test : list Z) (st : loop_state) (name : string)
    (m : estimator) (p : list Z) :
  (best_model (loop_step y_test st (name, Some (m, p))),
   best_accuracy (loop_step y_test st (name, Some (m, p))))
  = if gtb (accuracy_score y_test p) (best_accuracy st)
    then (Some m, accuracy_score y_test p)
    else (best_model st, best_accuracy st).
Proof.
  unfold loop_step. simpl.
  by destruct (gtb (accuracy_score y_test p) (best_accuracy st)).
Qed.

(** An iteration whose model does not beat accuracy zero leaves "no best
    model" as it is. *)
Lemma loop_step_keeps_none (y_test : list Z) (st : loop_state)
    (it : string * option (estimator * list Z)) :
  best_model st = None -> best_accuracy st = of_Z 0 ->
  (forall m p, it.2 = Some (m, p) ->
     gtb (accuracy_score y_test p) (of_Z 0) = false) ->
  best_model (loop_step y_test st it) = None
  /\ best_accuracy (loop_step y_test st it) = of_Z 0.
Proof.
  intros Hm Ha Hall. destruct it as [name [[m p]|]]; [|done].
  unfold loop_step. simpl. rewrite Ha, (Hall m p) by done. done.
Qed.

Lemma pair_eq_inv {A B : Type} (a a' : A) (b b' : B) :
  (a, b) = (a', b') -> a = a' /\ b = b'.
Proof. by intros [= -> ->]. Qed.

Lemma gtb_accuracy (y_test p1 p2 : list Z) :
  gtb (accuracy_score y_test p1) (accuracy_score y_test p2) = true ->
  gtb (accuracy_score y_test p1) (of_Z 0) = true
  /\ gtb (accuracy_score y_test p2) (accuracy_score y_test p1) = false.
Proof.
  destruct (accuracy_score_cases y_test p1) as [->|(q1 & -> & H1)];
    destruct (accuracy_score_cases y_test p2) as [->|(q2 & -> & H2)]; try done.
  unfold gtb, of_Z. change (inject_Z 0) with 0%Q.
  intros H%ltb_Fin. split.
  - apply ltb_Fin. lra.
  - apply not_true_is_false. intros H'%ltb_Fin. lra.
Qed.

Lemma gtb_irrefl (x : float) : gtb x x = false.
Proof.
  destruct x as [| | |q]; try done. unfold gtb.
  apply not_true_is_false. intros H%ltb_Fin. lra.
Qed.

End SelectionFacts.

(** C7.  The loop over (Decision Tree, Logistic Regression) keeps the model
    of strictly higher test accuracy; on equal accuracies it keeps the
    Decision Tree, the first in the iteration order; when one model fails the
    other is kept if its accuracy is above zero; and when both models fail to
    train, or no trained model has an accuracy strictly above zero, the
    trainer's result is the empty result (None, 0, {}). *)
Theorem model_selection (features : list string) (y_test : list Z)
    (dt lr : option (MLModels.estimator * list Z)) :
  let st := MLModels.train_loop y_test
              [("Decision Tree", dt); ("Logistic Regression", lr)] in
  let acc := MLModels.accuracy_score y_test in
  (forall m1 p1 m2 p2, dt = Some (m1, p1) -> lr = Some (m2, p2) ->
     (gtb (acc p2) (acc p1) = true ->
        MLModels.best_model st = Some m2 /\ MLModels.best_accuracy st = acc p2)
     /\ (gtb (acc p1) (acc p2) = true ->
        MLModels.best_model st = Some m1 /\ MLModels.best_accuracy st = acc p1)
     /\ (acc p1 = acc p2 -> gtb (acc p1) (of_Z 0) = true ->
        MLModels.best_model st = Some m1 /\ MLModels.best_accuracy st = acc p1))
  /\ (forall m1 p1, dt = Some (m1, p1) -> lr = None ->
        gtb (acc p1) (of_Z 0) = true ->
        MLModels.best_model st = Some m1 /\ MLModels.best_accuracy st = acc p1)
  /\ (forall m2 p2, dt = None -> lr = Some (m2, p2) ->
        gtb (acc p2) (of_Z 0) = true ->
        MLModels.best_model st = Some m2 /\ MLModels.best_accuracy st = acc p2)
  /\ (dt = None -> lr = None ->
        MLModels.finish features st = MLModels.empty_result)
  /\ ((forall m p, dt = Some (m, p) \/ lr = Some (m, p) ->
         gtb (acc p) (of_Z 0) = false) ->
        MLModels.finish features st = MLModels.empty_result).
Proof.
  intros st acc. subst st acc. rewrite train_loop_two.
  split; [|split; [|split; [|split]]].
  - intros m1 p1 m2 p2 -> ->.
    pose proof (loop_step_best y_test MLModels.loop_init "Decision Tree" m1 p1) as S1.
    pose proof (loop_step_best y_test
      (MLModels.loop_step y_test MLModels.loop_init ("Decision Tree", Some (m1, p1)))
      "Logistic Regression" m2 p2) as S2.
    change (MLModels.best_accuracy MLModels.loop_init) with (of_Z 0) in S1.
    change (MLModels.best_model MLModels.loop_init) with (@None MLModels.estimator) in S1.
    split; [|split].
    + intros H21. destruct (gtb_accuracy _ _ _ H21) as [H20 H12].
      apply pair_eq_inv. rewrite S2.
      destruct (gtb (MLModels.accuracy_score y_test p1) (of_Z 0)) eqn:H10;
        apply pair_eq_inv in S1 as [_ ->]; by rewrite ?H21, ?H20.
    + intros H12. destruct (gtb_accuracy _ _ _ H12) as [H10 H21].
      apply pair_eq_inv. rewrite S2. rewrite H10 in S1.
      apply pair_eq_inv in S1 as [-> ->]. by rewrite H21.
    + intros Heq H10. apply pair_eq_inv. rewrite S2. rewrite H10 in S1.
      apply pair_eq_inv in S1 as [-> ->]. by rewrite <- Heq, gtb_irrefl.
  - intros m1 p1 -> -> H10. rewrite loop_step_skip.
    pose proof (loop_step_best y_test MLModels.loop_init "Decision Tree" m1 p1) as S1.
    change (MLModels.best_accuracy MLModels.loop_init) with (of_Z 0) in S1.
    rewrite H10 in S1. by apply pair_eq_inv.
  - intros m2 p2 -> -> H20. rewrite loop_step_skip.
    pose proof (loop_step_best y_test MLModels.loop_init "Logistic Regression" m2 p2) as S2.
    change (MLModels.best_accuracy MLModels.loop_init) with (of_Z 0) in S2.
    rewrite H20 in S2. by apply pair_eq_inv.
  - intros -> ->. reflexivity.
  - intros Hall. unfold MLModels.finish.
    destruct (loop_step_keeps_none y_test MLModels.loop_init ("Decision Tree", dt))
      as [Hm1 Ha1]; [done|done|intros m p Hp; apply (Hall m p); by left|].
    destruct (loop_step_keeps_none y_test
                (MLModels.loop_step y_test MLModels.loop_init ("Decision Tree", dt))
                ("Logistic Regression", lr))
      as [Hm2 _]; [done|done|intros m p Hp; apply (Hall m p); by right|].
    by rewrite Hm2.
Qed.

(** ** The result of a training run *)

Section TrainingFacts.

Import MLModels.







End TrainingFacts.


(** ** The training frame *)

Section TargetFacts.

Import Strategy MLModels.

Lemma ltb_NaN_r (x : float) : ltb x NaN = false.
Proof. by destruct x. Qed.

(** Line 21, row by row: a row with a successor is labelled 1 exactly when
    the next close is higher. *)
Lemma target_column_lookup (close : list float) (i : nat) (c c' : float) :
  close !! i = Some c -> close !! S i = Some c' ->
  target_column close !! i = Some (CInt (if gtb c' c then 1 else 0)).
Proof.
  intros Hi Hs. unfold target_column, of_bools, col_gt.
  rewrite list_lookup_fmap, lookup_zip_with.
  destruct close as [|c0 rest]; [done|]. simpl shift_back1.
  rewrite lookup_app_l by (apply lookup_lt_Some in Hs; simpl in Hs; lia).
  simpl in Hs. by rewrite Hs, Hi.
Qed.

(** The last row has no successor: the comparison with the shifted-in NaN is
    false and [astype(int)] makes it the label 0. *)
Lemma target_column_last (close : list float) (c : float) :
  close !! (length close - 1)%nat = Some c ->
  target_column close !! (length close - 1)%nat = Some (CInt 0).
Proof.
  intros Hc. unfold target_column, of_bools, col_gt.
  rewrite list_lookup_fmap, lookup_zip_with.
  destruct close as [|c0 rest]; [done|]. simpl shift_back1.
  simpl length in *. replace (S (length rest) - 1)%nat with (length rest) in * by lia.
  rewrite lookup_app_r by lia. rewrite Nat.sub_diag. simpl.
  rewrite Hc. simpl. unfold gtb. by rewrite ltb_NaN_r.
Qed.

Lemma target_column_length (close : list float) :
  length (target_column close) = length close.
Proof.
  unfold target_column, of_bools, col_gt.
  rewrite length_fmap, length_zip_with.
  destruct close as [|c0 rest]; [done|]. simpl. rewrite length_app. simpl. lia.
Qed.

(** The caller's frame after the call holds the 'Target' column. *)
Lemma train_ensemble_models_frame (sk : sklearn) (df : DataFrame)
    (close : list float) :
  is_empty df = false ->
  get_numeric "Close" df = Some close ->
  (train_ensemble_models sk df).2 = set_column "Target" (target_column close) df.
Proof.
  intros He Hc. unfold train_ensemble_models. rewrite He, Hc.
  destruct (length _ <? 5)%nat; [done|]. by destruct (fit_models _ _ _).
Qed.

Lemma dropna_mask_lookup (df : DataFrame) (i : nat) :
  (i < nrows df)%nat ->
  dropna_mask df !! i = Some (row_complete (columns df) i).
Proof.
  intros Hi. unfold dropna_mask. rewrite list_lookup_fmap.
  by rewrite lookup_seq_lt.
Qed.

End TargetFacts.

(** C2, what the code does.  The last bar of a frame gets the label 0 (it has
    no next close, the comparison with NaN is false and the cast to an
    integer hides it), so [dropna] does not remove it: whenever its features
    are defined, the last bar is a row of the frame handed to
    [train_test_split], and so of the fitted train or test rows. *)
Theorem last_bar_is_labelled_and_kept
    (sk : MLModels.sklearn) (df : DataFrame) (close : list float) (label : nat) :
  is_empty df = false ->
  get_numeric "Close" df = Some close ->
  length close = nrows df ->
  index df !! (nrows df - 1)%nat = Some label ->
  let df' := (MLModels.train_ensemble_models sk df).2 in
  (forall f col, f ∈ MLModels.available_features df' ->
     columns df' !! f = Some col -> cell_present col (nrows df - 1) = true) ->
  (exists target, get_column "Target" df' = Some target
     /\ target !! (nrows df - 1)%nat = Some (CInt 0))
  /\ label ∈ index (MLModels.ml_frame df')
  /\ (MLModels.split_partition sk ->
      forall y sp,
        MLModels.train_test_split sk
          (select_columns (MLModels.available_features df') (MLModels.ml_frame df')) y
        = Some sp ->
        label ∈ index (MLModels.X_train sp) ++ index (MLModels.X_test sp)).
Proof.
  intros He Hclose Hlen Hlabel df' Hfeat.
  assert (df' = set_column "Target" (MLModels.target_column close) df) as Hdf'
    by (by apply train_ensemble_models_frame).
  assert (nrows df ≠ 0)%nat as Hn.
  { unfold is_empty in He. apply orb_false_iff in He as [He _].
    by apply Nat.eqb_neq in He. }
  assert (exists c, close !! (length close - 1)%nat = Some c) as [c Hc].
  { apply lookup_lt_is_Some. lia. }
  assert (columns df' !! "Target" = Some (MLModels.target_column close)) as Htarget.
  { rewrite Hdf'. unfold set_column. simpl. rewrite lookup_insert_eq.
    by rewrite align_id by (by rewrite target_column_length). }
  assert (MLModels.target_column close !! (nrows df - 1)%nat = Some (CInt 0))
    as Hlast.
  { rewrite <- Hlen. by eapply target_column_last. }
  assert (label ∈ index (MLModels.ml_frame df')) as Hin.
  { unfold MLModels.ml_frame, dropna, filter_rows. simpl.
    apply (select_rows_elem_of _ _ (nrows df - 1)).
    - rewrite dropna_mask_lookup by (unfold nrows; simpl; rewrite Hdf'; simpl;
                                     fold (nrows df); lia).
      f_equal. unfold row_complete. apply bool_decide_eq_true.
      intros name col Hl. simpl in Hl.
      apply map_lookup_filter_Some in Hl as [Hl Hnames]. simpl in Hnames.
      destruct (decide (name = "Target")) as [->|Hne].
      + rewrite Htarget in Hl. injection Hl as <-.
        unfold cell_present. by rewrite Hlast.
      + apply elem_of_app in Hnames as [Hf|Ht].
        * by apply (Hfeat name col).
        * apply list_elem_of_singleton in Ht. done.
    - by rewrite Hdf'. }
  split; [by exists (MLModels.target_column close)|].
  split; [done|].
  intros Hpart y sp Hsp. rewrite (Hpart _ _ _ Hsp). done.
Qed.

(** ** Dropping incomplete rows *)

Section DropnaFacts.

Lemma filter_rows_nrows (mask : list bool) (df : DataFrame) :
  nrows (filter_rows mask df) = length (select_rows mask (index df)).
Proof. reflexivity. Qed.

Lemma length_dropna_mask (df : DataFrame) : length (dropna_mask df) = nrows df.
Proof. unfold dropna_mask. by rewrite length_fmap, length_seq. Qed.

Lemma filter_fmap_length {A : Type} (f : A -> bool) (l : list A) :
  length (filter (fun b => b = false) (f <$> l))
  = length (filter (fun x => f x = false) l).
Proof.
  induction l as [|x l IH]; [done|]. simpl fmap.
  destruct (f x) eqn:Hx.
  - rewrite filter_cons_False by done.
    by rewrite (filter_cons_False (fun x => f x = false)) by congruence.
  - rewrite filter_cons_True by done.
    rewrite (filter_cons_True (fun x => f x = false)) by done.
    cbn [length]. f_equal. apply IH.
Qed.

(** The rows kept and the rows removed add up to the rows of the frame. *)
Lemma dropna_nrows (df : DataFrame) :
  (nrows (dropna df) + length (incomplete_rows df) = nrows df)%nat.
Proof.
  unfold dropna, incomplete_rows. rewrite filter_rows_nrows.
  rewrite <- (filter_fmap_length (row_complete (columns df))).
  fold (dropna_mask df). apply select_rows_count. apply length_dropna_mask.
Qed.

(** No per-column filling: a column of the result is the column of the
    frame at the rows kept. *)
Lemma dropna_column (df : DataFrame) (name : string) :
  columns (dropna df) !! name
  = select_rows (dropna_mask df) <$> columns df !! name.
Proof. unfold dropna, filter_rows. simpl. by rewrite lookup_fmap. Qed.

(** No cell of the result is missing. *)
Lemma dropna_complete (df : DataFrame) (name : string) (col : list cell) (c : cell) :
  columns (dropna df) !! name = Some col -> c ∈ col -> isna c = false.
Proof.
  rewrite dropna_column. intros Hcol Hc.
  destruct (columns df !! name) as [col0|] eqn:Hcol0; [|done].
  injection Hcol as <-.
  apply elem_of_select_rows in Hc as (i & Hmask & Hi).
  assert (i < nrows df)%nat as Hlt.
  { rewrite <- length_dropna_mask. by eapply lookup_lt_Some. }
  rewrite dropna_mask_lookup in Hmask by done. injection Hmask as Hrow.
  unfold row_complete in Hrow. apply bool_decide_eq_true in Hrow.
  specialize (Hrow name col0 Hcol0). unfold cell_present in Hrow.
  rewrite Hi in Hrow. by apply negb_true_iff.
Qed.

(** The rows removed are those with a missing value in some column. *)
Lemma incomplete_rows_spec (df : DataFrame) (i : nat) :
  i ∈ incomplete_rows df <->
  (i < nrows df)%nat
  /\ exists name col, columns df !! name = Some col /\ col !! i = Some (CFloat NaN).
Proof.
  unfold incomplete_rows. rewrite list_elem_of_filter, elem_of_seq.
  unfold row_complete. rewrite bool_decide_eq_false.
  split.
  - intros [Hnot Hi]. split; [lia|].
    apply map_not_Forall in Hnot as (name & col & Hcol & Hcell); [|apply _].
    exists name, col. split; [done|]. unfold cell_present in Hcell.
    destruct (col !! i) as [[[| | |]| | |]|]; simpl in Hcell; done.
  - intros [Hi (name & col & Hcol & Hcell)]. split; [|lia].
    intros Hall. specialize (Hall name col Hcol). unfold cell_present in Hall.
    by rewrite Hcell in Hall.
Qed.

End DropnaFacts.

(** ** The indicator engine *)

Section EngineFacts.

Import Config TechnicalAnalysis.

Lemma set_column_nrows (name : string) (col : list cell) (df : DataFrame) :
  nrows (set_column name col df) = nrows df.
Proof. reflexivity. Qed.

Lemma to_numeric_floats (n : nat) (xs : list float) :
  is_Some (to_numeric (align n (of_floats xs))).
Proof.
  unfold to_numeric. apply mapM_is_Some. apply Forall_forall.
  intros c Hc. unfold align in Hc. apply elem_of_take in Hc as (i & Hc & _).
  apply lookup_app_Some in Hc as [Hc|[_ Hc]].
  - unfold of_floats in Hc. rewrite list_lookup_fmap in Hc.
    destruct (xs !! i); [|done]. injection Hc as <-. by eexists.
  - apply lookup_replicate in Hc as [-> _]. by eexists.
Qed.

(** Assigning floats to a column keeps every numeric column numeric. *)
Lemma numeric_set_column (name name' : string) (xs : list float) (df : DataFrame) :
  is_Some (get_numeric name' df) ->
  is_Some (get_numeric name' (set_column name (of_floats xs) df)).
Proof.
  intros H. unfold get_numeric, set_column. simpl.
  destruct (decide (name = name')) as [->|Hne].
  - rewrite lookup_insert_eq. simpl. apply to_numeric_floats.
  - by rewrite lookup_insert_ne.
Qed.

Lemma numeric_set_column_same (name : string) (xs : list float) (df : DataFrame) :
  is_Some (get_numeric name (set_column name (of_floats xs) df)).
Proof.
  unfold get_numeric, set_column. simpl. rewrite lookup_insert_eq. simpl.
  apply to_numeric_floats.
Qed.

Lemma assign_columns_nrows (cols : list (string * list float)) (df : DataFrame) :
  nrows (assign_columns cols df) = nrows df.
Proof.
  unfold assign_columns. revert df.
  induction cols as [|[n c] cols IH]; intros df; [done|]. simpl. by rewrite IH.
Qed.

Lemma assign_columns_numeric (cols : list (string * list float))
    (name : string) (df : DataFrame) :
  is_Some (get_numeric name df) ->
  is_Some (get_numeric name (assign_columns cols df)).
Proof.
  unfold assign_columns. revert df.
  induction cols as [|[n c] cols IH]; intros df H; [done|]. simpl.
  apply IH. by apply numeric_set_column.
Qed.

Lemma append_ok (f : DataFrame -> ta_result) (df : DataFrame) :
  f df ≠ TaRaise -> bars_numeric df ->
  exists df', append f df = Some df' /\ nrows df' = nrows df /\ bars_numeric df'.
Proof.
  intros Hf Hb. unfold append. destruct (f df) as [| |cols]; [done| |].
  - by exists df.
  - eexists. split; [done|]. split; [apply assign_columns_nrows|].
    unfold bars_numeric in *. eapply Forall_impl; [exact Hb|].
    intros name. apply assign_columns_numeric.
Qed.

Lemma custom_features_ok (df : DataFrame) :
  bars_numeric df ->
  exists df', custom_features df = Some df' /\ nrows df' = nrows df.
Proof.
  intros Hb. unfold bars_numeric, bar_names in Hb.
  repeat (apply Forall_cons in Hb as [? Hb]).
  unfold custom_features.
  repeat match goal with
  | |- context [get_numeric ?n ?d ≫= _] =>
      let x := fresh "col" in let E := fresh "E" in
      assert (is_Some (get_numeric n d)) as [x E]
        by (repeat first [ assumption
                         | apply numeric_set_column_same
                         | apply numeric_set_column ]);
      rewrite E; simpl
  end.
  eexists. split; reflexivity.
Qed.

(** With a library that does not raise, the engine computes its frame for
    every frame of bars. *)
Lemma append_all_ok (calls : list (DataFrame -> ta_result)) (df : DataFrame) :
  Forall (fun f => forall df, bars_numeric df -> f df ≠ TaRaise) calls ->
  bars_numeric df ->
  exists df', append_all calls df = Some df'
    /\ nrows df' = nrows df /\ bars_numeric df'.
Proof.
  unfold append_all. revert df.
  induction calls as [|f calls IH]; intros df Hcalls Hb; [by exists df|].
  apply Forall_cons in Hcalls as [Hf Hcalls]. simpl.
  destruct (append_ok f df (Hf df Hb) Hb) as (df1 & -> & Hn1 & Hb1).
  destruct (IH df1 Hcalls Hb1) as (df' & -> & Hn' & Hb').
  exists df'. split; [done|]. split; [congruence|done].
Qed.

(** With a library that does not raise, the engine computes its frame for
    every frame of bars. *)
Lemma with_indicators_ok (ta : pandas_ta) (df : DataFrame) :
  never_raises ta -> bars_numeric df ->
  exists full, with_indicators ta df = Some full /\ nrows full = nrows df.
Proof.
  intros Hta Hb. unfold with_indicators.
  destruct (append_all_ok _ df Hta Hb) as (df1 & -> & Hn1 & Hb1). simpl.
  destruct (custom_features_ok df1 Hb1) as (full & -> & Hn).
  exists full. split; [done|]. congruence.
Qed.

End EngineFacts.

(** C8.  For every non-empty frame of bars the indicator engine (with a
    library that does not raise on bars) returns a frame in which no cell of any
    column is undefined; its row count is the input row count minus the
    number of rows of the enriched frame that hold an undefined value in some
    column; exactly those rows are removed, and the rows kept carry their
    cells unchanged (rows are dropped, no column is filled). *)
Theorem indicator_engine_output
    (ta : TechnicalAnalysis.pandas_ta) (df : DataFrame) :
  TechnicalAnalysis.never_raises ta ->
  is_empty df = false ->
  TechnicalAnalysis.bars_numeric df ->
  exists full out,
    TechnicalAnalysis.with_indicators ta df = Some full
    /\ TechnicalAnalysis.calculate_advanced_indicators ta df = Some out
    /\ (forall name col c,
          columns out !! name = Some col -> c ∈ col -> isna c = false)
    /\ nrows out = (nrows df - length (incomplete_rows full))%nat
    /\ (forall i, i ∈ incomplete_rows full <->
          (i < nrows df)%nat
          /\ exists name col,
               columns full !! name = Some col /\ col !! i = Some (CFloat NaN))
    /\ (forall name col,
          columns full !! name = Some col ->
          columns out !! name = Some (select_rows (dropna_mask full) col)).
Proof.
  intros Hta He Hb.
  destruct (with_indicators_ok ta df Hta Hb) as (full & Hfull & Hn).
  exists full, (dropna full).
  split; [done|]. split.
  { unfold TechnicalAnalysis.calculate_advanced_indicators.
    by rewrite He, Hfull. }
  split; [apply dropna_complete|]. split.
  { pose proof (dropna_nrows full). lia. }
  split.
  { intros i. rewrite <- Hn. apply incomplete_rows_spec. }
  intros name col Hcol. by rewrite dropna_column, Hcol.
Qed.

(** ** The synthetic data generator: the calendar *)

Section CalendarFacts.

Import DataLoader.

Lemma is_business_day_shift (k d : Z) :
  is_business_day (7 * k + d) = is_business_day d.
Proof.
  unfold is_business_day, weekday. f_equal.
  replace (7 * k + d + 3) with (d + 3 + k * 7) by lia.
  apply Z_mod_plus_full.
Qed.

Lemma business_days_shift (k : Z) (l : list Z) :
  length (filter (fun d => is_business_day d = true) (Z.add (7 * k) <$> l))
  = length (filter (fun d => is_business_day d = true) l).
Proof.
  induction l as [|d l IH]; [done|]. rewrite fmap_cons.
  destruct (is_business_day d) eqn:Hd.
  - rewrite !filter_cons_True by (by rewrite ?is_business_day_shift).
    cbn [length]. f_equal. apply IH.
  - rewrite !filter_cons_False by (by rewrite ?is_business_day_shift, Hd).
    apply IH.
Qed.

(** Any seven consecutive days hold five business days. *)
Lemma business_days_week (s : Z) :
  length (filter (fun d => is_business_day d = true) (seqZ s 7)) = 5%nat.
Proof.
  rewrite (Z.div_mod s 7) at 1 by lia.
  rewrite <- fmap_add_seqZ, business_days_shift.
  pose proof (Z.mod_pos_bound s 7 ltac:(lia)) as Hr.
  assert (s mod 7 = 0 \/ s mod 7 = 1 \/ s mod 7 = 2 \/ s mod 7 = 3
          \/ s mod 7 = 4 \/ s mod 7 = 5 \/ s mod 7 = 6) as Hcases by lia.
  destruct Hcases as [->|[->|[->|[->|[->|[->| ->]]]]]]; by vm_compute.
Qed.

Lemma business_days_weeks (w : nat) (s : Z) :
  (5 * w <= length (filter (fun d => is_business_day d = true)
                           (seqZ s (7 * Z.of_nat w + 1))))%nat.
Proof.
  revert s. induction w as [|w IH]; intros s; [simpl; lia|].
  replace (7 * Z.of_nat (S w) + 1) with (7 + (7 * Z.of_nat w + 1)) by lia.
  rewrite seqZ_app by lia. rewrite filter_app, length_app, business_days_week.
  specialize (IH (s + 7)). lia.
Qed.

Lemma days_of_cases (period : string) :
  days_of period = 130%nat \/ days_of period = 65%nat \/ days_of period = 260%nat.
Proof.
  unfold days_of. destruct (String.eqb period "6mo"); [by left|].
  destruct (String.eqb period "3mo"); auto.
Qed.

(** The padded look-back window always holds the requested number of
    business days, whatever the day of the clock reading. *)
Lemma date_rng_length (now : datetime) (period : string) :
  length (date_rng now period) = days_of period.
Proof.
  unfold date_rng, bdate_range. apply length_take_le.
  replace (dt_day now - (dt_day now - lookback (days_of period)) + 1)
    with (lookback (days_of period) + 1) by lia.
  destruct (days_of_cases period) as [->|[-> | ->]].
  - change (lookback 130) with (7 * Z.of_nat 26).
    etransitivity; [|apply business_days_weeks]. lia.
  - change (lookback 65) with (7 * Z.of_nat 13).
    etransitivity; [|apply business_days_weeks]. lia.
  - change (lookback 260) with (7 * Z.of_nat 52).
    etransitivity; [|apply business_days_weeks]. lia.
Qed.

End CalendarFacts.

(** ** The synthetic data generator: the numbers *)

Section GeneratorFacts.

Import DataLoader.

Local Open Scope Q_scope.

Lemma autocorrelate_from_length (prev : Q) (xs : list Q) :
  length (autocorrelate_from prev xs) = length xs.
Proof.
  revert prev. induction xs as [|x xs IH]; intros prev; [done|].
  simpl. by rewrite IH.
Qed.

Lemma autocorrelate_length (xs : list Q) :
  length (autocorrelate xs) = length xs.
Proof. destruct xs; [done|]. simpl. by rewrite autocorrelate_from_length. Qed.

Lemma cumsum_from_length (acc : Q) (xs : list Q) :
  length (cumsum_from acc xs) = length xs.
Proof.
  revert acc. induction xs as [|x xs IH]; intros acc; [done|].
  simpl. by rewrite IH.
Qed.

Lemma cumsum_length (xs : list Q) : length (cumsum xs) = length xs.
Proof. apply cumsum_from_length. Qed.

(** A non-negative float below 2^63 is cast to a non-negative integer. *)
Lemma astype_int_nonneg (q : Q) :
  0 <= q -> q < inject_Z (2 ^ 63) -> (0 <= astype_int q)%Z.
Proof.
  intros H0 H1. unfold astype_int.
  destruct q as [num den]. unfold Qle, Qlt in *. simpl in *.
  assert (0 <= num)%Z as Hnum by lia.
  assert (0 <= num ÷ Z.pos den)%Z as Hz by (apply Z.quot_pos; lia).
  assert (num ÷ Z.pos den < 2 ^ 63)%Z as Hlt.
  { pose proof (Z.mul_quot_le num (Z.pos den) Hnum ltac:(lia)) as Hm.
    apply Z.nle_gt. intros Hge.
    assert (2 ^ 63 * Z.pos den <= Z.pos den * (num ÷ Z.pos den))%Z by nia.
    lia. }
  destruct (_ && _) eqn:E; [done|].
  apply andb_false_iff in E as [E|E]; [apply Z.leb_gt in E|apply Z.ltb_ge in E]; lia.
Qed.

Lemma mock_numbers_spec (pr : process) (ticker : string) (n : nat) :
  np_random_laws (np pr) -> (0 < n)%nat ->
  exists m, mock_numbers pr ticker n = Some m /\ mock_invariant n m.
Proof.
  intros [Hnorm Hlogn Hrange] Hn. unfold mock_numbers.
  set (p := params_of ticker).
  pose proof (Hnorm (trend p) (volatility p) n
                (seed (np pr) (py_hash pr ticker mod 2 ^ 32)%Z)) as Hlen0.
  destruct (normal (np pr) (trend p) (volatility p) n _) as [returns st0].
  simpl in Hlen0.
  set (close := (fun r => base_price p * np_exp pr r)
                <$> cumsum (autocorrelate returns)).
  assert (length close = n) as Hclose.
  { subst close. by rewrite length_fmap, cumsum_length, autocorrelate_length. }
  destruct close as [|first rest] eqn:Eclose; [simpl in Hclose; lia|].
  rewrite <- Eclose in *. clear Eclose.
  pose proof (Hnorm 0 (volatility p * (1 # 2) / 2) n st0) as Hlen1.
  destruct (normal (np pr) 0 (volatility p * (1 # 2) / 2) n st0) as [noise1 st1].
  simpl in Hlen1.
  pose proof (Hnorm 0 (volatility p * (1 # 2) / 3) n st1) as Hlen2.
  destruct (normal (np pr) 0 (volatility p * (1 # 2) / 3) n st1) as [noise2 st2].
  simpl in Hlen2.
  pose proof (Hnorm 0 (volatility p * (1 # 2) / 3) n st2) as Hlen3.
  destruct (normal (np pr) 0 (volatility p * (1 # 2) / 3) n st2) as [noise3 st3].
  simpl in Hlen3.
  pose proof (Hlogn 15 (1 # 2) n st3) as Hlen4.
  pose proof (Hrange 15 (1 # 2) n st3) as Hdraws.
  destruct (lognormal (np pr) 15 (1 # 2) n st3) as [draws st4].
  simpl in Hlen4, Hdraws.
  set (open := zip_with (fun c e => c * (1 + e))
                 (first :: take (length close - 1) close) noise1).
  assert (length open = n) as Hopen.
  { subst open. rewrite length_zip_with. simpl length.
    rewrite length_take. lia. }
  eexists. split; [reflexivity|]. fold open.
  set (omax := zip_with Qmax open close).
  set (omin := zip_with Qmin open close).
  assert (length omax = n) as Homax by (subst omax; rewrite length_zip_with; lia).
  assert (length omin = n) as Homin by (subst omin; rewrite length_zip_with; lia).
  split; simpl.
  - done.
  - done.
  - rewrite !length_zip_with. lia.
  - rewrite !length_zip_with. lia.
  - by rewrite length_fmap.
  - intros i o c h l Ho Hc Hh Hl.
    apply lookup_zip_with_Some in Hh as (h0 & mx & -> & _ & Hmx).
    apply lookup_zip_with_Some in Hl as (l0 & mn & -> & _ & Hmn).
    subst omax omin.
    apply lookup_zip_with_Some in Hmx as (o1 & c1 & -> & Ho1 & Hc1).
    apply lookup_zip_with_Some in Hmn as (o2 & c2 & -> & Ho2 & Hc2).
    assert (o1 = o) as -> by congruence. assert (c1 = c) as -> by congruence.
    assert (o2 = o) as -> by congruence. assert (c2 = c) as -> by congruence.
    pose proof (Qmax_ge_r h0 (Qmax o c)). pose proof (Qmax_ge_l o c).
    pose proof (Qmax_ge_r o c). pose proof (Qmin_le_r l0 (Qmin o c)).
    pose proof (Qmin_le_l o c). pose proof (Qmin_le_r o c).
    repeat split; lra.
  - apply Forall_fmap. eapply Forall_impl; [exact Hdraws|].
    intros q [? ?]. by apply astype_int_nonneg.
Qed.

Lemma rounded_column_length (xs : list Q) :
  length (rounded_column xs) = length xs.
Proof. unfold rounded_column, float_column. by rewrite !length_fmap. Qed.

Lemma rounded_column_lookup (xs : list Q) (i : nat) :
  rounded_column xs !! i
  = (fun q => CFloat (Fin (Qred (round2_Q q)))) <$> xs !! i.
Proof.
  unfold rounded_column, float_column. rewrite !list_lookup_fmap.
  by destruct (xs !! i).
Qed.

(** Rounding both sides keeps an inequality of two prices. *)
Lemma rounded_le (a b : Q) :
  a <= b -> leb (Fin (Qred (round2_Q a))) (Fin (Qred (round2_Q b))) = true.
Proof.
  intros H. apply leb_Fin. rewrite !Qred_correct. by apply round2_Q_mono.
Qed.

End GeneratorFacts.

Section GeneratorFrame.

Import DataLoader.

(** The frame the generator returns, column by column. *)
Lemma generate_enhanced_mock_data_spec (pr : process) (now : datetime)
    (ticker period : string) :
  np_random_laws (np pr) ->
  exists m,
    mock_numbers pr ticker (days_of period) = Some m
    /\ mock_invariant (days_of period) m
    /\ generate_enhanced_mock_data pr now ticker period
       = Some (mkDataFrame (seq 0 (days_of period))
           (<["Volume" := CInt <$> mock_volume m]>
           (<["Low" := rounded_column (mock_low m)]>
           (<["High" := rounded_column (mock_high m)]>
           (<["Open" := rounded_column (mock_open m)]>
           (<["Close" := rounded_column (mock_close m)]>
           (<["Date" := (fun d => CTime d (dt_time now)) <$> date_rng now period]>
            ∅))))))).
Proof.
  intros Hlaws.
  assert (0 < days_of period)%nat as Hpos
    by (destruct (days_of_cases period) as [->|[-> | ->]]; lia).
  destruct (mock_numbers_spec pr ticker (days_of period) Hlaws Hpos)
    as (m & Hm & Hinv).
  exists m. split; [done|]. split; [done|].
  unfold generate_enhanced_mock_data. rewrite date_rng_length, Hm. simpl.
  destruct Hinv as [Hc Ho Hh Hl Hv _ _].
  unfold set_column, nrows. simpl. rewrite length_seq.
  rewrite !align_id;
    rewrite ?rounded_column_length, ?length_fmap, ?date_rng_length; done.
Qed.


End GeneratorFrame.

(** C6.  For every ticker, period and clock reading the generator returns a
    frame, and in every row of it, after the rounding of the prices to two
    decimals, High is at least Open and Close (so at least their maximum),
    Low is at most Open and Close (so at most their minimum), and the Volume
    is not negative. *)
Theorem synthetic_bars_invariant
    (pr : DataLoader.process) (now : DataLoader.datetime)
    (ticker period : string) :
  DataLoader.np_random_laws (DataLoader.np pr) ->
  exists df,
    DataLoader.generate_enhanced_mock_data pr now ticker period = Some df
    /\ nrows df = DataLoader.days_of period
    /\ forall i, (i < nrows df)%nat ->
         exists o h l c v,
           iloc df "Open" i = Some (CFloat o)
           /\ iloc df "High" i = Some (CFloat h)
           /\ iloc df "Low" i = Some (CFloat l)
           /\ iloc df "Close" i = Some (CFloat c)
           /\ iloc df "Volume" i = Some (CInt v)
           /\ leb o h = true /\ leb c h = true
           /\ leb l o = true /\ leb l c = true
           /\ 0 <= v.
Proof.
  intros Hlaws.
  destruct (generate_enhanced_mock_data_spec pr now ticker period Hlaws)
    as (m & _ & Hinv & Hgen).
  eexists. split; [exact Hgen|]. split; [apply length_seq|].
  unfold nrows. simpl. rewrite length_seq. intros i Hi.
  destruct Hinv as [Hc Ho Hh Hl Hv Hbars Hvol].
  destruct (lookup_lt_is_Some_2 (DataLoader.mock_open m) i) as [o Eo]; [lia|].
  destruct (lookup_lt_is_Some_2 (DataLoader.mock_high m) i) as [h Eh]; [lia|].
  destruct (lookup_lt_is_Some_2 (DataLoader.mock_low m) i) as [l El]; [lia|].
  destruct (lookup_lt_is_Some_2 (DataLoader.mock_close m) i) as [c Ec]; [lia|].
  destruct (lookup_lt_is_Some_2 (DataLoader.mock_volume m) i) as [v Ev]; [lia|].
  destruct (Hbars i o c h l Eo Ec Eh El) as (Hoh & Hch & Hlo & Hlc).
  exists (Fin (Qred (round2_Q o))), (Fin (Qred (round2_Q h))),
         (Fin (Qred (round2_Q l))), (Fin (Qred (round2_Q c))), v.
  unfold iloc. simpl.
  repeat (rewrite lookup_insert_ne by done). rewrite !lookup_insert_eq.
  repeat (rewrite lookup_insert_ne by done). rewrite !lookup_insert_eq.
  repeat (rewrite lookup_insert_ne by done). rewrite !lookup_insert_eq.
  repeat (rewrite lookup_insert_ne by done). rewrite !lookup_insert_eq.
  simpl. rewrite !rounded_column_lookup, list_lookup_fmap, Eo, Eh, El, Ec, Ev.
  simpl. repeat split; try by apply rounded_le.
  eapply Forall_lookup_1 in Hvol; [|exact Ev]. done.
Qed.


(** ** The orchestrator *)

Section AppFacts.

Import App.

(** On a stage's null result [process_stock] returns three components. *)
Lemma process_stock_sentinel (p : pipeline) (ticker : string) (use_mock : bool) :
  stage_sentinel p ticker use_mock ->
  (process_stock p ticker use_mock).1 = [PyNone; PyNone; PyNone].
Proof.
  unfold process_stock.
  intros [->|(d & -> & [-> | Hind])]; [done|done|].
  destruct (is_empty d); [done|]. by rewrite Hind.
Qed.

(** In every other case it returns four. *)
Lemma process_stock_four (p : pipeline) (ticker : string) (use_mock : bool) :
  ~ stage_sentinel p ticker use_mock ->
  length (process_stock p ticker use_mock).1 = 4%nat.
Proof.
  intros Hno. unfold process_stock.
  destruct (fetch_stock_data p ticker use_mock) as [[d|]|] eqn:Hf; [| |done].
  - destruct (is_empty d) eqn:He.
    { exfalso. apply Hno. right. exists d. auto. }
    destruct (calculate_advanced_indicators p d) as [[data|]|] eqn:Hi; [| |done].
    + unfold analyse.
      destruct (apply_enhanced_trading_strategy p data) as [[sig d1]|]; [|done].
      simpl. destruct (train_ensemble_models p d1) as [[ml d2]|]; [|done].
      simpl. by destruct (create_advanced_charts p d2 sig ticker).
    + exfalso. apply Hno. right. exists d. auto.
  - exfalso. apply Hno. by left.
Qed.

Lemma store_results_four (ticker : string) (results : list pyobj) (u : ui_state) :
  length results = 4%nat ->
  exists u', store_results ticker results u = Some u'
    /\ progress u' = progress u
    /\ results_generated u' = results_generated u
    /\ successful_stocks u' = S (successful_stocks u).
Proof.
  intros Hlen. destruct results as [|a [|b [|c [|d [|e rest]]]]]; try done.
  eexists. split; [reflexivity|]. done.
Qed.

(** The loop over tickers none of which hits a null stage result. *)
Lemma process_all_clean (p : pipeline) (use_mock : bool) (total : nat)
    (tickers rest : list string) (i : nat) (u : ui_state) :
  Forall (fun t => ~ stage_sentinel p t use_mock) tickers ->
  exists u',
    process_all p use_mock total i (tickers ++ rest) u
    = process_all p use_mock total (i + length tickers) rest u'
    /\ results_generated u' = results_generated u
    /\ successful_stocks u' = (successful_stocks u + length tickers)%nat
    /\ (tickers = [] -> u' = u).
Proof.
  revert i u. induction tickers as [|t tickers IH]; intros i u Hall.
  { exists u. simpl. rewrite Nat.add_0_r. by repeat split; try lia. }
  apply Forall_cons in Hall as [Ht Hall]. simpl.
  pose proof (process_stock_four p t use_mock Ht) as Hlen.
  destruct (process_stock p t use_mock) as [results lines]. simpl in Hlen.
  destruct (store_results_four t results
              (mkUi (inject_Z (Z.of_nat (i + 1)) / inject_Z (Z.of_nat total))
                    (results_generated u) (ml_results u) (plotted u)
                    (successful_stocks u) (logs u ++ lines)) Hlen)
    as (u1 & -> & _ & Hg & Hs).
  destruct (IH (i + 1)%nat u1 Hall) as (u' & -> & Hg' & Hs' & _).
  exists u'. split; [f_equal; lia|]. simpl in *.
  repeat split; [congruence|lia|done].
Qed.

End AppFacts.

(** C1, what the code does.  When a stage gives its null result for a ticker
    (after tickers that went through), [process_stock] returns three
    components, the unpacking into four names raises [ValueError], and the
    run stops there: the later tickers are not processed, the progress bar
    stays at the position of the failing ticker and the completion flag is
    never set. *)
Theorem run_aborts_on_null_stage_result
    (p : App.pipeline) (before after : list string) (ticker : string)
    (use_mock : bool) :
  Forall (fun t => ~ App.stage_sentinel p t use_mock) before ->
  App.stage_sentinel p ticker use_mock ->
  exists u,
    App.run_trading_algorithm p (before ++ ticker :: after) use_mock
    = App.Raised (App.ValueError_unpack 4 3) u
    /\ App.results_generated u = false
    /\ App.successful_stocks u = length before
    /\ App.progress u
       = (inject_Z (Z.of_nat (length before + 1))
          / inject_Z (Z.of_nat (length (before ++ ticker :: after))))%Q.
Proof.
  intros Hbefore Hticker. unfold App.run_trading_algorithm.
  destruct (process_all_clean p use_mock (length (before ++ ticker :: after))
              before (ticker :: after) 0 App.ui_init Hbefore)
    as (u' & -> & Hg & Hs & _).
  simpl. pose proof (process_stock_sentinel p ticker use_mock Hticker) as Hres.
  destruct (App.process_stock p ticker use_mock) as [results lines].
  simpl in Hres. subst results. simpl.
  eexists. split; [reflexivity|]. simpl. repeat split; done.
Qed.

(** ** Running the engine on its own output *)

Section ReEnrichFacts.

Import Config TechnicalAnalysis.

Lemma to_numeric_floats_eq (n : nat) (xs : list float) :
  to_numeric (align n (of_floats xs)) = Some (take n (xs ++ replicate n NaN)).
Proof.
  unfold to_numeric, align, of_floats. apply mapM_Some.
  replace (replicate n (CFloat NaN)) with (CFloat <$> replicate n NaN)
    by apply fmap_replicate.
  rewrite <- fmap_app, <- fmap_take.
  apply Forall2_fmap_l, Forall_Forall2_diag, Forall_true. done.
Qed.

(** Reading a column after an assignment of floats. *)
Lemma get_numeric_set_floats (name name' : string) (xs : list float)
    (df : DataFrame) :
  get_numeric name' (set_column name (of_floats xs) df)
  = if decide (name = name')
    then Some (take (nrows df) (xs ++ replicate (nrows df) NaN))
    else get_numeric name' df.
Proof.
  unfold get_numeric, set_column. simpl. case_decide as Hn.
  - subst. rewrite lookup_insert_eq. simpl. apply to_numeric_floats_eq.
  - by rewrite lookup_insert_ne.
Qed.

Lemma to_numeric_select_rows (mask : list bool) (col : list cell)
    (xs : list float) :
  to_numeric col = Some xs ->
  to_numeric (select_rows mask col) = Some (select_rows mask xs).
Proof.
  unfold to_numeric. rewrite !mapM_Some. intros H. revert mask.
  induction H as [|c x col xs Hc H IH]; intros [|b mask]; simpl;
    try constructor.
  destruct b; [constructor; [done|]|]; apply IH.
Qed.

Lemma to_numeric_length (col : list cell) (xs : list float) :
  to_numeric col = Some xs -> length xs = length col.
Proof.
  unfold to_numeric. rewrite mapM_Some. intros H. symmetry.
  by eapply Forall2_length.
Qed.

Lemma select_rows_length_eq {A B : Type} (mask : list bool)
    (xs : list A) (ys : list B) :
  length xs = length ys ->
  length (select_rows mask xs) = length (select_rows mask ys).
Proof.
  revert xs ys. induction mask as [|b mask IH]; intros [|x xs] [|y ys]; simpl;
    try done.
  intros [= H]. destruct b; simpl; by rewrite (IH xs ys).
Qed.

(** The columns the custom features read and two of those they write, in
    terms of the frame they are given. *)
Lemma custom_features_columns (df df' : DataFrame) :
  custom_features df = Some df' ->
  index df' = index df
  /\ (forall name, name ∈ bar_names -> columns df' !! name = columns df !! name)
  /\ exists open high low close,
       get_numeric "Open" df = Some open
       /\ get_numeric "High" df = Some high
       /\ get_numeric "Low" df = Some low
       /\ get_numeric "Close" df = Some close
       /\ columns df' !! "High_Low_Pct"
          = Some (align (nrows df)
                    (of_floats (zip_with3 (fun h l c => div (sub h l) c)
                                          high low close)))
       /\ columns df' !! "Open_Close_Pct"
          = Some (align (nrows df)
                    (of_floats (zip_with (fun c o => div (sub c o) o) close open))).
Proof.
  unfold custom_features. intros H.
  repeat match type of H with
  | context [get_numeric _ (set_column _ (of_floats _) _)] =>
      rewrite get_numeric_set_floats in H;
      match type of H with
      | context [decide (?a = ?b)] =>
          destruct (decide (a = b)) as [e|n];
          [ first [discriminate e | clear e]
          | first [exfalso; apply n; reflexivity | clear n] ]
      end
  | (get_numeric ?n ?d ≫= _) = Some _ =>
      destruct (get_numeric n d) eqn:?; [simpl in H|discriminate]
  | (Some _ ≫= _) = Some _ => simpl in H
  end.
  injection H as <-. split; [done|]. split.
  - intros name Hname. unfold bar_names in Hname. simpl.
    repeat (apply elem_of_cons in Hname as [->|Hname]);
      [..|by apply elem_of_nil in Hname];
      by repeat (rewrite lookup_insert_ne by done).
  - simplify_eq. eexists _, _, _, _.
    split; [reflexivity|]. split; [reflexivity|].
    split; [reflexivity|]. split; [reflexivity|].
    unfold set_column. simpl. split.
    + repeat (rewrite lookup_insert_ne by done). by rewrite lookup_insert_eq.
    + repeat (rewrite lookup_insert_ne by done). by rewrite lookup_insert_eq.
Qed.

Lemma assign_columns_other (cols : list (string * list float))
    (name : string) (df : DataFrame) :
  Forall (fun nc : string * list float => nc.1 ≠ name) cols ->
  columns (assign_columns cols df) !! name = columns df !! name.
Proof.
  unfold assign_columns. revert df.
  induction cols as [|[n c] cols IH]; intros df Hall; [done|].
  apply Forall_cons in Hall as [Hn Hall]. simpl in *.
  rewrite IH by done. unfold set_column. simpl. by rewrite lookup_insert_ne.
Qed.

Lemma assign_columns_index (cols : list (string * list float)) (df : DataFrame) :
  index (assign_columns cols df) = index df.
Proof.
  unfold assign_columns. revert df.
  induction cols as [|[n c] cols IH]; intros df; [done|]. simpl. by rewrite IH.
Qed.

(** The library calls leave the rows and the bar columns as they are. *)
Lemma append_all_bars (calls : list (DataFrame -> ta_result)) (df df' : DataFrame) :
  Forall (fun f => forall df cols, f df = TaColumns cols ->
            Forall (fun nc : string * list float => nc.1 ∉ bar_names) cols) calls ->
  append_all calls df = Some df' ->
  index df' = index df
  /\ forall name, name ∈ bar_names -> columns df' !! name = columns df !! name.
Proof.
  unfold append_all. revert df.
  induction calls as [|f calls IH]; intros df Hcalls H.
  { simpl in H. by injection H as <-. }
  apply Forall_cons in Hcalls as [Hf Hcalls]. simpl in H.
  unfold append at 2 in H. destruct (f df) as [| |cols] eqn:Hfd.
  - exfalso. clear -H. induction calls as [|g calls IH]; [done|]. by apply IH.
  - by apply IH.
  - destruct (IH _ Hcalls H) as [Hidx Hbars]. split.
    + by rewrite Hidx, assign_columns_index.
    + intros name Hname. rewrite (Hbars name Hname).
      apply assign_columns_other. eapply Forall_impl; [exact (Hf df cols Hfd)|].
      intros nc Hnc Heq. apply Hnc. by rewrite Heq.
Qed.

(** What the engine's frame holds in the bar columns and in the two
    features that are computed from the bar of the same row. *)
Lemma with_indicators_bars (ta : pandas_ta) (df full : DataFrame) :
  keeps_bars ta ->
  with_indicators ta df = Some full ->
  index full = index df
  /\ (forall name, name ∈ bar_names -> columns full !! name = columns df !! name)
  /\ exists open high low close,
       get_numeric "Open" df = Some open
       /\ get_numeric "High" df = Some high
       /\ get_numeric "Low" df = Some low
       /\ get_numeric "Close" df = Some close
       /\ columns full !! "High_Low_Pct"
          = Some (align (nrows df)
                    (of_floats (zip_with3 (fun h l c => div (sub h l) c)
                                          high low close)))
       /\ columns full !! "Open_Close_Pct"
          = Some (align (nrows df)
                    (of_floats (zip_with (fun c o => div (sub c o) o) close open))).
Proof.
  intros Hta H. unfold with_indicators in H.
  destruct (append_all (indicator_calls ta) df) as [df1|] eqn:H1; [|done].
  simpl in H. destruct (append_all_bars _ _ _ Hta H1) as [Hidx Hbars].
  destruct (custom_features_columns _ _ H)
    as (Hidx' & Hbars' & o & h & l & c & Ho & Hh & Hl & Hc & Hhl & Hoc).
  assert (forall name, name ∈ bar_names ->
            get_numeric name df1 = get_numeric name df) as Hnum.
  { intros name Hname. unfold get_numeric. by rewrite Hbars. }
  split; [congruence|]. split.
  { intros name Hname. by rewrite Hbars', Hbars. }
  exists o, h, l, c. unfold bar_names in Hnum.
  rewrite <- !Hnum by (repeat first [by left | right]).
  assert (nrows df = nrows df1) as -> by (unfold nrows; by rewrite Hidx).
  done.
Qed.

End ReEnrichFacts.

Section ReEnrichColumns.

Import Config TechnicalAnalysis.

Lemma engine_inv (ta : pandas_ta) (df out : DataFrame) :
  calculate_advanced_indicators ta df = Some out ->
  exists full, with_indicators ta df = Some full /\ out = dropna full.
Proof.
  unfold calculate_advanced_indicators. destruct (is_empty df); [done|].
  destruct (with_indicators ta df) as [full|]; [|done]. simpl.
  intros [= <-]. by exists full.
Qed.

(** A numeric column of the trimmed frame is the trimmed numeric column. *)
Lemma get_numeric_dropna (full : DataFrame) (name : string) (xs : list float) :
  get_numeric name full = Some xs ->
  get_numeric name (dropna full) = Some (select_rows (dropna_mask full) xs).
Proof.
  unfold get_numeric. rewrite dropna_column.
  destruct (columns full !! name) as [col|]; [|done]. simpl.
  apply to_numeric_select_rows.
Qed.

Lemma zip_with3_select_rows {A B C D : Type} (f : A -> B -> C -> D)
    (mask : list bool) (xs : list A) (ys : list B) (zs : list C) :
  select_rows mask (zip_with3 f xs ys zs)
  = zip_with3 f (select_rows mask xs) (select_rows mask ys) (select_rows mask zs).
Proof. unfold zip_with3. by rewrite !select_rows_zip_with. Qed.

Lemma get_numeric_length (df : DataFrame) (name : string) (xs : list float) :
  well_formed df -> get_numeric name df = Some xs -> length xs = nrows df.
Proof.
  intros Hwf. unfold get_numeric.
  destruct (columns df !! name) as [col|] eqn:Hcol; [|done]. simpl.
  intros H%to_numeric_length. rewrite H. by apply (Hwf name).
Qed.

End ReEnrichColumns.

(** C3, as amended.  Running the engine on its own output does not raise: it
    gives a frame or the null result.  When it gives a frame, the rows of that
    frame are rows of the first output, and on them the bar columns (Open,
    High, Low, Close, Volume), the two features computed from the bar of the
    same row (High_Low_Pct, Open_Close_Pct) and every column the second run
    did not assign hold the values they held before.  (Columns that depend on
    the history of the series are recomputed from the trimmed series.) *)
Theorem re_enrichment_keeps_row_local_columns
    (ta : TechnicalAnalysis.pandas_ta) (df out1 out2 : DataFrame) :
  TechnicalAnalysis.keeps_bars ta ->
  TechnicalAnalysis.well_formed df ->
  TechnicalAnalysis.calculate_advanced_indicators ta df = Some out1 ->
  TechnicalAnalysis.calculate_advanced_indicators ta out1 = Some out2 ->
  exists full2,
    TechnicalAnalysis.with_indicators ta out1 = Some full2
    /\ index out2 = select_rows (dropna_mask full2) (index out1)
    /\ (forall name,
          name ∈ TechnicalAnalysis.bar_names ++ ["High_Low_Pct"; "Open_Close_Pct"] ->
          columns out2 !! name
          = select_rows (dropna_mask full2) <$> columns out1 !! name)
    /\ (forall name,
          columns full2 !! name = columns out1 !! name ->
          columns out2 !! name
          = select_rows (dropna_mask full2) <$> columns out1 !! name).
Proof.
  intros Hta Hwf H1 H2.
  destruct (engine_inv _ _ _ H1) as (full1 & Hfull1 & ->).
  destruct (engine_inv _ _ _ H2) as (full2 & Hfull2 & ->).
  exists full2. split; [done|].
  destruct (with_indicators_bars _ _ _ Hta Hfull1)
    as (Hidx1 & Hbars1 & o & h & l & c & Ho & Hh & Hl & Hc & Hhl1 & Hoc1).
  destruct (with_indicators_bars _ _ _ Hta Hfull2)
    as (Hidx2 & Hbars2 & o' & h' & l' & c' & Ho' & Hh' & Hl' & Hc' & Hhl2 & Hoc2).
  assert (forall name, columns full2 !! name = columns (dropna full1) !! name ->
            columns (dropna full2) !! name
            = select_rows (dropna_mask full2) <$> columns (dropna full1) !! name)
    as Hkeep.
  { intros name Hname. by rewrite dropna_column, Hname. }
  split.
  { unfold dropna at 1, filter_rows. simpl. by rewrite Hidx2. }
  split; [|exact Hkeep].
  intros name Hname. apply Hkeep.
  apply elem_of_app in Hname as [Hname|Hname]; [by apply Hbars2|].
  set (m1 := dropna_mask full1).
  assert (forall name xs, name ∈ TechnicalAnalysis.bar_names ->
            get_numeric name df = Some xs ->
            get_numeric name (dropna full1) = Some (select_rows m1 xs)) as Hsel.
  { intros b xs Hb Hxs. apply get_numeric_dropna.
    unfold get_numeric. rewrite Hbars1 by done. exact Hxs. }
  unfold TechnicalAnalysis.bar_names in Hsel.
  rewrite (Hsel "Open" o) in Ho' by (by repeat first [by left | right]).
  rewrite (Hsel "High" h) in Hh' by (by repeat first [by left | right]).
  rewrite (Hsel "Low" l) in Hl' by (by repeat first [by left | right]).
  rewrite (Hsel "Close" c) in Hc' by (by repeat first [by left | right]).
  simplify_eq.
  pose proof (get_numeric_length _ _ _ Hwf Ho) as Lo.
  pose proof (get_numeric_length _ _ _ Hwf Hh) as Lh.
  pose proof (get_numeric_length _ _ _ Hwf Hl) as Ll.
  pose proof (get_numeric_length _ _ _ Hwf Hc) as Lc.
  assert (nrows (dropna full1) = length (select_rows m1 (index df))) as Hn2.
  { unfold dropna, filter_rows, nrows. simpl. by rewrite Hidx1. }
  apply elem_of_cons in Hname as [->|Hname];
    [|apply list_elem_of_singleton in Hname as ->].
  - rewrite Hhl2, dropna_column, Hhl1. simpl. f_equal. fold m1.
    rewrite <- zip_with3_select_rows.
    unfold of_floats. rewrite <- select_rows_fmap.
    rewrite (align_id (nrows df)).
    2:{ rewrite length_fmap. unfold TechnicalAnalysis.zip_with3.
        rewrite !length_zip_with. lia. }
    apply align_id. rewrite Hn2. apply select_rows_length_eq.
    rewrite length_fmap. unfold TechnicalAnalysis.zip_with3.
    rewrite !length_zip_with. unfold nrows in *. lia.
  - rewrite Hoc2, dropna_column, Hoc1. simpl. f_equal. fold m1.
    rewrite <- select_rows_zip_with.
    unfold of_floats. rewrite <- select_rows_fmap.
    rewrite (align_id (nrows df)).
    2:{ rewrite length_fmap, length_zip_with. lia. }
    apply align_id. rewrite Hn2. apply select_rows_length_eq.
    rewrite length_fmap, length_zip_with. unfold nrows in *. lia.
Qed.

(** * The theorems at concrete inputs *)

(** C5 at the sample frame: its last row is a strong buy and satisfies the
    four standard-buy conditions. *)
Lemma strong_buy_implies_standard_buy_witness :
  Strategy.rsi_oversold Samples.signal_conditions !! 20%nat = Some true
  /\ Strategy.sma_crossover Samples.signal_conditions !! 20%nat = Some true
  /\ Strategy.volume_confirm Samples.signal_conditions !! 20%nat = Some true
  /\ Strategy.macd_bullish Samples.signal_conditions !! 20%nat = Some true.
Proof.
  apply (strong_buy_implies_standard_buy Samples.thresholds Samples.signal_frame
           Samples.signal_conditions
           (CInt <$> Strategy.signal_column 21 Samples.signal_conditions) 20).
  - vm_compute. reflexivity.
  - vm_compute. reflexivity.
  - vm_compute. reflexivity.
  - vm_compute. reflexivity.
Defined.



(** C7 at two trained models of equal accuracy: the Decision Tree is kept. *)
Lemma model_selection_witness :
  let st := MLModels.train_loop [1; 0]
              [("Decision Tree",
                Some (MLModels.DecisionTreeClassifier [Fin 1], [1; 1]));
               ("Logistic Regression", Some (MLModels.LogisticRegression, [0; 0]))] in
  MLModels.best_model st = Some (MLModels.DecisionTreeClassifier [Fin 1])
  /\ MLModels.best_accuracy st = Fin (1 # 2).
Proof.
  refine (proj2 (proj2 (proj1 (model_selection [] [1; 0] _ _) _ _ _ _ eq_refl eq_refl))
            _ _).
  - vm_compute. reflexivity.
  - vm_compute. reflexivity.
Defined.


Lemma sample_split_partition : MLModels.split_partition Samples.sklearn.
Proof.
  intros X y sp. simpl. destruct (_ || _); [done|]. intros [= <-]. simpl.
  by rewrite take_drop.
Qed.

(** C2 at the sample training frame: the last of its six bars (label 5) is
    given the label 0 and is a row of the training frame. *)
Lemma last_bar_is_labelled_and_kept_witness :
  let df' := (MLModels.train_ensemble_models Samples.sklearn
                Samples.training_frame).2 in
  (exists target, get_column "Target" df' = Some target
     /\ target !! 5%nat = Some (CInt 0))
  /\ 5%nat ∈ index (MLModels.ml_frame df')
  /\ (MLModels.split_partition Samples.sklearn ->
      forall y sp,
        MLModels.train_test_split Samples.sklearn
          (select_columns (MLModels.available_features df') (MLModels.ml_frame df')) y
        = Some sp ->
        5%nat ∈ index (MLModels.X_train sp) ++ index (MLModels.X_test sp)).
Proof.
  apply (last_bar_is_labelled_and_kept Samples.sklearn Samples.training_frame
           Samples.training_close 5).
  - vm_compute. reflexivity.
  - vm_compute. reflexivity.
  - vm_compute. reflexivity.
  - vm_compute. reflexivity.
  - intros f col Hf Hcol.
    assert (forallb
              (fun f => match columns (MLModels.train_ensemble_models
                                         Samples.sklearn Samples.training_frame).2 !! f with
                        | Some col => cell_present col 5
                        | None => true
                        end)
              (MLModels.available_features
                 (MLModels.train_ensemble_models Samples.sklearn
                    Samples.training_frame).2) = true) as Hall
      by (vm_compute; reflexivity).
    rewrite forallb_forall in Hall.
    specialize (Hall f (proj1 (list_elem_of_In _ _) Hf)).
    rewrite Hcol in Hall. exact Hall.
Defined.

(** ** The stand-ins satisfy what the theorems ask of the libraries *)

Section SampleFacts.

Import TechnicalAnalysis PandasTaReference.

Lemma sample_np_random_laws : DataLoader.np_random_laws Samples.np_random.
Proof.
  split; intros; simpl.
  - by rewrite length_fmap, length_seqZ, Nat2Z.id.
  - by rewrite length_fmap, length_seqZ, Nat2Z.id.
  - apply Forall_fmap, Forall_forall. intros i _. simpl.
    pose proof (Z.mod_pos_bound (st + i) 1000 ltac:(lia)).
    split; [rewrite <- (Zle_Qle 0)|rewrite <- Zlt_Qlt]; lia.
Qed.

Lemma with_series_no_raise (name : string) (need : nat) (df : DataFrame)
    (k : list float -> ta_result) :
  name ∈ bar_names -> bars_numeric df ->
  (forall xs, k xs ≠ TaRaise) ->
  with_series name need df k ≠ TaRaise.
Proof.
  intros Hname Hb Hk. unfold with_series.
  unfold bars_numeric in Hb. rewrite Forall_forall in Hb.
  destruct (Hb name Hname) as [xs Hxs]. unfold get_numeric in Hxs.
  destruct (columns df !! name) as [col|]; [|done]. simpl in Hxs.
  rewrite Hxs. destruct (_ <? _)%nat; [done|apply Hk].
Qed.

Lemma with_series_columns (name : string) (need : nat) (df : DataFrame)
    (k : list float -> ta_result) (cols : list (string * list float)) :
  with_series name need df k = TaColumns cols ->
  exists xs, k xs = TaColumns cols.
Proof.
  unfold with_series. destruct (columns df !! name) as [col|]; [|done].
  destruct (to_numeric col) as [xs|]; [|done].
  destruct (_ <? _)%nat; [done|]. by exists xs.
Qed.

Lemma library_never_raises : never_raises library.
Proof.
  unfold never_raises, indicator_calls.
  repeat apply Forall_cons_2; [..|apply Forall_nil_2];
    intros df Hb; simpl;
    unfold rsi, sma, ema, macd, bbands, stoch, willr, atr, ad, obv, with_hlc;
    repeat (apply with_series_no_raise;
            [unfold bar_names; repeat first [by left | right] | done | intros ?]);
    done.
Qed.

Lemma library_keeps_bars : keeps_bars library.
Proof.
  unfold keeps_bars, indicator_calls.
  repeat apply Forall_cons_2; [..|apply Forall_nil_2];
    intros df cols H; simpl in H;
    unfold rsi, sma, ema, macd, bbands, stoch, willr, atr, ad, obv, with_hlc in H;
    repeat (apply with_series_columns in H as [? H]);
    injection H as <-;
    repeat apply Forall_cons_2; try apply Forall_nil_2;
    apply (bool_decide_unpack _); by vm_compute.
Qed.

End SampleFacts.

(** C6 at the sample process. *)
Lemma synthetic_bars_invariant_witness :
  exists df,
    DataLoader.generate_enhanced_mock_data Samples.process Samples.morning
      "TCS.NS" "3mo" = Some df
    /\ nrows df = DataLoader.days_of "3mo"
    /\ forall i, (i < nrows df)%nat ->
         exists o h l c v,
           iloc df "Open" i = Some (CFloat o)
           /\ iloc df "High" i = Some (CFloat h)
           /\ iloc df "Low" i = Some (CFloat l)
           /\ iloc df "Close" i = Some (CFloat c)
           /\ iloc df "Volume" i = Some (CInt v)
           /\ leb o h = true /\ leb c h = true
           /\ leb l o = true /\ leb l c = true
           /\ 0 <= v.
Proof.
  apply (synthetic_bars_invariant Samples.process Samples.morning "TCS.NS" "3mo").
  exact sample_np_random_laws.
Defined.



Lemma sample_bars_numeric : TechnicalAnalysis.bars_numeric Samples.bars.
Proof.
  unfold TechnicalAnalysis.bars_numeric, TechnicalAnalysis.bar_names.
  repeat apply Forall_cons_2; try apply Forall_nil_2;
    apply (bool_decide_unpack _); by vm_compute.
Qed.

Lemma sample_bars_well_formed : TechnicalAnalysis.well_formed Samples.bars.
Proof. apply (bool_decide_unpack _). by vm_compute. Qed.

(** C8 at the hundred sample bars and the reference library. *)
Lemma indicator_engine_output_witness :
  exists full out,
    TechnicalAnalysis.with_indicators PandasTaReference.library Samples.bars
      = Some full
    /\ TechnicalAnalysis.calculate_advanced_indicators PandasTaReference.library
         Samples.bars = Some out
    /\ (forall name col c,
          columns out !! name = Some col -> c ∈ col -> isna c = false)
    /\ nrows out = (nrows Samples.bars - length (incomplete_rows full))%nat
    /\ (forall i, i ∈ incomplete_rows full <->
          (i < nrows Samples.bars)%nat
          /\ exists name col,
               columns full !! name = Some col /\ col !! i = Some (CFloat NaN))
    /\ (forall name col,
          columns full !! name = Some col ->
          columns out !! name = Some (select_rows (dropna_mask full) col)).
Proof.
  apply (indicator_engine_output PandasTaReference.library Samples.bars).
  - exact library_never_raises.
  - vm_compute. reflexivity.
  - exact sample_bars_numeric.
Defined.

(** C3 as stated fails: on bar 98 of the sample, which survives both runs,
    the on-balance volume is -25460 after the first run and -12160 after the
    second, which sums the signed volumes of the trimmed series only. *)
Lemma re_enrichment_changes_obv :
  (Samples.enriched_once ≫= fun df => cell_at df 98 "OBV")
    = Some (CFloat (of_Z (-25460)))
  /\ (Samples.enriched_twice ≫= fun df => cell_at df 98 "OBV")
    = Some (CFloat (of_Z (-12160))).
Proof. split; vm_compute; reflexivity. Qed.

Lemma idle_library_keeps_bars : TechnicalAnalysis.keeps_bars Samples.idle_library.
Proof.
  unfold TechnicalAnalysis.keeps_bars, TechnicalAnalysis.indicator_calls.
  repeat apply Forall_cons_2; try apply Forall_nil_2; intros df cols H; done.
Qed.

Lemma forty_bars_well_formed : TechnicalAnalysis.well_formed Samples.forty_bars.
Proof. apply (bool_decide_unpack _). by vm_compute. Qed.

(** C3, as amended, at forty sample bars and a library that computes
    nothing: bars 38 and 39 survive the second run with their bar columns and
    row-local features unchanged. *)
Lemma re_enrichment_keeps_row_local_columns_witness :
  let out1 := default empty_frame Samples.features_once in
  let out2 := default empty_frame Samples.features_twice in
  index out2 = [38; 39]%nat
  /\ exists full2,
    TechnicalAnalysis.with_indicators Samples.idle_library out1 = Some full2
    /\ index out2 = select_rows (dropna_mask full2) (index out1)
    /\ (forall name,
          name ∈ TechnicalAnalysis.bar_names ++ ["High_Low_Pct"; "Open_Close_Pct"] ->
          columns out2 !! name
          = select_rows (dropna_mask full2) <$> columns out1 !! name)
    /\ (forall name,
          columns full2 !! name = columns out1 !! name ->
          columns out2 !! name
          = select_rows (dropna_mask full2) <$> columns out1 !! name).
Proof.
  split; [vm_compute; reflexivity|].
  apply (re_enrichment_keeps_row_local_columns Samples.idle_library
           Samples.forty_bars).
  - exact idle_library_keeps_bars.
  - exact forty_bars_well_formed.
  - vm_compute. reflexivity.
  - vm_compute. reflexivity.
Defined.

Lemma generated_frame_not_empty (pr : DataLoader.process)
    (now : DataLoader.datetime) (ticker period : string) (df : DataFrame) :
  DataLoader.np_random_laws (DataLoader.np pr) ->
  DataLoader.generate_enhanced_mock_data pr now ticker period = Some df ->
  is_empty df = false.
Proof.
  intros Hlaws Hdf.
  destruct (generate_enhanced_mock_data_spec pr now ticker period Hlaws)
    as (m & _ & _ & Hgen).
  rewrite Hgen in Hdf. injection Hdf as <-.
  unfold is_empty. apply orb_false_iff. split.
  - unfold nrows. simpl. rewrite length_seq.
    destruct (days_of_cases period) as [->|[-> | ->]]; done.
  - apply bool_decide_eq_false. apply insert_non_empty.
Qed.

Lemma failing_library_gives_null (df : DataFrame) :
  is_empty df = false ->
  TechnicalAnalysis.calculate_advanced_indicators Samples.failing_library df = None.
Proof.
  intros He. unfold TechnicalAnalysis.calculate_advanced_indicators.
  rewrite He. reflexivity.
Qed.

Lemma sample_stage_sentinel :
  App.stage_sentinel
    (Pipeline.stages (Samples.environment Samples.failing_library))
    "TCS.NS" true.
Proof.
  destruct (generate_enhanced_mock_data_spec Samples.process Samples.morning
              "TCS.NS" "6mo" sample_np_random_laws) as (m & _ & _ & Hgen).
  right. eexists. split.
  - exact (f_equal Some Hgen).
  - right. refine (f_equal Some (failing_library_gives_null _ _)).
    exact (generated_frame_not_empty Samples.process Samples.morning "TCS.NS" "6mo" _
             sample_np_random_laws Hgen).
Qed.

(** C1 at two tickers and a library whose RSI call raises: the run stops at
    the first ticker with a [ValueError], at half of the progress bar. *)
Lemma run_aborts_on_null_stage_result_witness :
  exists u,
    App.run_trading_algorithm
      (Pipeline.stages (Samples.environment Samples.failing_library))
      ([] ++ "TCS.NS" :: ["INFY.NS"]) true
    = App.Raised (App.ValueError_unpack 4 3) u
    /\ App.results_generated u = false
    /\ App.successful_stocks u = 0%nat
    /\ App.progress u
       = (inject_Z (Z.of_nat (0 + 1))
          / inject_Z (Z.of_nat (length ([] ++ "TCS.NS" :: ["INFY.NS"]))))%Q.
Proof.
  apply (run_aborts_on_null_stage_result
           (Pipeline.stages (Samples.environment Samples.failing_library))
           [] ["INFY.NS"] "TCS.NS" true).
  - apply Forall_nil_2.
  - exact sample_stage_sentinel.
Defined.

(** * Further properties of the code *)

(** ** The data source *)

Section DataSourceFacts.

Import DataLoader.

Lemma StronglySorted_sublist {A : Type} (R : relation A) (l k : list A) :
  l `sublist_of` k -> StronglySorted R k -> StronglySorted R l.
Proof.
  induction 1 as [|x l k Hsub IH|x l k Hsub IH]; intros Hk.
  - constructor.
  - apply StronglySorted_inv in Hk as [Hk Hx]. constructor; [by apply IH|].
    apply Forall_forall. intros y Hy. rewrite Forall_forall in Hx.
    apply Hx. by eapply elem_of_sublist.
  - apply StronglySorted_inv in Hk as [Hk _]. by apply IH.
Qed.

Lemma seqZ_strongly_sorted (m len : Z) : StronglySorted Z.lt (seqZ m len).
Proof.
  destruct (Z_le_gt_dec len 0) as [Hle|Hgt].
  { rewrite seqZ_nil by done. constructor. }
  rewrite <- (Z2Nat.id len) by lia. generalize (Z.to_nat len) as n. clear.
  intros n. revert m. induction n as [|n IH]; intros m.
  { rewrite seqZ_nil by done. constructor. }
  rewrite seqZ_cons by lia. constructor.
  - replace (Z.pred (Z.of_nat (S n))) with (Z.of_nat n) by lia. apply IH.
  - apply Forall_forall. intros y Hy. apply elem_of_seqZ in Hy. lia.
Qed.

Lemma date_rng_sublist (now : datetime) (period : string) :
  date_rng now period
  `sublist_of` seqZ (dt_day now - lookback (days_of period))
                    (lookback (days_of period) + 1).
Proof.
  unfold date_rng, bdate_range.
  replace (dt_day now - (dt_day now - lookback (days_of period)) + 1)
    with (lookback (days_of period) + 1) by lia.
  etransitivity; [apply sublist_take|apply sublist_filter].
Qed.

Lemma generated_frame_numeric (m : mock_columns) (dates : list cell) (n : nat) :
  TechnicalAnalysis.bars_numeric
    (mkDataFrame (seq 0 n)
       (<["Volume" := CInt <$> mock_volume m]>
       (<["Low" := rounded_column (mock_low m)]>
       (<["High" := rounded_column (mock_high m)]>
       (<["Open" := rounded_column (mock_open m)]>
       (<["Close" := rounded_column (mock_close m)]>
       (<["Date" := dates]> ∅))))))).
Proof.
  assert (forall xs, is_Some (to_numeric (rounded_column xs))) as Hr.
  { intros xs. apply mapM_is_Some, Forall_forall. intros c Hc.
    unfold rounded_column, float_column in Hc.
    apply list_elem_of_fmap in Hc as (q & -> & _). by eexists. }
  assert (forall zs, is_Some (to_numeric (CInt <$> zs))) as Hz.
  { intros zs. apply mapM_is_Some, Forall_forall. intros c Hc.
    apply list_elem_of_fmap in Hc as (z & -> & _). by eexists. }
  unfold TechnicalAnalysis.bars_numeric, TechnicalAnalysis.bar_names.
  repeat apply Forall_cons_2; try apply Forall_nil_2;
    unfold get_numeric; simpl;
    repeat (rewrite lookup_insert_ne by done); rewrite lookup_insert_eq; simpl;
    done.
Qed.

End DataSourceFacts.

(** The clock only moves the window: the dates of the synthetic bars are as
    many as the period asks for (130, 65 or 260), all of them Monday-to-Friday
    days inside the look-back window that ends at the clock reading, in
    strictly increasing order. *)
Theorem mock_dates_are_business_days
    (now : DataLoader.datetime) (period : string) :
  let dates := DataLoader.date_rng now period in
  length dates = DataLoader.days_of period
  /\ Forall (fun d => (0 <= DataLoader.weekday d < 5)%Z
                      /\ (DataLoader.dt_day now
                          - DataLoader.lookback (DataLoader.days_of period) <= d
                          <= DataLoader.dt_day now)%Z) dates
  /\ StronglySorted Z.lt dates.
Proof.
  simpl. split; [apply date_rng_length|]. split.
  - apply Forall_forall. intros d Hd. split.
    + unfold DataLoader.date_rng, DataLoader.bdate_range in Hd.
      apply elem_of_take in Hd as (i & Hd & _).
      apply list_elem_of_lookup_2 in Hd. apply list_elem_of_filter in Hd as [Hb _].
      unfold DataLoader.is_business_day in Hb. apply Z.ltb_lt in Hb.
      unfold DataLoader.weekday in *.
      pose proof (Z.mod_pos_bound (d + 3) 7 ltac:(lia)). lia.
    + eapply elem_of_sublist in Hd; [|apply date_rng_sublist].
      apply elem_of_seqZ in Hd. lia.
  - eapply StronglySorted_sublist; [apply date_rng_sublist|].
    apply seqZ_strongly_sorted.
Qed.

(** The synthetic frame holds the six columns Date, Open, High, Low, Close
    and Volume and no other, one cell per row in each of them; the five bar
    columns hold numbers and no cell of the frame is missing. *)
Theorem generated_frame_shape
    (pr : DataLoader.process) (now : DataLoader.datetime)
    (ticker period : string) :
  DataLoader.np_random_laws (DataLoader.np pr) ->
  exists df,
    DataLoader.generate_enhanced_mock_data pr now ticker period = Some df
    /\ dom (columns df)
       = list_to_set (C := gset string)
           ["Date"; "Open"; "High"; "Low"; "Close"; "Volume"]
    /\ TechnicalAnalysis.well_formed df
    /\ TechnicalAnalysis.bars_numeric df
    /\ (forall name col c,
          columns df !! name = Some col -> c ∈ col -> isna c = false).
Proof.
  intros Hlaws.
  destruct (generate_enhanced_mock_data_spec pr now ticker period Hlaws)
    as (m & _ & Hinv & Hgen).
  eexists. split; [exact Hgen|]. destruct Hinv as [Hc Ho Hh Hl Hv _ _].
  split; [|split; [|split]].
  - simpl. rewrite !dom_insert_L, dom_empty_L. set_solver.
  - unfold TechnicalAnalysis.well_formed, nrows. simpl. rewrite length_seq.
    repeat (apply map_Forall_insert_2;
            [rewrite ?rounded_column_length, ?length_fmap, ?date_rng_length; done|]).
    apply map_Forall_empty.
  - apply generated_frame_numeric.
  - simpl. intros name col c Hcol Hin.
    repeat (apply lookup_insert_Some in Hcol as [[_ <-]|[_ Hcol]]);
      [..|by rewrite lookup_empty in Hcol].
    + apply list_elem_of_fmap in Hin as (z & -> & _). done.
    + unfold DataLoader.rounded_column, DataLoader.float_column in Hin.
      apply list_elem_of_fmap in Hin as (q & -> & _). done.
    + unfold DataLoader.rounded_column, DataLoader.float_column in Hin.
      apply list_elem_of_fmap in Hin as (q & -> & _). done.
    + unfold DataLoader.rounded_column, DataLoader.float_column in Hin.
      apply list_elem_of_fmap in Hin as (q & -> & _). done.
    + unfold DataLoader.rounded_column, DataLoader.float_column in Hin.
      apply list_elem_of_fmap in Hin as (q & -> & _). done.
    + apply list_elem_of_fmap in Hin as (z & -> & _). done.
Qed.

Lemma generated_frame_shape_witness :
  exists df,
    DataLoader.generate_enhanced_mock_data Samples.process Samples.morning
      "INFY.NS" "3mo" = Some df
    /\ dom (columns df)
       = list_to_set (C := gset string)
           ["Date"; "Open"; "High"; "Low"; "Close"; "Volume"]
    /\ TechnicalAnalysis.well_formed df
    /\ TechnicalAnalysis.bars_numeric df
    /\ (forall name col c,
          columns df !! name = Some col -> c ∈ col -> isna c = false).
Proof.
  apply (generated_frame_shape Samples.process Samples.morning "INFY.NS" "3mo").
  exact sample_np_random_laws.
Defined.



(** ** The indicator engine: what it reads and which rows it keeps *)

Section EngineRows.

Import Config TechnicalAnalysis.

Lemma append_all_index (calls : list (DataFrame -> ta_result)) (df df' : DataFrame) :
  append_all calls df = Some df' -> index df' = index df.
Proof.
  unfold append_all. revert df.
  induction calls as [|f calls IH]; intros df H.
  { simpl in H. by injection H as <-. }
  simpl in H. unfold append at 2 in H. destruct (f df) as [| |cols].
  - exfalso. clear -H. induction calls as [|g calls IH]; [done|]. by apply IH.
  - by apply IH.
  - rewrite (IH _ H). apply assign_columns_index.
Qed.

(** The custom features read the five bar columns as numbers, and 'Support'
    is the 20-row rolling minimum of 'Low'. *)
Lemma custom_features_reads (df df' : DataFrame) :
  custom_features df = Some df' ->
  bars_numeric df
  /\ index df' = index df
  /\ exists low,
       get_numeric "Low" df = Some low
       /\ columns df' !! "Support"
          = Some (align (nrows df) (of_floats (rolling_min 20 low))).
Proof.
  unfold custom_features. intros H.
  repeat match type of H with
  | context [get_numeric _ (set_column _ (of_floats _) _)] =>
      rewrite get_numeric_set_floats in H;
      match type of H with
      | context [decide (?a = ?b)] =>
          destruct (decide (a = b)) as [e|n];
          [ first [discriminate e | clear e]
          | first [exfalso; apply n; reflexivity | clear n] ]
      end
  | (get_numeric ?n ?d ≫= _) = Some _ =>
      destruct (get_numeric n d) eqn:?; [simpl in H|discriminate]
  | (Some _ ≫= _) = Some _ => simpl in H
  end.
  injection H as <-. split; [|split; [done|]].
  - unfold bars_numeric, bar_names.
    repeat apply Forall_cons_2; try apply Forall_nil_2; eauto.
  - simplify_eq. eexists. split; [reflexivity|].
    unfold set_column. simpl.
    repeat (rewrite lookup_insert_ne by done). by rewrite lookup_insert_eq.
Qed.

(** The first nineteen cells of a 20-row rolling aggregate are missing. *)
Lemma rolling_warmup (n i : nat) (agg : list float -> float) (xs : list float) :
  (i < 19)%nat -> (i < n)%nat ->
  align n (of_floats (rolling 20 agg xs)) !! i = Some (CFloat NaN).
Proof.
  intros Hi Hn. unfold align. rewrite lookup_take_lt by done.
  unfold of_floats, rolling.
  destruct (decide (i < length xs)%nat) as [Hlt|Hge].
  - rewrite lookup_app_l by (by rewrite !length_fmap, length_seq).
    rewrite !list_lookup_fmap, lookup_seq_lt by done.
    assert ((i + 1 <? 20)%nat = true) as E by (apply Nat.ltb_lt; lia).
    cbv [fmap option_fmap option_map]. cbv beta. change (0 + i)%nat with i.
    by rewrite E.
  - rewrite lookup_app_r by (rewrite !length_fmap, length_seq; lia).
    rewrite lookup_replicate_2; [done|]. rewrite !length_fmap, length_seq. lia.
Qed.

Lemma with_indicators_reads (ta : pandas_ta) (df full : DataFrame) :
  with_indicators ta df = Some full ->
  exists df1,
    append_all (indicator_calls ta) df = Some df1
    /\ bars_numeric df1
    /\ index full = index df
    /\ forall i, (i < 19)%nat -> (i < nrows df)%nat ->
         dropna_mask full !! i = Some false.
Proof.
  unfold with_indicators. intros H.
  destruct (append_all (indicator_calls ta) df) as [df1|] eqn:H1; [|done].
  simpl in H. exists df1. split; [done|].
  destruct (custom_features_reads _ _ H) as (Hb & Hidx & low & Hlow & Hsup).
  pose proof (append_all_index _ _ _ H1) as Hidx1.
  assert (nrows df1 = nrows df) as Hn1 by (unfold nrows; by rewrite Hidx1).
  assert (nrows full = nrows df) as Hn by (unfold nrows; by rewrite Hidx, Hidx1).
  split; [done|]. split; [by rewrite Hidx|].
  intros i Hi Hlt. rewrite dropna_mask_lookup by lia. f_equal.
  unfold row_complete. apply bool_decide_eq_false. intros Hall.
  specialize (Hall "Support" _ Hsup). unfold cell_present in Hall.
  unfold rolling_min in Hall. rewrite rolling_warmup in Hall by lia. done.
Qed.

(** Rows rejected at the head of the mask are not selected. *)
Lemma select_rows_skip {A : Type} (k : nat) (mask : list bool) (xs : list A) :
  (forall i, (i < k)%nat -> (i < length xs)%nat -> mask !! i = Some false) ->
  select_rows mask xs `sublist_of` drop k xs.
Proof.
  revert mask xs. induction k as [|k IH]; intros mask xs Hk.
  { rewrite drop_0. clear Hk. revert xs.
    induction mask as [|b mask IHm]; intros [|x xs]; simpl;
      try apply sublist_nil_l.
    destruct b; [by apply sublist_skip|by apply sublist_cons]. }
  destruct xs as [|x xs]; [by rewrite select_rows_nil_r|].
  destruct mask as [|b mask]; [apply sublist_nil_l|].
  pose proof (Hk 0%nat ltac:(lia) ltac:(simpl; lia)) as H0.
  injection H0 as ->. simpl. apply IH.
  intros i Hi Hlt. apply (Hk (S i)); simpl; lia.
Qed.

Lemma bars_numeric_columns (df df' : DataFrame) :
  (forall name, name ∈ bar_names -> columns df' !! name = columns df !! name) ->
  bars_numeric df' -> bars_numeric df.
Proof.
  intros Hsame Hb. unfold bars_numeric in *. rewrite Forall_forall in *.
  intros name Hname. specialize (Hb name Hname). unfold get_numeric in *.
  by rewrite <- Hsame.
Qed.

End EngineRows.

(** The engine keeps no bar of the warm-up: the rows of its result are rows
    of the input from the twentieth on, in the order and under the labels
    they had, so a frame of [n] bars gives at most [n - 19] rows, and a frame
    of fewer than twenty bars gives a frame without rows (not the null
    result). *)
Theorem engine_drops_warmup_rows
    (ta : TechnicalAnalysis.pandas_ta) (df out : DataFrame) :
  TechnicalAnalysis.calculate_advanced_indicators ta df = Some out ->
  index out `sublist_of` drop 19 (index df)
  /\ (nrows out <= nrows df - 19)%nat
  /\ ((nrows df < 20)%nat -> is_empty out = true).
Proof.
  intros H. destruct (engine_inv _ _ _ H) as (full & Hfull & ->).
  destruct (with_indicators_reads _ _ _ Hfull) as (df1 & _ & _ & Hidx & Hmask).
  assert (index (dropna full) `sublist_of` drop 19 (index df)) as Hsub.
  { unfold dropna, filter_rows. simpl. rewrite Hidx.
    apply select_rows_skip. intros i Hi Hlt. by apply Hmask. }
  assert (nrows (dropna full) <= nrows df - 19)%nat as Hle.
  { apply sublist_length in Hsub. rewrite length_drop in Hsub. exact Hsub. }
  split; [done|]. split; [done|].
  intros Hn. unfold is_empty. apply orb_true_iff. left. apply Nat.eqb_eq. lia.
Qed.

Lemma engine_drops_warmup_rows_witness :
  let out := default empty_frame Samples.features_once in
  index out `sublist_of` drop 19 (index Samples.forty_bars)
  /\ (nrows out <= nrows Samples.forty_bars - 19)%nat
  /\ ((nrows Samples.forty_bars < 20)%nat -> is_empty out = true).
Proof.
  apply (engine_drops_warmup_rows Samples.idle_library Samples.forty_bars).
  vm_compute. reflexivity.
Defined.

(** With a library that assigns no bar column, the engine's result holds the
    bars it was given: its rows are picked from the input by one mask, and
    Open, High, Low, Close and Volume hold on them the values of the input
    (no bar is altered, reordered or relabelled). *)
Theorem engine_keeps_bars_of_kept_rows
    (ta : TechnicalAnalysis.pandas_ta) (df out : DataFrame) :
  TechnicalAnalysis.keeps_bars ta ->
  TechnicalAnalysis.calculate_advanced_indicators ta df = Some out ->
  exists mask,
    length mask = nrows df
    /\ index out = select_rows mask (index df)
    /\ forall name, name ∈ TechnicalAnalysis.bar_names ->
         columns out !! name = select_rows mask <$> columns df !! name.
Proof.
  intros Hta H. destruct (engine_inv _ _ _ H) as (full & Hfull & ->).
  destruct (with_indicators_bars _ _ _ Hta Hfull) as (Hidx & Hbars & _).
  exists (dropna_mask full). split.
  { rewrite length_dropna_mask. unfold nrows. by rewrite Hidx. }
  split.
  { unfold dropna, filter_rows. simpl. by rewrite Hidx. }
  intros name Hname. by rewrite dropna_column, Hbars.
Qed.

Lemma engine_keeps_bars_of_kept_rows_witness :
  exists mask,
    length mask = nrows Samples.forty_bars
    /\ index (default empty_frame Samples.features_once)
       = select_rows mask (index Samples.forty_bars)
    /\ forall name, name ∈ TechnicalAnalysis.bar_names ->
         columns (default empty_frame Samples.features_once) !! name
         = select_rows mask <$> columns Samples.forty_bars !! name.
Proof.
  apply (engine_keeps_bars_of_kept_rows Samples.idle_library Samples.forty_bars).
  - exact idle_library_keeps_bars.
  - vm_compute. reflexivity.
Defined.

(** The engine gives its null result, whatever the library computes, when
    one of Open, High, Low, Close and Volume is missing from the frame or
    holds a cell that is not a number (the library assigning no bar column). *)
Theorem engine_needs_numeric_bars
    (ta : TechnicalAnalysis.pandas_ta) (df : DataFrame) :
  TechnicalAnalysis.keeps_bars ta ->
  ~ TechnicalAnalysis.bars_numeric df ->
  TechnicalAnalysis.calculate_advanced_indicators ta df = None.
Proof.
  intros Hta Hno.
  destruct (TechnicalAnalysis.calculate_advanced_indicators ta df) as [out|] eqn:H;
    [|done].
  exfalso. apply Hno.
  destruct (engine_inv _ _ _ H) as (full & Hfull & _).
  destruct (with_indicators_reads _ _ _ Hfull) as (df1 & H1 & Hb1 & _).
  destruct (append_all_bars _ _ _ Hta H1) as [_ Hbars].
  by eapply bars_numeric_columns.
Qed.

Lemma engine_needs_numeric_bars_witness :
  TechnicalAnalysis.calculate_advanced_indicators Samples.idle_library
    MoreSamples.no_volume_frame = None.
Proof.
  apply (engine_needs_numeric_bars Samples.idle_library MoreSamples.no_volume_frame).
  - exact idle_library_keeps_bars.
  - apply (bool_decide_unpack _). by vm_compute.
Defined.

(** The engine accepts what the generator produces: with a library that does
    not raise on bars, the synthetic frame of any ticker and period is
    enriched to a frame without missing cells, of at most the generated rows
    less the nineteen of the warm-up. *)
Theorem mock_data_is_enriched
    (ta : TechnicalAnalysis.pandas_ta) (pr : DataLoader.process)
    (now : DataLoader.datetime) (ticker period : string) :
  TechnicalAnalysis.never_raises ta ->
  DataLoader.np_random_laws (DataLoader.np pr) ->
  exists df out,
    DataLoader.generate_enhanced_mock_data pr now ticker period = Some df
    /\ TechnicalAnalysis.calculate_advanced_indicators ta df = Some out
    /\ (nrows out <= DataLoader.days_of period - 19)%nat
    /\ (forall name col c,
          columns out !! name = Some col -> c ∈ col -> isna c = false).
Proof.
  intros Hta Hlaws.
  destruct (generate_enhanced_mock_data_spec pr now ticker period Hlaws)
    as (m & _ & _ & Hgen).
  pose proof (generated_frame_not_empty pr now ticker period _ Hlaws Hgen) as Hne.
  pose proof (generated_frame_numeric m
                ((fun d => CTime d (DataLoader.dt_time now))
                 <$> DataLoader.date_rng now period)
                (DataLoader.days_of period)) as Hnum.
  match type of Hgen with _ = Some ?d => set (df := d) in * end.
  destruct (with_indicators_ok ta df Hta Hnum) as (full & Hfull & Hn).
  exists df, (dropna full). split; [exact Hgen|].
  assert (TechnicalAnalysis.calculate_advanced_indicators ta df
          = Some (dropna full)) as Hrun.
  { unfold TechnicalAnalysis.calculate_advanced_indicators.
    rewrite Hne, Hfull. reflexivity. }
  split; [exact Hrun|]. split.
  - destruct (with_indicators_reads _ _ _ Hfull) as (df1 & _ & _ & Hidx & Hmask).
    assert (index (dropna full) `sublist_of`
              drop 19 (seq 0 (DataLoader.days_of period))) as Hsub.
    { unfold dropna, filter_rows. simpl. rewrite Hidx.
      apply select_rows_skip. intros i Hi Hlt. by apply Hmask. }
    apply sublist_length in Hsub. rewrite length_drop, length_seq in Hsub.
    exact Hsub.
  - apply dropna_complete.
Qed.

Lemma mock_data_is_enriched_witness :
  exists df out,
    DataLoader.generate_enhanced_mock_data Samples.process Samples.morning
      "RELIANCE.NS" "1y" = Some df
    /\ TechnicalAnalysis.calculate_advanced_indicators PandasTaReference.library df
       = Some out
    /\ (nrows out <= DataLoader.days_of "1y" - 19)%nat
    /\ (forall name col c,
          columns out !! name = Some col -> c ∈ col -> isna c = false).
Proof.
  apply (mock_data_is_enriched PandasTaReference.library Samples.process
           Samples.morning "RELIANCE.NS" "1y").
  - exact library_never_raises.
  - exact sample_np_random_laws.
Defined.

(** ** The strategy: the signals it returns *)

Section SignalFacts.

Import Config Strategy.

Lemma strategy_result (th : thresholds) (df : DataFrame) (c : conditions) :
  is_empty df = false ->
  rule_conditions th df = Some c ->
  apply_enhanced_trading_strategy th df
  = let signal := signal_column (nrows df) c in
    let df' := set_column "Signal" (CInt <$> signal) df in
    let mask := (fun s => (0 <? s)%Z) <$> signal in
    (set_column "Signal_Type" (signal_type <$> select_rows mask signal)
       (filter_rows mask df'), df').
Proof.
  intros He Hc. unfold apply_enhanced_trading_strategy.
  assert (has_column "RSI_14" df = true) as ->.
  { unfold rule_conditions, get_numeric in Hc. unfold has_column.
    apply bool_decide_eq_true. destruct (columns df !! "RSI_14"); [eauto|done]. }
  by rewrite He, Hc.
Qed.

Lemma col_and_false_l (xs ys : list bool) (i : nat) :
  default false (xs !! i) = false -> default false (col_and xs ys !! i) = false.
Proof.
  unfold col_and. rewrite lookup_zip_with.
  destruct (xs !! i) as [[]|], (ys !! i) as [[]|]; simpl; done.
Qed.

Lemma col_and_false_r (xs ys : list bool) (i : nat) :
  default false (ys !! i) = false -> default false (col_and xs ys !! i) = false.
Proof.
  unfold col_and. rewrite lookup_zip_with.
  destruct (xs !! i) as [[]|], (ys !! i) as [[]|]; simpl; done.
Qed.

(** A row on which the standard-buy mask does not hold has the signal 0. *)
Lemma signal_column_zero (n : nat) (c : conditions) (i : nat) :
  (i < n)%nat ->
  default false (strong_buy c !! i) = false ->
  signal_column n c !! i = Some 0.
Proof.
  intros Hi Hsb. rewrite signal_column_lookup by done.
  unfold confirmed_buy. rewrite col_and_false_l; [by rewrite Hsb|].
  by apply col_and_false_l.
Qed.

(** The volume condition of lines 21 cannot hold before the twentieth row. *)
Lemma volume_confirm_warmup (volume : list float) (i : nat) :
  (i < 19)%nat ->
  default false (col_gt volume (rolling_mean 20 volume) !! i) = false.
Proof.
  intros Hi. unfold col_gt, rolling_mean, rolling.
  rewrite lookup_zip_with, list_lookup_fmap.
  destruct (volume !! i) as [v|] eqn:Hv; [|done]. simpl.
  rewrite lookup_seq_lt by (by eapply lookup_lt_Some). simpl.
  assert ((i + 1 <? 20)%nat = true) as E by (apply Nat.ltb_lt; lia).
  cbv [fmap option_fmap option_map mbind option_bind]. cbv beta.
  change (0 + i)%nat with i. rewrite E. simpl.
  unfold gtb. by destruct v.
Qed.

Lemma rule_conditions_volume (th : thresholds) (df : DataFrame) (c : conditions) :
  rule_conditions th df = Some c ->
  exists volume, volume_confirm c = col_gt volume (rolling_mean 20 volume).
Proof.
  unfold rule_conditions. intros H.
  repeat match type of H with
  | (get_numeric ?n ?d ≫= _) = Some _ =>
      destruct (get_numeric n d); [simpl in H|discriminate]
  end.
  injection H as <-. simpl. by eexists.
Qed.

Lemma rule_conditions_rsi (th : thresholds) (df : DataFrame) (c : conditions) :
  rule_conditions th df = Some c ->
  exists rsi, get_numeric "RSI_14" df = Some rsi
    /\ rsi_oversold c = col_lt_const rsi (RSI_OVERSOLD th).
Proof.
  unfold rule_conditions. intros H.
  destruct (get_numeric "RSI_14" df) as [rsi|]; [simpl in H|discriminate].
  repeat match type of H with
  | (get_numeric ?n ?d ≫= _) = Some _ =>
      destruct (get_numeric n d); [simpl in H|discriminate]
  end.
  injection H as <-. simpl. by eexists.
Qed.

(** The rule columns are not the 'Signal' column: writing it changes none
    of the conditions. *)
Lemma rule_conditions_set_signal (th : thresholds) (col : list cell) (df : DataFrame) :
  rule_conditions th (set_column "Signal" col df) = rule_conditions th df.
Proof.
  unfold rule_conditions, get_numeric, set_column. simpl.
  by repeat (rewrite lookup_insert_ne by done).
Qed.

Lemma select_rows_all_false {A : Type} (mask : list bool) (xs : list A) :
  Forall (fun b => b = false) mask -> select_rows mask xs = [].
Proof.
  intros H. revert xs. induction H as [|b mask -> _ IH]; intros [|x xs]; simpl;
    try done.
Qed.

Lemma select_rows_positive (signal : list Z) :
  Forall (fun s => 0 < s) (select_rows ((fun s => (0 <? s)%Z) <$> signal) signal).
Proof.
  induction signal as [|s signal IH]; [constructor|]. simpl.
  destruct (0 <? s)%Z eqn:E; [|done]. constructor; [|done]. by apply Z.ltb_lt.
Qed.

End SignalFacts.

(** The frame of buy signals the strategy returns holds exactly the rows of
    the evaluated frame whose signal is above 0, in their order and under
    their labels; its 'Signal' column holds only 1 and 2, and 'Signal_Type'
    names every one of them: "BUY" for 1 and "STRONG_BUY" for 2, never a
    missing value. *)
Theorem buy_signals_are_the_signalled_rows
    (th : Config.thresholds) (df : DataFrame) (c : Strategy.conditions) :
  is_empty df = false ->
  Strategy.rule_conditions th df = Some c ->
  let r := Strategy.apply_enhanced_trading_strategy th df in
  let signal := Strategy.signal_column (nrows df) c in
  let mask := (fun s => (0 <? s)%Z) <$> signal in
  let kept := select_rows mask signal in
  index r.1 = select_rows mask (index df)
  /\ get_column "Signal" r.1 = Some (CInt <$> kept)
  /\ get_column "Signal_Type" r.1
     = Some ((fun s => CStr (if (s =? 1)%Z then "BUY" else "STRONG_BUY")) <$> kept)
  /\ Forall (fun s => s = 1 \/ s = 2) kept
  /\ (forall name col, name ≠ "Signal" -> name ≠ "Signal_Type" ->
        columns df !! name = Some col ->
        get_column name r.1 = Some (select_rows mask col)).
Proof.
  intros He Hc r signal mask kept. subst r.
  rewrite (strategy_result th df c He Hc). cbv zeta. fold signal mask kept.
  assert (length signal = nrows df) as Hlen by apply signal_column_length.
  assert (Forall (fun s => s = 1 \/ s = 2) kept) as Hkept.
  { pose proof (select_rows_positive signal) as Hpos. fold mask kept in Hpos.
    apply Forall_forall. intros s Hs. rewrite Forall_forall in Hpos.
    specialize (Hpos s Hs). subst kept.
    apply elem_of_select_rows in Hs as (i & _ & Hs).
    apply signal_column_range in Hs. lia. }
  assert (nrows (filter_rows mask (set_column "Signal" (CInt <$> signal) df))
          = length kept) as Hn.
  { unfold filter_rows, nrows. simpl. subst kept.
    apply select_rows_length_eq. by rewrite Hlen. }
  split; [done|]. split; [|split; [|split; [done|]]].
  - unfold get_column, set_column, filter_rows. simpl.
    rewrite lookup_insert_ne by done. rewrite lookup_fmap, lookup_insert_eq.
    simpl. rewrite align_id by (by rewrite length_fmap).
    by rewrite select_rows_fmap.
  - unfold get_column. unfold set_column at 1. cbn [columns fst].
    rewrite lookup_insert_eq, Hn. rewrite align_id by (by rewrite length_fmap).
    f_equal. apply Forall_fmap_ext_1. eapply Forall_impl; [exact Hkept|].
    intros s [-> | ->]; done.
  - intros name col Hne Hne' Hcol. unfold get_column, set_column, filter_rows.
    simpl. rewrite lookup_insert_ne by done.
    rewrite lookup_fmap, lookup_insert_ne by done. by rewrite Hcol.
Qed.

Lemma buy_signals_are_the_signalled_rows_witness :
  let r := Strategy.apply_enhanced_trading_strategy Samples.thresholds
             Samples.signal_frame in
  let signal := Strategy.signal_column (nrows Samples.signal_frame)
                  Samples.signal_conditions in
  let mask := (fun s => (0 <? s)%Z) <$> signal in
  let kept := select_rows mask signal in
  index r.1 = select_rows mask (index Samples.signal_frame)
  /\ get_column "Signal" r.1 = Some (CInt <$> kept)
  /\ get_column "Signal_Type" r.1
     = Some ((fun s => CStr (if (s =? 1)%Z then "BUY" else "STRONG_BUY")) <$> kept)
  /\ Forall (fun s => s = 1 \/ s = 2) kept
  /\ (forall name col, name ≠ "Signal" -> name ≠ "Signal_Type" ->
        columns Samples.signal_frame !! name = Some col ->
        get_column name r.1 = Some (select_rows mask col)).
Proof.
  apply (buy_signals_are_the_signalled_rows Samples.thresholds Samples.signal_frame
           Samples.signal_conditions).
  - vm_compute. reflexivity.
  - vm_compute. reflexivity.
Defined.

(** No signal in the warm-up of the volume average: in every frame the
    strategy evaluated, each of the first nineteen rows has the signal 0, so
    none of them is among the buy signals returned. *)
Theorem no_signal_in_first_nineteen_rows
    (th : Config.thresholds) (df : DataFrame) (c : Strategy.conditions)
    (signal : list cell) (i : nat) :
  is_empty df = false ->
  Strategy.rule_conditions th df = Some c ->
  get_column "Signal" (Strategy.apply_enhanced_trading_strategy th df).2
    = Some signal ->
  (i < 19)%nat -> (i < nrows df)%nat ->
  signal !! i = Some (CInt 0)
  /\ index (Strategy.apply_enhanced_trading_strategy th df).1
     `sublist_of` drop 19 (index df).
Proof.
  intros He Hc Hsig Hi Hlt.
  destruct (rule_conditions_volume th df c Hc) as (volume & Hvol).
  assert (forall j, (j < 19)%nat -> (j < nrows df)%nat ->
            Strategy.signal_column (nrows df) c !! j = Some 0) as Hzero.
  { intros j Hj Hjn. apply signal_column_zero; [done|].
    unfold Strategy.strong_buy. apply col_and_false_l, col_and_false_r.
    rewrite Hvol. by apply volume_confirm_warmup. }
  split.
  - rewrite (signal_column_written th df c He Hc) in Hsig. injection Hsig as <-.
    rewrite list_lookup_fmap, Hzero by done. done.
  - rewrite (strategy_result th df c He Hc). cbv zeta. simpl.
    apply select_rows_skip. intros j Hj Hjn.
    rewrite list_lookup_fmap, Hzero by done. done.
Qed.

Lemma no_signal_in_first_nineteen_rows_witness :
  (CInt <$> Strategy.signal_column 21 Samples.signal_conditions) !! 7%nat
    = Some (CInt 0)
  /\ index (Strategy.apply_enhanced_trading_strategy Samples.thresholds
              Samples.signal_frame).1
     `sublist_of` drop 19 (index Samples.signal_frame).
Proof.
  apply (no_signal_in_first_nineteen_rows Samples.thresholds Samples.signal_frame
           Samples.signal_conditions).
  - vm_compute. reflexivity.
  - vm_compute. reflexivity.
  - vm_compute. reflexivity.
  - lia.
  - vm_compute. lia.
Defined.

(** Without an oversold RSI there is no signal: when no row of the frame has
    an RSI below the threshold (a missing RSI is not below it), every signal
    the strategy writes is 0 and the frame of buy signals it returns has no
    row. *)
Theorem no_oversold_rsi_no_signal (th : Config.thresholds) (df : DataFrame)
    (rsi : list float) :
  get_numeric "RSI_14" df = Some rsi ->
  Forall (fun x => ltb x (Config.RSI_OVERSOLD th) = false) rsi ->
  let r := Strategy.apply_enhanced_trading_strategy th df in
  nrows r.1 = 0%nat
  /\ (forall signal, get_column "Signal" r.2 = Some signal ->
        get_column "Signal" df = Some signal
        \/ signal = replicate (nrows df) (CInt 0)).
Proof.
  intros Hrsi Hall r. subst r.
  destruct (is_empty df) eqn:He.
  { unfold Strategy.apply_enhanced_trading_strategy. rewrite He. simpl.
    split; [done|]. intros signal Hs. by left. }
  destruct (Strategy.rule_conditions th df) as [c|] eqn:Hc.
  2:{ unfold Strategy.apply_enhanced_trading_strategy. rewrite He, Hc.
      destruct (negb _); simpl; (split; [done|]); intros signal Hs; by left. }
  destruct (rule_conditions_rsi th df c Hc) as (rsi' & Hrsi' & Hover).
  assert (rsi' = rsi) as -> by congruence.
  assert (Strategy.signal_column (nrows df) c = replicate (nrows df) 0) as Hzero.
  { apply list_eq. intros j.
    destruct (decide (j < nrows df)%nat) as [Hj|Hj].
    - rewrite lookup_replicate_2 by done. apply signal_column_zero; [done|].
      unfold Strategy.strong_buy. do 3 apply col_and_false_l.
      rewrite Hover. unfold Strategy.col_lt_const. rewrite list_lookup_fmap.
      destruct (rsi !! j) as [x|] eqn:Hx; [|done]. simpl.
      rewrite Forall_forall in Hall. apply Hall. by eapply list_elem_of_lookup_2.
    - rewrite !lookup_ge_None_2;
        rewrite ?signal_column_length, ?length_replicate; [done|lia|lia]. }
  split.
  - rewrite (strategy_result th df c He Hc). cbv zeta. rewrite Hzero.
    unfold nrows, set_column, filter_rows. simpl.
    rewrite select_rows_all_false; [done|].
    apply Forall_fmap, Forall_forall. by intros s [-> _]%elem_of_replicate.
  - intros signal Hs. right.
    rewrite (signal_column_written th df c He Hc) in Hs. injection Hs as <-.
    by rewrite Hzero, fmap_replicate.
Qed.

Lemma no_oversold_rsi_no_signal_witness :
  let r := Strategy.apply_enhanced_trading_strategy Samples.thresholds
             MoreSamples.calm_frame in
  nrows r.1 = 0%nat
  /\ (forall signal, get_column "Signal" r.2 = Some signal ->
        get_column "Signal" MoreSamples.calm_frame = Some signal
        \/ signal = replicate (nrows MoreSamples.calm_frame) (CInt 0)).
Proof.
  apply (no_oversold_rsi_no_signal Samples.thresholds MoreSamples.calm_frame
           (replicate 21 (of_Z 50))).
  - vm_compute. reflexivity.
  - apply (bool_decide_unpack _). by vm_compute.
Defined.

(** Evaluating the strategy again on the frame it has written to gives the
    same buy signals and leaves the frame as it is. *)
Theorem strategy_is_idempotent (th : Config.thresholds) (df : DataFrame) :
  Strategy.apply_enhanced_trading_strategy th
    (Strategy.apply_enhanced_trading_strategy th df).2
  = Strategy.apply_enhanced_trading_strategy th df.
Proof.
  destruct (is_empty df) eqn:He.
  { unfold Strategy.apply_enhanced_trading_strategy at 2. rewrite He. simpl.
    unfold Strategy.apply_enhanced_trading_strategy. by rewrite He. }
  destruct (Strategy.rule_conditions th df) as [c|] eqn:Hc.
  2:{ assert (Strategy.apply_enhanced_trading_strategy th df = (empty_frame, df))
        as Hsame.
      { unfold Strategy.apply_enhanced_trading_strategy. rewrite He, Hc.
        by destruct (negb _). }
      by rewrite Hsame at 1. }
  rewrite (strategy_result th df c He Hc). cbv zeta. cbn [snd].
  set (signal := Strategy.signal_column (nrows df) c).
  set (df' := set_column "Signal" (CInt <$> signal) df).
  assert (is_empty df' = false) as He'.
  { unfold is_empty in *. apply orb_false_iff in He as [Hn _].
    apply orb_false_iff. split; [exact Hn|].
    apply bool_decide_eq_false. apply insert_non_empty. }
  assert (Strategy.rule_conditions th df' = Some c) as Hc'
    by (subst df'; by rewrite rule_conditions_set_signal).
  rewrite (strategy_result th df' c He' Hc'). cbv zeta.
  change (nrows df') with (nrows df). fold signal.
  assert (set_column "Signal" (CInt <$> signal) df' = df') as ->; [|done].
  subst df'. unfold set_column. simpl. by rewrite insert_insert_eq.
Qed.

(** ** The trainer: features, labels and the importance ranking *)

Section FeatureFacts.

Import Strategy MLModels.

Lemma filter_has_column_ext (names : list string) (df df' : DataFrame) :
  Forall (fun f => columns df' !! f = columns df !! f) names ->
  filter (fun f => has_column f df' = true) names
  = filter (fun f => has_column f df = true) names.
Proof.
  induction 1 as [|f names Hf _ IH]; [done|].
  assert (has_column f df' = has_column f df) as E
    by (unfold has_column; by rewrite Hf).
  destruct (has_column f df) eqn:Hc.
  - rewrite !filter_cons_True by congruence. by rewrite IH.
  - rewrite !filter_cons_False by congruence. done.
Qed.

(** 'Target' is not a candidate feature: writing it changes none of the
    features found. *)
Lemma available_features_set_target (col : list cell) (df : DataFrame) :
  available_features (set_column "Target" col df) = available_features df.
Proof.
  unfold available_features. apply filter_has_column_ext.
  unfold ml_features, set_column. simpl.
  repeat apply Forall_cons_2; try apply Forall_nil_2;
    by rewrite lookup_insert_ne.
Qed.

Lemma insert_desc_perm (x : string * float) (l : list (string * float)) :
  insert_desc x l ≡ₚ x :: l.
Proof.
  induction l as [|y l IH]; [done|]. simpl. destruct (gtb y.2 x.2); [|done].
  rewrite IH. apply Permutation_swap.
Qed.

Lemma sort_desc_perm (l : list (string * float)) : sort_desc l ≡ₚ l.
Proof.
  induction l as [|x l IH]; [done|]. simpl.
  by rewrite insert_desc_perm, IH.
Qed.

Lemma ltb_asym (x y : float) : ltb x y = true -> ltb y x = false.
Proof.
  destruct x as [| | |a], y as [| | |b]; simpl; try done.
  intros H%negb_true_iff. apply negb_false_iff.
  destruct (Qle_bool a b) eqn:E; [done|].
  assert (~ (b <= a)%Q) as H1 by (rewrite <- Qle_bool_iff; congruence).
  assert (~ (a <= b)%Q) as H2 by (rewrite <- Qle_bool_iff; congruence).
  lra.
Qed.

(** In the sorted list no entry weighs more than the entry before it. *)
Lemma insert_desc_sorted (x : string * float) (l : list (string * float)) :
  Sorted (fun a b => gtb b.2 a.2 = false) l ->
  Sorted (fun a b => gtb b.2 a.2 = false) (insert_desc x l).
Proof.
  induction 1 as [|y l Hl IH Hy]; simpl.
  { by repeat constructor. }
  destruct (gtb y.2 x.2) eqn:E.
  - constructor; [done|]. destruct l as [|z l]; simpl.
    + constructor. unfold gtb in *. by apply ltb_asym.
    + destruct (gtb z.2 x.2).
      * constructor. by apply HdRel_inv in Hy.
      * constructor. unfold gtb in *. by apply ltb_asym.
  - constructor; [by constructor|]. by constructor.
Qed.

Lemma sort_desc_sorted (l : list (string * float)) :
  Sorted (fun a b => gtb b.2 a.2 = false) (sort_desc l).
Proof.
  induction l as [|x l IH]; [constructor|]. simpl. by apply insert_desc_sorted.
Qed.

Lemma Sorted_take {A : Type} (R : relation A) (n : nat) (l : list A) :
  Sorted R l -> Sorted R (take n l).
Proof.
  intros H. revert n. induction H as [|x l Hl IH Hx]; intros [|n]; simpl;
    try constructor; [apply IH|].
  destruct Hx as [|y l Hxy]; destruct n; simpl; by constructor.
Qed.

(** A run that returns a model went through the loop with the features it
    found in the frame, at least five of them. *)
Lemma train_ensemble_models_success (sk : sklearn) (df : DataFrame)
    (m : estimator) (acc : float) (det : details) :
  (train_ensemble_models sk df).1 = (Some m, acc, Some det) ->
  (5 <= length (available_features df))%nat
  /\ features_used det = available_features df
  /\ feature_importance det = importance_of m (available_features df).
Proof.
  unfold train_ensemble_models.
  destruct (is_empty df); [done|].
  destruct (get_numeric "Close" df) as [close|]; [|done].
  rewrite available_features_set_target.
  destruct (length _ <? 5)%nat eqn:E; [done|]. apply Nat.ltb_ge in E.
  destruct (fit_models sk _ _) as [st|]; [|done]. simpl.
  unfold finish. destruct (best_model st) as [m0|]; [|done].
  intros [= -> <- <-]. done.
Qed.

(** The caller's frame after the call, in every case. *)
Lemma train_ensemble_models_frame_cases (sk : sklearn) (df : DataFrame) :
  (train_ensemble_models sk df).2
  = if is_empty df then df
    else match get_numeric "Close" df with
         | Some close => set_column "Target" (target_column close) df
         | None => df
         end.
Proof.
  unfold train_ensemble_models.
  destruct (is_empty df); [done|].
  destruct (get_numeric "Close" df) as [close|]; [|done].
  destruct (length _ <? 5)%nat; [done|]. by destruct (fit_models _ _ _).
Qed.

End FeatureFacts.

(** With fewer than five of the candidate features in the frame the trainer
    trains nothing, whatever the library would do: it returns the empty
    result (None, 0, {}), yet the caller's frame has by then received the
    'Target' column. *)
Theorem training_refused_below_five_features
    (sk : MLModels.sklearn) (df : DataFrame) (close : list float) :
  is_empty df = false ->
  get_numeric "Close" df = Some close ->
  (length (MLModels.available_features df) < 5)%nat ->
  MLModels.train_ensemble_models sk df
  = (MLModels.empty_result,
     set_column "Target" (MLModels.target_column close) df)
  /\ has_column "Target" (MLModels.train_ensemble_models sk df).2 = true.
Proof.
  intros He Hc Hlen.
  assert (MLModels.train_ensemble_models sk df
          = (MLModels.empty_result,
             set_column "Target" (MLModels.target_column close) df)) as Hrun.
  { unfold MLModels.train_ensemble_models. rewrite He, Hc.
    rewrite available_features_set_target.
    by apply Nat.ltb_lt in Hlen as ->. }
  split; [done|]. rewrite Hrun. unfold has_column, set_column. simpl.
  apply bool_decide_eq_true. rewrite lookup_insert_eq. eauto.
Qed.

Lemma training_refused_below_five_features_witness :
  MLModels.train_ensemble_models Samples.sklearn MoreSamples.four_feature_frame
  = (MLModels.empty_result,
     set_column "Target" (MLModels.target_column MoreSamples.four_feature_close)
       MoreSamples.four_feature_frame)
  /\ has_column "Target"
       (MLModels.train_ensemble_models Samples.sklearn
          MoreSamples.four_feature_frame).2 = true.
Proof.
  apply (training_refused_below_five_features Samples.sklearn
           MoreSamples.four_feature_frame MoreSamples.four_feature_close).
  - vm_compute. reflexivity.
  - vm_compute. reflexivity.
  - vm_compute. lia.
Defined.

(** The details of a successful run: the features used are the candidate
    features that are columns of the frame, at least five of them; the
    importance ranking holds at most ten entries, each the importance the
    best model gives to one of the features used, and no entry weighs more
    than the one before it; it is empty when the best model is the logistic
    regression, which has no importances. *)
Theorem feature_importance_ranking
    (sk : MLModels.sklearn) (df : DataFrame)
    (m : MLModels.estimator) (acc : float) (det : MLModels.details) :
  (MLModels.train_ensemble_models sk df).1 = (Some m, acc, Some det) ->
  let ranking := MLModels.feature_importance det in
  (5 <= length (MLModels.features_used det))%nat
  /\ (forall f, f ∈ MLModels.features_used det <->
        f ∈ MLModels.ml_features /\ has_column f df = true)
  /\ (length ranking <= 10)%nat
  /\ Sorted (fun a b => gtb b.2 a.2 = false) ranking
  /\ (forall imp, m = MLModels.DecisionTreeClassifier imp ->
        ranking ⊆ zip (MLModels.features_used det) imp
        /\ length ranking
           = (10 `min` (length (MLModels.features_used det) `min` length imp))%nat)
  /\ (m = MLModels.LogisticRegression -> ranking = []).
Proof.
  intros Hrun ranking. subst ranking.
  destruct (train_ensemble_models_success sk df m acc det Hrun)
    as (Hfive & -> & ->).
  split; [done|]. split.
  { intros f. unfold MLModels.available_features.
    rewrite list_elem_of_filter. tauto. }
  split.
  { destruct m as [imp|]; simpl; [|lia]. rewrite length_take. lia. }
  split.
  { destruct m as [imp|]; simpl; [|constructor].
    apply Sorted_take, sort_desc_sorted. }
  split.
  - intros imp ->. simpl. split.
    + intros x Hx. apply elem_of_take in Hx as (i & Hx & _).
      apply list_elem_of_lookup_2 in Hx. by rewrite sort_desc_perm in Hx.
    + rewrite length_take, (Permutation_length (sort_desc_perm _)).
      by rewrite length_zip.
  - by intros ->.
Qed.

Lemma feature_importance_ranking_witness :
  exists m acc det,
    (MLModels.train_ensemble_models Samples.sklearn Samples.training_frame).1
    = (Some m, acc, Some det)
    /\ let ranking := MLModels.feature_importance det in
       (5 <= length (MLModels.features_used det))%nat
       /\ (forall f, f ∈ MLModels.features_used det <->
             f ∈ MLModels.ml_features
             /\ has_column f Samples.training_frame = true)
       /\ (length ranking <= 10)%nat
       /\ Sorted (fun a b => gtb b.2 a.2 = false) ranking
       /\ (forall imp, m = MLModels.DecisionTreeClassifier imp ->
             ranking ⊆ zip (MLModels.features_used det) imp
             /\ length ranking
                = (10 `min` (length (MLModels.features_used det)
                             `min` length imp))%nat)
       /\ (m = MLModels.LogisticRegression -> ranking = []).
Proof.
  eexists _, _, _. split; [vm_compute; reflexivity|].
  apply (feature_importance_ranking Samples.sklearn Samples.training_frame
           _ (Fin 50) _).
  vm_compute. reflexivity.
Defined.

(** What the trainer does to the caller's frame does not depend on the
    library nor on the outcome of the training: the rows and every column
    but 'Target' are left as they are, and when 'Close' can be read 'Target'
    holds one label per row, 1 where the next close is strictly higher and 0
    otherwise (also for equal closes). *)
Theorem trainer_frame_effect (sk : MLModels.sklearn) (df : DataFrame) :
  let df' := (MLModels.train_ensemble_models sk df).2 in
  index df' = index df
  /\ (forall name, name ≠ "Target" -> columns df' !! name = columns df !! name)
  /\ (forall sk', (MLModels.train_ensemble_models sk' df).2 = df')
  /\ (forall close, is_empty df = false ->
        get_numeric "Close" df = Some close -> length close = nrows df ->
        exists target,
          get_column "Target" df' = Some target
          /\ length target = nrows df
          /\ forall i c c', close !! i = Some c -> close !! S i = Some c' ->
               target !! i = Some (CInt (if gtb c' c then 1 else 0))).
Proof.
  intros df'. subst df'.
  pose proof (fun sk0 => train_ensemble_models_frame_cases sk0 df) as Hframe.
  split; [|split; [|split]].
  - rewrite Hframe. destruct (is_empty df); [done|].
    by destruct (get_numeric "Close" df).
  - intros name Hne. rewrite Hframe. destruct (is_empty df); [done|].
    destruct (get_numeric "Close" df); [|done].
    unfold set_column. simpl. by rewrite lookup_insert_ne.
  - intros sk'. by rewrite !Hframe.
  - intros close He Hc Hlen. rewrite Hframe, He, Hc.
    exists (MLModels.target_column close).
    unfold get_column, set_column. simpl. rewrite lookup_insert_eq.
    rewrite align_id by (by rewrite target_column_length).
    split; [done|]. split; [by rewrite target_column_length|].
    intros i c c'. apply target_column_lookup.
Qed.

Lemma trainer_frame_effect_witness :
  exists target,
    get_column "Target"
      (MLModels.train_ensemble_models Samples.sklearn Samples.training_frame).2
    = Some target
    /\ length target = nrows Samples.training_frame
    /\ forall i c c',
         Samples.training_close !! i = Some c ->
         Samples.training_close !! S i = Some c' ->
         target !! i = Some (CInt (if gtb c' c then 1 else 0)).
Proof.
  refine (proj2 (proj2 (proj2 (trainer_frame_effect Samples.sklearn
                                 Samples.training_frame)))
            Samples.training_close _ _ _).
  - vm_compute. reflexivity.
  - vm_compute. reflexivity.
  - vm_compute. reflexivity.
Defined.

(** ** The orchestrator: runs that complete *)

Section RunFacts.

Import App.

Lemma stage_sentinel_three (p : pipeline) (ticker : string) (use_mock : bool) :
  stage_sentinel p ticker use_mock <->
  length (process_stock p ticker use_mock).1 = 3%nat.
Proof.
  split.
  - intros H. by rewrite (process_stock_sentinel p ticker use_mock H).
  - intros H. unfold process_stock in H. unfold stage_sentinel.
    destruct (fetch_stock_data p ticker use_mock) as [[d|]|] eqn:Hf;
      [| by left | done].
    right. exists d. split; [done|].
    destruct (is_empty d); [by left|]. right.
    destruct (calculate_advanced_indicators p d) as [[data|]|]; [|done|done].
    exfalso. destruct (analyse p ticker data) as [results|] eqn:Ha; [|done].
    unfold analyse in Ha.
    destruct (apply_enhanced_trading_strategy p data) as [[sig d1]|]; [|done].
    simpl in Ha. destruct (train_ensemble_models p d1) as [[ml d2]|]; [|done].
    simpl in Ha. destruct (create_advanced_charts p d2 sig ticker); [|done].
    simpl in Ha. injection Ha as <-. done.
Qed.

(** The loop stops at a ticker with a null stage result, wherever it is. *)
Lemma process_all_raises (p : pipeline) (use_mock : bool) (total : nat)
    (tickers : list string) (i : nat) (u : ui_state) :
  Exists (fun t => stage_sentinel p t use_mock) tickers ->
  exists e u', process_all p use_mock total i tickers u = Raised e u'.
Proof.
  revert i u. induction tickers as [|t tickers IH]; intros i u Hex.
  { by apply Exists_nil in Hex. }
  simpl. destruct (process_stock p t use_mock) as [results lines] eqn:Hps.
  destruct (store_results t results _) as [u1|] eqn:Hst; [|by eexists _, _].
  apply Exists_cons in Hex as [Ht|Hex]; [|by apply IH].
  apply stage_sentinel_three in Ht. rewrite Hps in Ht. simpl in Ht.
  destruct results as [|a [|b [|c [|d rest]]]]; done.
Qed.

(** The loop over tickers for each of which the data fetch raises. *)
Lemma process_all_failed (p : pipeline) (use_mock : bool) (total : nat)
    (tickers : list string) (i : nat) (u : ui_state) :
  Forall (fun t => fetch_stock_data p t use_mock = None) tickers ->
  exists u',
    process_all p use_mock total i tickers u = Completed u'
    /\ successful_stocks u' = (successful_stocks u + length tickers)%nat
    /\ ml_results u' = ml_results u
    /\ plotted u' = plotted u
    /\ logs u'
       = logs u ++ (tickers ≫= fun t => [InfoProcessing t; ErrorProcessing t]).
Proof.
  revert i u. induction tickers as [|t tickers IH]; intros i u Hall.
  { exists u. simpl. rewrite app_nil_r. repeat split; try done; lia. }
  apply Forall_cons in Hall as [Ht Hall]. simpl.
  unfold process_stock. rewrite Ht. simpl.
  destruct (IH (i + 1)%nat
              (mkUi (inject_Z (Z.of_nat (i + 1)) / inject_Z (Z.of_nat total))
                 (results_generated u) (ml_results u) (plotted u)
                 (S (successful_stocks u))
                 (logs u ++ [InfoProcessing t; ErrorProcessing t])) Hall)
    as (u' & -> & Hs & Hm & Hp & Hl).
  exists u'. split; [done|]. simpl in *.
  rewrite Hs, Hm, Hp, Hl, <- app_assoc. repeat split; try done; lia.
Qed.

End RunFacts.

(** A run goes through to the end exactly when no ticker hits a null stage
    result; it then sets the progress bar to 1 and the completion flag,
    counts every ticker as successful and closes the log with the summary
    line. *)
Theorem run_completes_iff_no_null_result
    (p : App.pipeline) (tickers : list string) (use_mock : bool) :
  ((exists u, App.run_trading_algorithm p tickers use_mock = App.Completed u)
   <-> Forall (fun t => ~ App.stage_sentinel p t use_mock) tickers)
  /\ (forall u, App.run_trading_algorithm p tickers use_mock = App.Completed u ->
        App.progress u = 1%Q
        /\ App.results_generated u = true
        /\ App.successful_stocks u = length tickers
        /\ last (App.logs u)
           = Some (App.InfoCompleted (length tickers) (length tickers))).
Proof.
  assert (Forall (fun t => ~ App.stage_sentinel p t use_mock) tickers ->
          exists u', App.process_all p use_mock (length tickers) 0 tickers App.ui_init
                     = App.Completed u'
                     /\ App.successful_stocks u' = length tickers) as Hclean.
  { intros Hall.
    destruct (process_all_clean p use_mock (length tickers) tickers [] 0
                App.ui_init Hall) as (u' & Hrun & _ & Hs & _).
    rewrite app_nil_r in Hrun. exists u'. split; [by rewrite Hrun|].
    by rewrite Hs. }
  assert (Forall (fun t => ~ App.stage_sentinel p t use_mock) tickers
          \/ Exists (fun t => App.stage_sentinel p t use_mock) tickers) as Hcases.
  { clear Hclean. induction tickers as [|t tickers IH]; [by left|].
    destruct (decide (length (App.process_stock p t use_mock).1 = 3%nat)) as [H3|H3].
    - right. left. by apply stage_sentinel_three.
    - destruct IH as [IH|IH]; [left|by right; right].
      constructor; [|done]. by rewrite stage_sentinel_three. }
  split.
  - split.
    + intros [u Hu]. destruct Hcases as [Hall|Hex]; [done|exfalso].
      destruct (process_all_raises p use_mock (length tickers) tickers 0
                  App.ui_init Hex) as (e & u' & Hr).
      unfold App.run_trading_algorithm in Hu. by rewrite Hr in Hu.
    + intros Hall. destruct (Hclean Hall) as (u' & Hrun & _).
      unfold App.run_trading_algorithm. rewrite Hrun. by eexists.
  - intros u Hu. destruct Hcases as [Hall|Hex].
    + destruct (Hclean Hall) as (u' & Hrun & Hs).
      unfold App.run_trading_algorithm in Hu. rewrite Hrun in Hu.
      injection Hu as <-. simpl. rewrite Hs, last_snoc. done.
    + exfalso.
      destruct (process_all_raises p use_mock (length tickers) tickers 0
                  App.ui_init Hex) as (e & u' & Hr).
      unfold App.run_trading_algorithm in Hu. by rewrite Hr in Hu.
Qed.

(** A ticker whose data fetch raises is still counted: when the fetch raises
    for every ticker, the run completes and reports all of them as processed
    successfully, although it has stored no model result and shown no chart
    and has logged one processing error per ticker. *)
Theorem raising_tickers_are_counted_as_successful
    (p : App.pipeline) (tickers : list string) (use_mock : bool) :
  Forall (fun t => App.fetch_stock_data p t use_mock = None) tickers ->
  exists u,
    App.run_trading_algorithm p tickers use_mock = App.Completed u
    /\ App.successful_stocks u = length tickers
    /\ App.ml_results u = ∅
    /\ App.plotted u = []
    /\ App.logs u
       = (tickers ≫= fun t => [App.InfoProcessing t; App.ErrorProcessing t])
         ++ [App.InfoCompleted (length tickers) (length tickers)].
Proof.
  intros Hall. unfold App.run_trading_algorithm.
  destruct (process_all_failed p use_mock (length tickers) tickers 0
              App.ui_init Hall) as (u' & -> & Hs & Hm & Hp & Hl).
  eexists. split; [reflexivity|]. simpl in *.
  by rewrite Hs, Hm, Hp, Hl.
Qed.

Lemma raising_tickers_are_counted_as_successful_witness :
  exists u,
    App.run_trading_algorithm MoreSamples.offline_pipeline
      ["TCS.NS"; "INFY.NS"] false = App.Completed u
    /\ App.successful_stocks u = length ["TCS.NS"; "INFY.NS"]
    /\ App.ml_results u = ∅
    /\ App.plotted u = []
    /\ App.logs u
       = (["TCS.NS"; "INFY.NS"]
          ≫= fun t => [App.InfoProcessing t; App.ErrorProcessing t])
         ++ [App.InfoCompleted (length ["TCS.NS"; "INFY.NS"])
                               (length ["TCS.NS"; "INFY.NS"])].
Proof.
  apply (raising_tickers_are_counted_as_successful MoreSamples.offline_pipeline
           ["TCS.NS"; "INFY.NS"] false).
  repeat constructor.
Defined.

(** ** The logger *)

(** Every stage calls [setup_logger]; the calls after the first change
    nothing: the logger has the level INFO and keeps the handlers it had
    (their records included), a handler is added only when there was none,
    and the handler returned is always the first one of the logger. *)
Theorem setup_logger_is_idempotent (lg : Logger.logger) :
  let lg1 := (Logger.setup_logger lg).1 in
  Logger.setup_logger lg1 = (lg1, (Logger.setup_logger lg).2)
  /\ Logger.logger_level lg1 = Some Logger.INFO
  /\ (Logger.handlers lg ≠ [] -> Logger.handlers lg1 = Logger.handlers lg)
  /\ (Logger.handlers lg = [] -> Logger.handlers lg1 = [Logger.mkHandler []])
  /\ (Logger.setup_logger lg).2 = head (Logger.handlers lg1)
  /\ is_Some (Logger.setup_logger lg).2.
Proof.
  destruct lg as [lvl [|h hs]]; simpl; repeat split; try done; eauto.
Qed.

(** What reaches the log shown to the user: a record logged through the
    set-up logger is appended, after the records already there, to the
    handler's list as (time stamp, level name, "LEVEL - message") when its
    level is INFO or above; a DEBUG record leaves the list as it is. *)
Theorem logged_record_is_appended
    (strftime : Z -> string) (lg : Logger.logger) (r : Logger.log_record) :
  let lg1 := (Logger.setup_logger lg).1 in
  exists h h',
    head (Logger.handlers lg1) = Some h
    /\ head (Logger.handlers (Logger.log strftime lg1 r)) = Some h'
    /\ Logger.get_logs h'
       = Logger.get_logs h
         ++ (if (Logger.levelno (Logger.record_level r)
                 <? Logger.levelno Logger.INFO)%Z then []
             else [Logger.mkLogEntry (strftime (Logger.created r))
                     (Logger.levelname (Logger.record_level r))
                     (Logger.levelname (Logger.record_level r) +:+ " - "
                      +:+ Logger.record_msg r)]).
Proof.
  destruct lg as [lvl [|h hs]], r as [t [] msg]; simpl;
    eexists _, _; (split; [reflexivity|]); (split; [reflexivity|]);
    simpl; by rewrite ?app_nil_r.
Qed.

(** ** From the enriched frame to the chart *)

Section AnalysisFacts.

Import App.

Lemma is_empty_with_column (name : string) (df : DataFrame) :
  has_column name df = true -> is_empty df = (nrows df =? 0)%nat.
Proof.
  unfold has_column, is_empty. intros H%bool_decide_eq_true.
  rewrite bool_decide_eq_false_2; [by rewrite orb_false_r|].
  intros E. rewrite E, lookup_empty in H. by destruct H.
Qed.

Lemma has_column_set_column (name name' : string) (col : list cell) (df : DataFrame) :
  has_column name df = true -> has_column name (set_column name' col df) = true.
Proof.
  unfold has_column, set_column. intros H%bool_decide_eq_true.
  apply bool_decide_eq_true. simpl. rewrite lookup_insert_is_Some'. by right.
Qed.

Lemma has_column_filter_rows (name : string) (mask : list bool) (df : DataFrame) :
  has_column name df = true -> has_column name (filter_rows mask df) = true.
Proof.
  unfold has_column, filter_rows. intros H%bool_decide_eq_true.
  apply bool_decide_eq_true. simpl. rewrite lookup_fmap. by apply fmap_is_Some.
Qed.

(** The strategy keeps the rows and the columns of the caller's frame, and
    its buy signals are the empty frame or carry every column of it. *)
Lemma strategy_keeps_columns (th : Config.thresholds) (df : DataFrame) :
  let r := Strategy.apply_enhanced_trading_strategy th df in
  index r.2 = index df
  /\ (forall name, has_column name df = true -> has_column name r.2 = true)
  /\ (r.1 = empty_frame
      \/ forall name, has_column name df = true -> has_column name r.1 = true).
Proof.
  simpl. unfold Strategy.apply_enhanced_trading_strategy.
  destruct (is_empty df || negb (has_column "RSI_14" df)); [by auto|].
  destruct (Strategy.rule_conditions th df) as [c|]; [|by auto].
  simpl. split; [done|]. split.
  - intros name. apply has_column_set_column.
  - right. intros name H.
    by apply has_column_set_column, has_column_filter_rows, has_column_set_column.
Qed.

Lemma trainer_keeps_columns (sk : MLModels.sklearn) (df : DataFrame) :
  let df' := (MLModels.train_ensemble_models sk df).2 in
  index df' = index df
  /\ (forall name, has_column name df = true -> has_column name df' = true).
Proof.
  simpl. rewrite train_ensemble_models_frame_cases.
  destruct (is_empty df); [done|].
  destruct (get_numeric "Close" df); [|done].
  split; [done|]. intros name. apply has_column_set_column.
Qed.

Lemma analyse_stages (env : Pipeline.environment) (ticker : string)
    (data : DataFrame) :
  Forall (fun c => has_column c data = true)
         ["Date"; "Open"; "High"; "Low"; "Close"; "Volume"] ->
  let sd := Strategy.apply_enhanced_trading_strategy
              (Pipeline.env_thresholds env) data in
  let md := MLModels.train_ensemble_models (Pipeline.env_sklearn env) sd.2 in
  analyse (Pipeline.stages env) ticker data
  = Some [PyFrame md.2; PyFrame sd.1; PyTraining md.1;
          if is_empty data then PyNone else PyFigure (Figure ticker)].
Proof.
  intros Hcols sd md. unfold analyse, Pipeline.stages.
  cbn [apply_enhanced_trading_strategy train_ensemble_models
       create_advanced_charts]. simpl mbind. fold sd.
  destruct (strategy_keeps_columns (Pipeline.env_thresholds env) data)
    as (Hidx1 & Hcol1 & Hsig). fold sd in Hidx1, Hcol1, Hsig.
  destruct (trainer_keeps_columns (Pipeline.env_sklearn env) sd.2)
    as (Hidx2 & Hcol2). fold md in Hidx2, Hcol2.
  destruct sd as [signals d1] eqn:Esd. simpl in *. fold md.
  destruct md as [ml d2] eqn:Emd. simpl in *.
  assert (forall c, c ∈ ["Date"; "Open"; "High"; "Low"; "Close"; "Volume"] ->
            has_column c d2 = true) as Hd2.
  { intros c Hc. rewrite Forall_forall in Hcols. by apply Hcol2, Hcol1, Hcols. }
  assert (is_empty d2 = is_empty data) as He.
  { rewrite (is_empty_with_column "Date" d2)
      by (apply Hd2; by left).
    rewrite (is_empty_with_column "Date" data)
      by (rewrite Forall_forall in Hcols; apply Hcols; by left).
    unfold nrows. by rewrite Hidx2, Hidx1. }
  unfold Charts.create_advanced_charts. rewrite He.
  destruct (is_empty data); [done|].
  assert (forallb (fun c => has_column c d2)
            ["Date"; "Open"; "High"; "Low"; "Close"; "Volume"] = true) as ->.
  { apply forallb_forall. intros c Hc. apply Hd2. by apply list_elem_of_In. }
  assert (is_empty signals
          || has_column "Date" signals && has_column "Close" signals = true) as ->.
  { destruct Hsig as [->|Hsig]; [done|]. apply orb_true_iff. right.
    rewrite Forall_forall in Hcols.
    rewrite !Hsig; [done| |]; apply Hcols; repeat first [by left | right]. }
  done.
Qed.



End AnalysisFacts.

(** Once a frame holds the columns Date, Open, High, Low, Close and Volume,
    its analysis cannot fail: the strategy, the trainer and the chart
    renderer go through without raising, and [process_stock] gets the frame
    as the trainer left it (with the strategy's and the trainer's columns),
    the buy signals, the training result and, unless the frame has no row,
    a figure. *)
Theorem analysis_never_raises
    (env : Pipeline.environment) (ticker : string) (data : DataFrame) :
  Forall (fun c => has_column c data = true)
         ["Date"; "Open"; "High"; "Low"; "Close"; "Volume"] ->
  let sd := Strategy.apply_enhanced_trading_strategy
              (Pipeline.env_thresholds env) data in
  let md := MLModels.train_ensemble_models (Pipeline.env_sklearn env) sd.2 in
  App.analyse (Pipeline.stages env) ticker data
  = Some [App.PyFrame md.2; App.PyFrame sd.1; App.PyTraining md.1;
          if is_empty data then App.PyNone
          else App.PyFigure (App.Figure ticker)].
Proof. apply analyse_stages. Qed.

Lemma analysis_never_raises_witness :
  let env := Samples.environment Samples.idle_library in
  let sd := Strategy.apply_enhanced_trading_strategy
              (Pipeline.env_thresholds env) MoreSamples.dated_bars in
  let md := MLModels.train_ensemble_models (Pipeline.env_sklearn env) sd.2 in
  App.analyse (Pipeline.stages env) "INFY.NS" MoreSamples.dated_bars
  = Some [App.PyFrame md.2; App.PyFrame sd.1; App.PyTraining md.1;
          if is_empty MoreSamples.dated_bars then App.PyNone
          else App.PyFigure (App.Figure "INFY.NS")].
Proof.
  apply (analysis_never_raises (Samples.environment Samples.idle_library)
           "INFY.NS" MoreSamples.dated_bars).
  apply (bool_decide_unpack _). by vm_compute.
Defined.

Section MockRun.

Import App.



End MockRun.


